(** * FitU: calorie balance, calorie estimation and exercise recommendation

    A shallow embedding of the computational core of the FitU backend:

    - [services/calorie-tracking.service.js]   (daily and weekly balance),
    - [routes/index.js], [routes/exercise-logging.routes.js]
      (the balance routes and the calorie preview),
    - [controllers/calorie-entries.controller.js] (food logging),
    - [controllers/exercise-logging.controller.js] (calorie estimate,
      logging statistics, smart suggestion, daily listing),
    - [services/ai-recommendation.service.js]  (scorers and fusion),
    - [controllers/ai-recommendations.controller.js] (quick workout),
    - [services/firebase-realtime.service.js]  (sync queue and status),
    - [models/*.model.js]  (columns, ENUMs and validators).

    Conventions of the embedding.

    - A JavaScript number is a double, written as the rational it denotes.
      Counters, sums of INTEGER columns and the results of [Math.round] stay
      integers and are written in [Z].  Where the code multiplies, divides
      or adds decimals the operation is the one of [Double]: the operands
      are taken to their nearest doubles (a DECIMAL column holds a decimal,
      the code computes with the double nearest to it) and the exact
      result is rounded to the nearest double, ties to the even mantissa.
      The exponent range is left unbounded: no number of the program
      comes near the largest or the smallest double.  The two ratios of
      the weekly summary divide an integer by 7; they are written exactly.
    - [Math.round] is exact: [fun x => Qfloor (x + 1/2)].
    - A [Date] is its number of milliseconds since the epoch.  The local
      clock of the server is ahead of UTC by the offset of its [Zone], the
      same all year, so that every local day has 86 400 000 milliseconds;
      [toISOString] reads the UTC clock.
    - A Sequelize table is the list of its rows; a query either resolves
      with rows or rejects with a message.  [Model.create] runs the
      validators of the model before it writes.
    - An [async] function that may throw returns a [Result]; the call of a
      method that the class does not define throws a TypeError. *)

From Stdlib Require Import ZArith QArith Qround Qabs Qpower Lia Bool Ascii.
From Stdlib Require Import String Sorted Permutation Lqa.
From stdpp Require Import gmap strings list.

Local Open Scope string_scope.
Local Open Scope Z_scope.

(** ** JavaScript numbers *)

Module Math.

(** [Math.round]: the nearest integer, ties towards +infinity. *)
Definition round (x : Q) : Z := Qfloor (x + (1 # 2))%Q.

Definition abs (x : Z) : Z := Z.abs x.

End Math.

Module Double.

Definition pow2 (e : Z) : Q := (2 ^ e)%Q.

(** The binary exponent of a positive number: [pow2 e <= x < pow2 (e + 1)]. *)
Definition ilog2 (x : Q) : Z :=
  let l := Z.log2 (Qnum x) - Z.log2 (Zpos (Qden x)) in
  if Qle_bool (pow2 l) x then l else l - 1.

(** The nearest integer, ties to the even one. *)
Definition rne (q : Q) : Z :=
  let f := Qfloor q in
  match (q - inject_Z f ?= 1 # 2)%Q with
  | Lt => f
  | Gt => f + 1
  | Eq => if Z.even f then f else f + 1
  end.

(** The nearest double of a positive number: a mantissa of 53 bits at the
    scale of the number. *)
Definition nearestPos (x : Q) : Q :=
  let s := ilog2 x - 52 in
  (inject_Z (rne (x / pow2 s)) * pow2 s)%Q.

(** The double nearest to a number: what a numeric literal or the text of
    a DECIMAL column becomes, and what an operation makes of its exact
    result. *)
Definition nearest (x : Q) : Q :=
  match (x ?= 0)%Q with
  | Eq => 0%Q
  | Gt => Qred (nearestPos x)
  | Lt => Qred (- nearestPos (- x))
  end.

(** [a * b], [a / b], [a + b] and [a - b]. *)
Definition mul (a b : Q) : Q := nearest (nearest a * nearest b).
Definition div (a b : Q) : Q := nearest (nearest a / nearest b).
Definition add (a b : Q) : Q := nearest (nearest a + nearest b).
Definition sub (a b : Q) : Q := nearest (nearest a - nearest b).

(** [a > b] and [a <= b] *)
Definition gtb (a b : Q) : bool := negb (Qle_bool (nearest a) (nearest b)).
Definition leb (a b : Q) : bool := Qle_bool (nearest a) (nearest b).

(** [array.reduce((total, x) => total + f(x), 0)] *)
Definition sum {A} (f : A -> Q) (l : list A) : Q :=
  fold_left (fun total x => add total (f x)) l 0%Q.

End Double.

(** ** Results of [async] functions *)

Inductive Result (A : Type) : Type :=
| Ok (a : A)
| Err (message : string).
Arguments Ok {A} a.
Arguments Err {A} message.

Definition bind {A B} (r : Result A) (k : A -> Result B) : Result B :=
  match r with
  | Ok a => k a
  | Err m => Err m
  end.

Notation "x <- r ;; k" := (bind r (fun x => k))
  (at level 100, r at next level, right associativity).

(** [try { body } catch (error) { throw new Error(prefix + error.message) }] *)
Definition rethrow {A} (prefix : string) (body : Result A) : Result A :=
  match body with
  | Ok a => Ok a
  | Err m => Err (prefix +:+ m)
  end.

(** [try { body } catch (error) { return fallback }] *)
Definition recover {A} (fallback : A) (body : Result A) : A :=
  match body with
  | Ok a => a
  | Err _ => fallback
  end.

Definition is_ok {A} (r : Result A) : bool :=
  match r with Ok _ => true | Err _ => false end.

(** ** Data model (the Sequelize models) *)

Definition Date := Z.

(** The ENUM columns. *)
Inductive Category := cardio | strength | flexibility | sports | functional.
Inductive Difficulty := beginner | intermediate | advanced.
Inductive ActivityLevel :=
| sedentary | lightly_active | moderately_active | very_active
| extremely_active.
Inductive FitnessGoal :=
| lose_weight | maintain_weight | gain_weight | build_muscle
| improve_fitness.

Global Instance Category_eq_dec : EqDecision Category.
Proof. solve_decision. Defined.
Global Instance Difficulty_eq_dec : EqDecision Difficulty.
Proof. solve_decision. Defined.
Global Instance ActivityLevel_eq_dec : EqDecision ActivityLevel.
Proof. solve_decision. Defined.
Global Instance FitnessGoal_eq_dec : EqDecision FitnessGoal.
Proof. solve_decision. Defined.

Module Users.
Record t := {
    id : Z;
    firebase_uid : string;
    activity_level : option ActivityLevel;
    fitness_goal : option FitnessGoal;
    daily_calorie_goal : option Z
  }.
End Users.

Module Exercises.
Record t := {
    id : Z;
    name : string;
    category : Category;
    muscle_groups : list string;
    difficulty_level : Difficulty;
    calories_per_minute : option Q;
    is_active : bool
  }.
End Exercises.

Module CalorieEntries.
Record t := {
    user_id : Z;
    calories_per_serving : Z;
    servings_consumed : Q;
    consumed_at : Date
  }.

  (** The virtual attribute [total_calories] of the model. *)
Definition total_calories (e : t) : Z :=
    Math.round (Double.mul (inject_Z (calories_per_serving e))
                           (servings_consumed e)).
End CalorieEntries.

Module UserExercises.
Record t := {
    user_id : Z;
    exercise_id : Z;
    duration_minutes : option Z;
    calories_burned : option Z;
    performed_at : Date;
    rating : option Z;
    (* include: [{ model: Exercises, as: 'exercise' }] *)
    exercise : option Exercises.t
  }.
End UserExercises.

(** The storage collaborator: every table answers a query with its rows or
    rejects. *)
Record Database := {
  users : Result (list Users.t);
  calorie_entries : Result (list CalorieEntries.t);
  user_exercises : Result (list UserExercises.t);
  exercises : Result (list Exercises.t)
}.

(** [Model.findOne({ where })] and [Model.findAll({ where })]. *)
Definition findOne {A} (table : Result (list A)) (where_ : A -> bool)
  : Result (option A) :=
  rows <- table ;; Ok (List.find where_ rows).

Definition findAll {A} (table : Result (list A)) (where_ : A -> bool)
  : Result (list A) :=
  rows <- table ;; Ok (List.filter where_ rows).

(** ** Days *)

Definition MS_PER_DAY : Z := 24 * 60 * 60 * 1000.

(** The zone of the server: the milliseconds its local clock is ahead of
    UTC. *)
Class Zone := utcOffset : Z.

(** [currentDate.setDate(weekStartDate.getDate() + i)] *)
Definition addDays (date : Date) (i : Z) : Date := date + i * MS_PER_DAY.

(** [{ [Op.between]: [lo, hi] }] *)
Definition between (lo hi x : Z) : bool := (lo <=? x) && (x <=? hi).

(** [date.toISOString().split('T')[0]]: the UTC day, as a day number. *)
Definition isoDay (date : Date) : Z := date / MS_PER_DAY.

Section LocalClock.

Context {zone : Zone}.

(** What the local clock shows at an instant, and its day. *)
Definition localClock (date : Date) : Z := date + utcOffset.
Definition localDay (date : Date) : Z := localClock date / MS_PER_DAY.

(** [d.setHours(0, 0, 0, 0)] and [d.setHours(23, 59, 59, 999)]: the first
    and the last instant of the local day. *)
Definition startOfDay (date : Date) : Date :=
  date - localClock date mod MS_PER_DAY.
Definition endOfDay (date : Date) : Date := startOfDay date + (MS_PER_DAY - 1).

End LocalClock.

(** ** services/calorie-tracking.service.js *)

Inductive Status := UNDER_GOAL | OVER_GOAL | NO_GOAL_SET.

Global Instance Status_eq_dec : EqDecision Status.
Proof. solve_decision. Defined.

Record DailyBalance := {
  date : Z;
  food_calories : Z;
  exercise_calories : Z;
  net_calories : Z;
  daily_goal : Z;
  calorie_balance : Z;
  is_under_goal : bool;
  is_over_goal : bool;
  goal_percentage : Z;
  status : Status;
  remaining_calories : Z;
  excess_calories : Z
}.

Definition by_firebase_uid (userId : string) (u : Users.t) : bool :=
  String.eqb (Users.firebase_uid u) userId.

(** [entry.calories_per_serving * entry.servings_consumed] *)
Definition foodProduct (entry : CalorieEntries.t) : Q :=
  Double.mul (inject_Z (CalorieEntries.calories_per_serving entry))
             (CalorieEntries.servings_consumed entry).

Section BalanceService.

Context {zone : Zone}.

Definition getDailyFoodCalories (db : Database) (userId : string) (date : Date)
  : Result Z :=
  rethrow "Error calculating daily food calories: " (
    user <- findOne (users db) (by_firebase_uid userId) ;;
    match user with
    | None => Ok 0
    | Some user =>
        foodEntries <- findAll (calorie_entries db) (fun e =>
          (CalorieEntries.user_id e =? Users.id user)
          && between (startOfDay date) (endOfDay date)
                     (CalorieEntries.consumed_at e)) ;;
        let totalFoodCalories :=
          fold_left (fun total entry => Double.add total (foodProduct entry))
                    foodEntries 0%Q in
        Ok (Math.round totalFoodCalories)
    end).

Definition getDailyExerciseCalories (db : Database) (userId : string)
  (date : Date) : Result Z :=
  rethrow "Error calculating daily exercise calories: " (
    user <- findOne (users db) (by_firebase_uid userId) ;;
    match user with
    | None => Ok 0
    | Some user =>
        exerciseEntries <- findAll (user_exercises db) (fun e =>
          (UserExercises.user_id e =? Users.id user)
          && between (startOfDay date) (endOfDay date)
                     (UserExercises.performed_at e)) ;;
        let totalExerciseCalories :=
          fold_left (fun total entry =>
                       total + default 0 (UserExercises.calories_burned entry))
                    exerciseEntries 0 in
        Ok (Math.round (inject_Z totalExerciseCalories))
    end).

Definition getUserDailyGoal (db : Database) (userId : string) : Z :=
  recover 0 (
    user <- findOne (users db) (by_firebase_uid userId) ;;
    match user with
    | None => Ok 0
    | Some user =>
        match Users.daily_calorie_goal user with
        | None => Ok 0
        | Some goal => Ok goal   (* a goal of 0 is falsy and yields 0 *)
        end
    end).

Definition calculateDailyBalance (db : Database) (userId : string)
  (date : Date) : Result DailyBalance :=
  rethrow "Error calculating daily balance: " (
    foodCalories <- getDailyFoodCalories db userId date ;;
    exerciseCalories <- getDailyExerciseCalories db userId date ;;
    let dailyGoal := getUserDailyGoal db userId in
    let netCalories := foodCalories - exerciseCalories in
    let calorieBalance := dailyGoal - netCalories in
    let isUnderGoal :=
      if dailyGoal =? 0 then true else netCalories <=? dailyGoal in
    let isOverGoal :=
      if dailyGoal =? 0 then false else netCalories >? dailyGoal in
    let goalPercentage :=
      if dailyGoal >? 0
      then Math.round (Double.mul (Double.div (inject_Z netCalories)
                                              (inject_Z dailyGoal)) 100)
      else 0 in
    Ok {| date := isoDay date;
          food_calories := foodCalories;
          exercise_calories := exerciseCalories;
          net_calories := netCalories;
          daily_goal := dailyGoal;
          calorie_balance := calorieBalance;
          is_under_goal := isUnderGoal;
          is_over_goal := isOverGoal;
          goal_percentage := goalPercentage;
          status := if dailyGoal =? 0 then NO_GOAL_SET
                    else if isUnderGoal then UNDER_GOAL else OVER_GOAL;
          remaining_calories :=
            if (dailyGoal >? 0) && isUnderGoal then calorieBalance else 0;
          excess_calories :=
            if (dailyGoal >? 0) && isOverGoal
            then Math.abs calorieBalance else 0 |}).

Record WeeklyTotals := {
  total_food : Z;
  total_exercise : Z;
  total_net : Z;
  days_under_goal : Z;
  days_over_goal : Z
}.

Record WeeklyBalance := {
  week_start : Z;
  daily_balances : list DailyBalance;
  weekly_totals : WeeklyTotals;
  weekly_average_net : Z;
  success_rate : Z
}.

(** The [for (let i = 0; i < 7; i++)] loop: days [i], [i+1], ..., [6],
    pushed in order; the first rejected day aborts the loop. *)
Fixpoint weekLoop (db : Database) (userId : string) (weekStartDate : Date)
  (i : Z) (remaining : nat) : Result (list DailyBalance) :=
  match remaining with
  | O => Ok []
  | S remaining' =>
      dayBalance <- calculateDailyBalance db userId (addDays weekStartDate i) ;;
      rest <- weekLoop db userId weekStartDate (i + 1) remaining' ;;
      Ok (dayBalance :: rest)
  end.

Definition addDay (totals : WeeklyTotals) (day : DailyBalance) : WeeklyTotals :=
  {| total_food := total_food totals + food_calories day;
     total_exercise := total_exercise totals + exercise_calories day;
     total_net := total_net totals + net_calories day;
     days_under_goal :=
       days_under_goal totals + (if is_under_goal day then 1 else 0);
     days_over_goal :=
       days_over_goal totals + (if is_over_goal day then 1 else 0) |}.

Definition noTotals : WeeklyTotals :=
  {| total_food := 0; total_exercise := 0; total_net := 0;
     days_under_goal := 0; days_over_goal := 0 |}.

Definition getWeeklyBalance (db : Database) (userId : string)
  (weekStartDate : Date) : Result WeeklyBalance :=
  rethrow "Error calculating weekly balance: " (
    weekDays <- weekLoop db userId weekStartDate 0 7 ;;
    let weeklyTotals := fold_left addDay weekDays noTotals in
    Ok {| week_start := isoDay weekStartDate;
          daily_balances := weekDays;
          weekly_totals := weeklyTotals;
          weekly_average_net :=
            Math.round (inject_Z (total_net weeklyTotals) / 7)%Q;
          success_rate :=
            Math.round ((inject_Z (days_under_goal weeklyTotals) / 7) * 100)%Q
       |}).

End BalanceService.

(** ** JavaScript truthiness of nullable numbers *)

Definition truthyZ (v : option Z) : bool :=
  match v with
  | Some n => negb (n =? 0)
  | None => false
  end.

Definition Qgtb (x y : Q) : bool := negb (Qle_bool x y).

Definition truthyQ (v : option Q) : bool :=
  match v with
  | Some q => negb (Qeq_bool q 0)
  | None => false
  end.

(** [v || fallback] on numbers. *)
Definition orZ (v : option Z) (fallback : Z) : Z :=
  match v with
  | Some n => if n =? 0 then fallback else n
  | None => fallback
  end.

Definition orQ (v : option Q) (fallback : Q) : Q :=
  match v with
  | Some q => if Qeq_bool q 0 then fallback else q
  | None => fallback
  end.

(** HTTP responses of the controllers. *)
Inductive Response (A : Type) : Type :=
| Created (data : A)            (* 201 *)
| NotFound (message : string)   (* 404 *)
| ServerError (error : string). (* 500 *)
Arguments Created {A} data.
Arguments NotFound {A} message.
Arguments ServerError {A} error.

(** ** Validation of a row by its model

    [Model.create] validates the values before it writes: a column that
    does not allow null must have a value, and a value that is there must
    pass the [min] and [max] of its column.  Every failure is one line of
    the message of the error. *)

Definition notNull {A} (model column : string) (v : option A) : list string :=
  match v with
  | Some _ => []
  | None =>
      ["notNull Violation: " +:+ model +:+ "." +:+ column
       +:+ " cannot be null"]
  end.

Definition withinRange (column : string) (lo hi : Q) (v : option Q)
  : list string :=
  match v with
  | None => []
  | Some x =>
      ((if Double.leb lo x then []
        else ["Validation error: Validation min on " +:+ column
              +:+ " failed"])
       ++ (if Double.leb x hi then []
           else ["Validation error: Validation max on " +:+ column
                 +:+ " failed"]))%list
  end.

(** The message of a validation error: its lines, joined. *)
Fixpoint joinLines (lines : list string) : string :=
  match lines with
  | [] => ""
  | [line] => line
  | line :: rest => line +:+ "," +:+ String "010"%char (joinLines rest)
  end.

(** ** controllers/calorie-entries.controller.js *)

(** The body of a request, with the fields the balance reads and the name
    the model requires; the other fields (brand, serving size, nutrients,
    meal type, notes) are taken to be acceptable to the model.  The
    servings are taken to have the two decimals of their column. *)
Record FoodBody := {
  body_food_name : option string;
  body_calories_per_serving : option Z;
  body_servings_consumed : option Q;
  body_consumed_at : option Date
}.

(** The validators of [models/calorie-entries.model.js]. *)
Definition validateFoodEntry (food_name : option string)
  (calories_per_serving : option Z) (servings_consumed : Q) : list string :=
  (notNull "CalorieEntries" "food_name" food_name
   ++ notNull "CalorieEntries" "calories_per_serving" calories_per_serving
   ++ withinRange "calories_per_serving" 0 10000
                  (inject_Z <$> calories_per_serving)
   ++ withinRange "servings_consumed" (1 # 100) 100
                  (Some servings_consumed))%list.

Section FoodLogging.

  (** What the storage collaborator makes of a string written to an INTEGER
      column: the integer it stores, or [None] when it rejects the row. *)
Variable int_column : string -> option Z.

  (** [CalorieEntries.create({ user_id: req.user.uid, ... })]: the row is
      keyed by the Firebase UID of the request, not by [Users.id]. *)
Definition createFoodEntry (now : Date) (db : Database) (uid : string)
    (body : FoodBody) : Response CalorieEntries.t * Database :=
    let servings_consumed := orQ (body_servings_consumed body) 1 in
    match validateFoodEntry (body_food_name body)
                            (body_calories_per_serving body)
                            servings_consumed,
          body_calories_per_serving body with
    | [], Some calories_per_serving =>
        match calorie_entries db with
        | Err m => (ServerError m, db)
        | Ok rows =>
            match int_column uid with
            | None =>
                (ServerError "Incorrect integer value for column user_id", db)
            | Some key =>
                let newEntry :=
                  {| CalorieEntries.user_id := key;
                     CalorieEntries.calories_per_serving :=
                       calories_per_serving;
                     CalorieEntries.servings_consumed := servings_consumed;
                     CalorieEntries.consumed_at :=
                       default now (body_consumed_at body) |} in
                (Created newEntry,
                 {| users := users db;
                    calorie_entries := Ok (rows ++ [newEntry])%list;
                    user_exercises := user_exercises db;
                    exercises := exercises db |})
            end
        end
    | errors, _ => (ServerError (joinLines errors), db)
    end.

End FoodLogging.

(** Two storage policies for a string written to an INTEGER column. *)
Definition digit (c : ascii) : option Z :=
  let n := Z.of_N (N_of_ascii c) in
  if (48 <=? n) && (n <=? 57) then Some (n - 48) else None.

Fixpoint numeric_prefix (acc : Z) (s : string) : Z * string :=
  match s with
  | EmptyString => (acc, s)
  | String c rest =>
      match digit c with
      | Some d => numeric_prefix (10 * acc + d) rest
      | None => (acc, s)
      end
  end.

(** Strict: only a string that is a decimal numeral is stored. *)
Definition strict_int_column (s : string) : option Z :=
  match s, numeric_prefix 0 s with
  | String _ _, (n, EmptyString) => Some n
  | _, _ => None
  end.

(** Lenient: the numeric prefix is stored, 0 when there is none. *)
Definition lenient_int_column (s : string) : option Z :=
  Some (fst (numeric_prefix 0 s)).

(** ** controllers/exercise-logging.controller.js *)

Record UserStats := {
  total_workouts : Z;
  manual_input_rate : Z;
  is_likely_tracker_user : bool;
  avg_manual_vs_preset_diff : Z
}.

Definition emptyStats : UserStats :=
  {| total_workouts := 0; manual_input_rate := 0;
     is_likely_tracker_user := false; avg_manual_vs_preset_diff := 0 |}.

(** The preset rate and duration of a log, when both are there to compare
    with ([log.exercise && log.exercise.calories_per_minute &&
    log.duration_minutes]). *)
Definition comparable (log : UserExercises.t) : option (Q * Z) :=
  match UserExercises.exercise log with
  | Some ex =>
      if truthyQ (Exercises.calories_per_minute ex)
         && truthyZ (UserExercises.duration_minutes log)
      then Some (default 0%Q (Exercises.calories_per_minute ex),
                 default 0 (UserExercises.duration_minutes log))
      else None
  | None => None
  end.

(** [log.exercise.calories_per_minute * log.duration_minutes] *)
Definition expectedCalories (rate : Q) (minutes : Z) : Q :=
  Double.mul rate (inject_Z minutes).

(** [Math.abs(actualCalories - expectedCalories)]; a null [calories_burned]
    counts as 0 in the subtraction. *)
Definition calorieDifference (log : UserExercises.t) (expected : Q) : Q :=
  let actual := default 0 (UserExercises.calories_burned log) in
  Qabs (Double.sub (inject_Z actual) expected).

(** [(difference / expectedCalories) * 100] *)
Definition percentDiff (log : UserExercises.t) (expected : Q) : Q :=
  Double.mul (Double.div (calorieDifference log expected) expected) 100.

(** The three counters of the [forEach]: [manualInputs], [totalCalorieDiff],
    [comparableExercises]. *)
Definition countLog (acc : Z * Q * Z) (log : UserExercises.t) : Z * Q * Z :=
  let '(manualInputs, totalCalorieDiff, comparableExercises) := acc in
  match comparable log with
  | Some (rate, minutes) =>
      let expected := expectedCalories rate minutes in
      let difference := calorieDifference log expected in
      if Double.gtb (percentDiff log expected) 5
      then (manualInputs + 1, Double.add totalCalorieDiff difference,
            comparableExercises + 1)
      else (manualInputs, totalCalorieDiff, comparableExercises + 1)
  | None => acc
  end.

Definition statsOf (recentExercises : list UserExercises.t) : UserStats :=
  let totalWorkouts := Z.of_nat (length recentExercises) in
  if totalWorkouts =? 0 then emptyStats
  else
    let '(manualInputs, totalCalorieDiff, comparableExercises) :=
      fold_left countLog recentExercises (0, 0%Q, 0) in
    let manualInputRate :=
      Double.mul (Double.div (inject_Z manualInputs) (inject_Z totalWorkouts))
                 100 in
    let avgDifference :=
      if comparableExercises >? 0
      then Double.div totalCalorieDiff (inject_Z comparableExercises)
      else 0%Q in
    {| total_workouts := totalWorkouts;
       manual_input_rate := Math.round manualInputRate;
       is_likely_tracker_user := Double.gtb manualInputRate 30;
       avg_manual_vs_preset_diff := Math.round avgDifference |}.

Definition getUserExerciseStats (now : Date) (db : Database) (userId : Z)
  : UserStats :=
  recover emptyStats (
    let thirtyDaysAgo := addDays now (-30) in
    recentExercises <- findAll (user_exercises db) (fun log =>
      (UserExercises.user_id log =? userId)
      && (thirtyDaysAgo <=? UserExercises.performed_at log)) ;;
    Ok (statsOf recentExercises)).

Inductive SuggestionType :=
| fitness_tracker_detected
| high_intensity_cardio
| strength_training_variation
| new_user_education.

Inductive Confidence := high | medium | info.
Inductive SuggestedAction := manual_input | consider_manual | preset_ok.

Record Suggestion := {
  type : SuggestionType;
  (* the number interpolated into the message, when there is one *)
  message_calories : option Z;
  confidence : Confidence;
  suggested_action : SuggestedAction
}.

Definition push_if {A} (condition : bool) (x : A) (l : list A) : list A :=
  if condition then (l ++ [x])%list else l.

Definition generateSmartSuggestion (userStats : UserStats)
  (exercise : Exercises.t) (duration : Z) (calculatedCalories : Z)
  : option Suggestion :=
  let suggestions := [] in
  let suggestions :=
    push_if (is_likely_tracker_user userStats)
      {| type := fitness_tracker_detected; message_calories := None;
         confidence := high; suggested_action := manual_input |}
      suggestions in
  let suggestions :=
    push_if (bool_decide (Exercises.category exercise = cardio)
             && match Exercises.calories_per_minute exercise with
                | Some rate => Qgtb rate 10
                | None => false
                end)
      {| type := high_intensity_cardio; message_calories := None;
         confidence := medium; suggested_action := consider_manual |}
      suggestions in
  let suggestions :=
    push_if (bool_decide (Exercises.category exercise = strength)
             && (duration >? 20))
      {| type := strength_training_variation; message_calories := None;
         confidence := medium; suggested_action := consider_manual |}
      suggestions in
  let suggestions :=
    push_if (total_workouts userStats <? 5)
      {| type := new_user_education;
         message_calories := Some calculatedCalories;
         confidence := info; suggested_action := preset_ok |}
      suggestions in
  head suggestions.

Inductive Method := automatic | manual.

Record ExerciseBody := {
  body_exercise_id : Z;
  body_duration_minutes : option Z;
  body_sets : option Z;
  body_reps : option Z;
  body_weight_kg : option Q;
  body_distance_km : option Q;
  body_calories_burned : option Z;
  body_performed_at : option Date;
  body_rating : option Z
}.

Record LogData := {
  log : UserExercises.t;
  calculation_method : Method;
  preset_calories_per_min : option Q;
  smart_suggestion : option Suggestion;
  user_stats : UserStats
}.

(** The calorie estimate of [logExercise]: the value of
    [finalCaloriesBurned], the method and the suggestion after the
    [if / else if]. *)
Definition estimate (userStats : UserStats) (exercise : Exercises.t)
  (duration_minutes calories_burned : option Z)
  : option Z * Method * option Suggestion :=
  if negb (truthyZ calories_burned) && truthyZ duration_minutes
     && truthyQ (Exercises.calories_per_minute exercise)
  then
    let minutes := default 0 duration_minutes in
    let finalCaloriesBurned :=
      Math.round
        (Double.mul (default 0%Q (Exercises.calories_per_minute exercise))
                    (inject_Z minutes)) in
    (Some finalCaloriesBurned, automatic,
     generateSmartSuggestion userStats exercise minutes finalCaloriesBurned)
  else if truthyZ calories_burned
  then (calories_burned, manual, None)
  else (calories_burned, automatic, None).

(** The validators of [models/user-exercises.model.js], on the values
    handed to [UserExercises.create]. *)
Definition validateExerciseLog (body : ExerciseBody) (calories_burned : Z)
  : list string :=
  (withinRange "duration_minutes" 1 1440
               (inject_Z <$> body_duration_minutes body)
   ++ withinRange "sets" 1 100 (inject_Z <$> body_sets body)
   ++ withinRange "reps" 1 1000 (inject_Z <$> body_reps body)
   ++ withinRange "weight_kg" 0 1000 (body_weight_kg body)
   ++ withinRange "distance_km" 0 1000 (body_distance_km body)
   ++ withinRange "calories_burned" 0 5000 (Some (inject_Z calories_burned))
   ++ withinRange "rating" 1 5 (inject_Z <$> body_rating body))%list.

(** [logExercise].  After [UserExercises.create] has written the row, the
    handler reads it back with its exercise ([findByPk] with [include]) and
    answers with what it read; [readBack] is what the store answers then,
    which may be a failure although the write went through.  The row lists
    the columns the services read. *)
Definition logExercise (now : Date) (db : Database) (readBack : Result unit)
  (uid : string) (body : ExerciseBody) : Response LogData * Database :=
  match findOne (users db) (by_firebase_uid uid) with
  | Err m => (ServerError m, db)
  | Ok None =>
      (NotFound "User not found. Please complete profile setup first.", db)
  | Ok (Some user) =>
      match findOne (exercises db)
              (fun ex => Exercises.id ex =? body_exercise_id body) with
      | Err m => (ServerError m, db)
      | Ok None => (NotFound "Exercise not found", db)
      | Ok (Some exercise) =>
          let userStats := getUserExerciseStats now db (Users.id user) in
          let '(finalCaloriesBurned, calculationMethod, smartSuggestion) :=
            estimate userStats exercise (body_duration_minutes body)
                     (body_calories_burned body) in
          let calories_burned := orZ finalCaloriesBurned 0 in
          match validateExerciseLog body calories_burned,
                user_exercises db with
          | _ :: _ as errors, _ => (ServerError (joinLines errors), db)
          | [], Err m => (ServerError m, db)
          | [], Ok rows =>
              let newExerciseLog :=
                {| UserExercises.user_id := Users.id user;
                   UserExercises.exercise_id := body_exercise_id body;
                   UserExercises.duration_minutes := body_duration_minutes body;
                   UserExercises.calories_burned := Some calories_burned;
                   UserExercises.performed_at :=
                     default now (body_performed_at body);
                   UserExercises.rating := body_rating body;
                   UserExercises.exercise := Some exercise |} in
              let written :=
                {| users := users db;
                   calorie_entries := calorie_entries db;
                   user_exercises := Ok (rows ++ [newExerciseLog])%list;
                   exercises := exercises db |} in
              match readBack with
              | Err m => (ServerError m, written)
              | Ok _ =>
                  (Created {| log := newExerciseLog;
                              calculation_method := calculationMethod;
                              preset_calories_per_min :=
                                Exercises.calories_per_minute exercise;
                              smart_suggestion := smartSuggestion;
                              user_stats := userStats |},
                   written)
              end
          end
      end
  end.

(** ** Arrays: [sort] and [slice] *)

Section Arrays.

Context {A : Type}.

(** [array.slice(0, end)]: a negative [end] counts from the end of the
    array. *)
Definition slice0 (end_ : Z) (l : list A) : list A :=
  if end_ <? 0
  then take (Z.to_nat (Z.of_nat (length l) + end_)) l
  else take (Z.to_nat end_) l.

Variable key : A -> Q.

(** [array.sort((a, b) => key(b) - key(a))]: descending by [key]; the sort
    is stable, elements with equal keys keep their order. *)
Fixpoint insertDesc (x : A) (sorted : list A) : list A :=
  match sorted with
  | [] => [x]
  | y :: rest =>
      if Qgtb (key y) (key x) then y :: insertDesc x rest
      else x :: y :: rest
  end.

Definition sortDesc (l : list A) : list A := foldr insertDesc [] l.

End Arrays.

(** ** services/ai-recommendation.service.js *)

Record GoalConfig := {
  priorities : list Category;
  intensity : string;
  duration_preference : string;
  calorie_focus : bool;
  progression_focus : bool;
  balanced : bool;
  maintenance : bool;
  strength_focus : bool
}.

(** [goalMappings] *)
Definition goalMappings (goal : FitnessGoal) : GoalConfig :=
  match goal with
  | lose_weight =>
      {| priorities := [cardio; functional];
         intensity := "high"; duration_preference := "medium_long";
         calorie_focus := true; progression_focus := false;
         balanced := false; maintenance := false; strength_focus := false |}
  | build_muscle =>
      {| priorities := [strength];
         intensity := "high"; duration_preference := "medium";
         calorie_focus := false; progression_focus := true;
         balanced := false; maintenance := false; strength_focus := false |}
  | improve_fitness =>
      {| priorities := [cardio; functional; strength];
         intensity := "medium"; duration_preference := "medium";
         calorie_focus := false; progression_focus := false;
         balanced := true; maintenance := false; strength_focus := false |}
  | maintain_weight =>
      {| priorities := [cardio; strength; flexibility];
         intensity := "medium"; duration_preference := "short_medium";
         calorie_focus := false; progression_focus := false;
         balanced := false; maintenance := true; strength_focus := false |}
  | gain_weight =>
      {| priorities := [strength];
         intensity := "high"; duration_preference := "medium_long";
         calorie_focus := false; progression_focus := false;
         balanced := false; maintenance := false; strength_focus := true |}
  end.

(** [levelMap] *)
Definition levelMap (level : ActivityLevel) : Difficulty :=
  match level with
  | sedentary => beginner
  | lightly_active => beginner
  | moderately_active => intermediate
  | very_active => intermediate
  | extremely_active => advanced
  end.

(** [goalMappings[user.fitness_goal] || goalMappings['improve_fitness']];
    the goal of a user is one of the five of its ENUM column, or null. *)
Definition goalConfigOf (user : Users.t) : GoalConfig :=
  match Users.fitness_goal user with
  | Some goal => goalMappings goal
  | None => goalMappings improve_fitness
  end.

(** [array.indexOf(x)], the position of the first occurrence. *)
Fixpoint indexOf (x : Category) (l : list Category) : option nat :=
  match l with
  | [] => None
  | y :: rest =>
      if bool_decide (y = x) then Some O else S <$> indexOf x rest
  end.

(** [indexOf] as a JavaScript number: -1 when absent. *)
Definition indexOfZ (x : Category) (l : list Category) : Z :=
  match indexOf x l with
  | Some i => Z.of_nat i
  | None => -1
  end.

Inductive Reason :=
| GreatForWeightLoss (calories_per_minute : option Q)
| PerfectForStrength
| AlignsWithGoal
| ReadyToProgress (current_exercise_name : string)
| SimilarToRated (behavioral_match : list Category)
| TargetsUnderworked (balance_benefit : list string)
| AdaptedToState (difficulty_adjustment : Z).

(** A scored exercise: [{ ...exercise.toJSON(), ai_score,
    recommendation_reason }]. *)
Record Rec := {
  rec_exercise : Exercises.t;
  ai_score : Q;
  recommendation_reason : Reason
}.

Definition rec_id (r : Rec) : Z := Exercises.id (rec_exercise r).

Record Options := {
  limit : option Z;
  energy_level : option string
}.

Definition generateGoalBasedReason (exercise : Exercises.t)
  (goalConfig : GoalConfig) : Reason :=
  if calorie_focus goalConfig
  then GreatForWeightLoss (Exercises.calories_per_minute exercise)
  else if strength_focus goalConfig then PerfectForStrength
  else AlignsWithGoal.

(** The expected difficulty of the user:
    [levelMap[user.activity_level || 'moderately_active']]. *)
Definition expectedDifficulty (user : Users.t) : Difficulty :=
  let userLevel := default moderately_active (Users.activity_level user) in
  levelMap userLevel.

(** The body of the [exercises.map] of the goal-based scorer. *)
Definition goalScore (user : Users.t) (goalConfig : GoalConfig)
  (exercise : Exercises.t) : Z :=
  let score := 0 in
  let categoryIndex :=
    indexOfZ (Exercises.category exercise) (priorities goalConfig) in
  let score :=
    score + (Z.of_nat (length (priorities goalConfig)) - categoryIndex) * 20 in
  let score :=
    if calorie_focus goalConfig
       && match Exercises.calories_per_minute exercise with
          | Some rate => Qgtb rate 8
          | None => false
          end
    then score + 25 else score in
  let score :=
    if strength_focus goalConfig
       && bool_decide (Exercises.category exercise = strength)
    then score + 30 else score in
  let score :=
    if bool_decide (Exercises.difficulty_level exercise
                    = expectedDifficulty user)
    then score + 15 else score in
  score.

Definition scoreExercise (user : Users.t) (goalConfig : GoalConfig)
  (exercise : Exercises.t) : Rec :=
  {| rec_exercise := exercise;
     ai_score := inject_Z (goalScore user goalConfig exercise);
     recommendation_reason := generateGoalBasedReason exercise goalConfig |}.

Definition getGoalBasedRecommendations (db : Database) (user : Users.t)
  (exerciseHistory : list UserExercises.t) (options : Options)
  : Result (list Rec) :=
  let goalConfig := goalConfigOf user in
  exercises <- findAll (exercises db) (fun ex =>
    bool_decide (Exercises.category ex ∈ priorities goalConfig)
    && Exercises.is_active ex) ;;
  let scoredExercises := map (scoreExercise user goalConfig) exercises in
  Ok (slice0 (orZ (limit options) 8) (sortDesc ai_score scoredExercises)).

(** [groupExercisesByType]: sessions grouped under their exercise id.  The
    groups are kept in the order in which [Object.entries] enumerates
    integer keys, ascending; sessions keep the order of the history. *)
Fixpoint pushSession (session : UserExercises.t)
  (groups : list (Z * list UserExercises.t))
  : list (Z * list UserExercises.t) :=
  let id := UserExercises.exercise_id session in
  match groups with
  | [] => [(id, [session])]
  | (k, sessions) :: rest =>
      if id =? k then (k, (sessions ++ [session])%list) :: rest
      else if id <? k then (id, [session]) :: groups
      else (k, sessions) :: pushSession session rest
  end.

Definition groupExercisesByType (exerciseHistory : list UserExercises.t)
  : list (Z * list UserExercises.t) :=
  fold_left (fun groups session => pushSession session groups)
            exerciseHistory [].

Record Progression := {
  ready_for_advancement : bool;
  confidence_score : Q;
  current_exercise_name : string
}.

Record Preferences := {
  preference_confidence : Q;
  preferred_categories : list Category
}.

Record MuscleGroupBalance := {
  underworked : list string
}.

Record Performance := {
  trending_up : bool;
  trending_down : bool
}.

Inductive Source := goal_based | progressive | behavioral | balance | adaptive.

Global Instance Source_eq_dec : EqDecision Source.
Proof. solve_decision. Defined.

(** A fused recommendation: the scored exercise with its [source], [weight],
    [final_ai_score] and [confidence]. *)
Record Fused := {
  fused_rec : Rec;
  source : Source;
  weight : Q;
  final_ai_score : Z;
  fused_confidence : Z
}.

Definition weightOf (s : Source) : Q :=
  match s with
  | goal_based => 35 # 100
  | progressive => 25 # 100
  | behavioral => 20 # 100
  | balance => 15 # 100
  | adaptive => 5 # 100
  end.

(** [recs.map(r => ({ ...r, source, weight }))] *)
Definition tag (s : Source) (recs : list Rec) : list (Rec * (Source * Q)) :=
  map (fun r => (r, (s, weightOf s))) recs.

(** [deduplicateRecommendations]: the [filter] with its [seen] set. *)
Fixpoint dedupFrom {B} (seen : gset Z) (recommendations : list (Rec * B))
  : list (Rec * B) :=
  match recommendations with
  | [] => []
  | rec :: rest =>
      if bool_decide (rec_id rec.1 ∈ seen) then dedupFrom seen rest
      else rec :: dedupFrom ({[rec_id rec.1]} ∪ seen) rest
  end.

Definition deduplicateRecommendations {B} (recommendations : list (Rec * B))
  : list (Rec * B) :=
  dedupFrom ∅ recommendations.

Definition calculateConfidence (recommendation : Rec) (src : Source) : Z :=
  let confidence := 50 in
  let confidence :=
    if bool_decide (src = goal_based) then confidence + 30 else confidence in
  let confidence :=
    if Qgtb (ai_score recommendation) 80 then confidence + 20
    else confidence in
  Z.min 100 confidence.

Record Recommendations := {
  goalBased : list Rec;
  progressive_ : list Rec;
  behavioral_ : list Rec;
  balance_ : list Rec;
  adaptive_ : list Rec
}.

(** The [allRecs] of [fuseRecommendations]: the five lists, each tagged
    with its source and weight, goal-based first. *)
Definition allRecs (recommendations : Recommendations)
  : list (Rec * (Source * Q)) :=
  (tag goal_based (goalBased recommendations)
   ++ tag progressive (progressive_ recommendations)
   ++ tag behavioral (behavioral_ recommendations)
   ++ tag balance (balance_ recommendations)
   ++ tag adaptive (adaptive_ recommendations))%list.

(** [{ ...rec, final_ai_score, confidence }] *)
Definition finalize (rec : Rec * (Source * Q)) : Fused :=
  let '(r, (s, w)) := rec in
  {| fused_rec := r; source := s; weight := w;
     final_ai_score := Math.round (Double.mul (ai_score r) w);
     fused_confidence := calculateConfidence r s |}.

Definition fuseRecommendations (recommendations : Recommendations)
  : list Fused :=
  let uniqueRecs := deduplicateRecommendations (allRecs recommendations) in
  let finalRecommendations := map finalize uniqueRecs in
  slice0 10 (sortDesc (fun r => inject_Z (final_ai_score r))
                      finalRecommendations).

(** [calculateExperienceScore] *)
Definition calculateExperienceScore (exerciseHistory : list UserExercises.t)
  : Z :=
  let totalWorkouts := Z.of_nat (length exerciseHistory) in
  let uniqueExercises : gset Z :=
    list_to_set (map UserExercises.exercise_id exerciseHistory) in
  Z.min 100 (totalWorkouts * 2 + Z.of_nat (size uniqueExercises) * 5).

Definition getUserFitnessProfile (db : Database) (firebaseUid : string)
  : Result (option Users.t) :=
  findOne (users db) (by_firebase_uid firebaseUid).

(** [getUserExerciseHistory(userId, days = 30)], newest first. *)
Definition getUserExerciseHistory (now : Date) (db : Database) (userId : Z)
  : Result (list UserExercises.t) :=
  let cutoffDate := addDays now (-30) in
  rows <- findAll (user_exercises db) (fun log =>
    (UserExercises.user_id log =? userId)
    && (cutoffDate <=? UserExercises.performed_at log)) ;;
  Ok (sortDesc (fun log => inject_Z (UserExercises.performed_at log)) rows).

Record UserProfile := {
  primary_goal : option FitnessGoal;
  experience_score : Z
}.

Record Personalized := {
  user_profile : UserProfile;
  ai_recommendations : list Fused;
  algorithm_breakdown : list (Source * Q);
  generated_at : Date
}.

(** ** The methods the class does not define

    The service calls eight methods of [this] that the class does not
    have (its comments say: "Helper methods (simplified for brevity)",
    "Additional helper methods would go here..."): the call of one throws
    the TypeError of a function that is not there.  Their results are
    typed by what the callers read of them. *)

Definition notAFunction {A} (method : string) : Result A :=
  Err ("this." +:+ method +:+ " is not a function").

Definition analyzeProgression (sessions : list UserExercises.t)
  : Result Progression :=
  notAFunction "analyzeProgression".

Definition findProgressionExercise (db : Database) (exerciseId : Z)
  (progression : Progression) : Result (option Exercises.t) :=
  notAFunction "findProgressionExercise".

Definition analyzeBehavioralPatterns (exerciseHistory : list UserExercises.t)
  : Result Preferences :=
  notAFunction "analyzeBehavioralPatterns".

Definition findSimilarExercises (db : Database) (likedExercises : list Z)
  (preferences : Preferences) : Result (list Exercises.t) :=
  notAFunction "findSimilarExercises".

Definition analyzeMuscleGroupBalance (recentWorkouts : list UserExercises.t)
  : Result MuscleGroupBalance :=
  notAFunction "analyzeMuscleGroupBalance".

Definition extractMuscleGroups (exercise : Exercises.t)
  : Result (list string) :=
  notAFunction "extractMuscleGroups".

Definition analyzeRecentPerformance (exerciseHistory : list UserExercises.t)
  : Result Performance :=
  notAFunction "analyzeRecentPerformance".

Definition adjustDifficultyLevel (activity_level : option ActivityLevel)
  (difficultyAdjustment : Z) : Result Difficulty :=
  notAFunction "adjustDifficultyLevel".

(** [array.filter] with a callback that may throw. *)
Fixpoint filterResult {A} (keep : A -> Result bool) (l : list A)
  : Result (list A) :=
  match l with
  | [] => Ok []
  | x :: rest =>
      kept <- keep x ;;
      more <- filterResult keep rest ;;
      Ok (if kept then x :: more else more)
  end.

(** ** The four learning scorers *)

(** The [for ... of Object.entries(exerciseGroups)] loop of the
    progressive-overload scorer. *)
Fixpoint progressionLoop (db : Database)
  (groups : list (Z * list UserExercises.t)) : Result (list Rec) :=
  match groups with
  | [] => Ok []
  | (exerciseId, sessions) :: rest =>
      progression <- analyzeProgression sessions ;;
      if ready_for_advancement progression then
        nextLevel <- findProgressionExercise db exerciseId progression ;;
        more <- progressionLoop db rest ;;
        match nextLevel with
        | Some ex =>
            Ok ({| rec_exercise := ex;
                   ai_score := Double.add 85 (confidence_score progression);
                   recommendation_reason :=
                     ReadyToProgress (current_exercise_name progression) |}
                :: more)
        | None => Ok more
        end
      else progressionLoop db rest
  end.

Definition getProgressiveOverloadRecommendations (db : Database)
  (user : Users.t) (exerciseHistory : list UserExercises.t)
  : Result (list Rec) :=
  if Z.of_nat (length exerciseHistory) <? 3 then Ok []
  else
    progressions <- progressionLoop db (groupExercisesByType exerciseHistory) ;;
    Ok (slice0 5 progressions).

Definition getBehavioralRecommendations (db : Database) (user : Users.t)
  (exerciseHistory : list UserExercises.t) : Result (list Rec) :=
  if Z.of_nat (length exerciseHistory) <? 5 then Ok []
  else
    preferences <- analyzeBehavioralPatterns exerciseHistory ;;
    let likedExercises :=
      map UserExercises.exercise_id
          (List.filter (fun session =>
                          match UserExercises.rating session with
                          | Some r => 4 <=? r
                          | None => false
                          end) exerciseHistory) in
    if Z.of_nat (length likedExercises) =? 0 then Ok []
    else
      similarExercises <- findSimilarExercises db likedExercises preferences ;;
      Ok (map (fun ex =>
                 {| rec_exercise := ex;
                    ai_score :=
                      Double.add 70 (preference_confidence preferences);
                    recommendation_reason :=
                      SimilarToRated (preferred_categories preferences) |})
              similarExercises).

Definition getBalanceAndRecoveryRecommendations (now : Date) (db : Database)
  (user : Users.t) (exerciseHistory : list UserExercises.t)
  : Result (list Rec) :=
  let recentWorkouts :=
    List.filter (fun session =>
                   now - UserExercises.performed_at session
                   <=? 7 * MS_PER_DAY) exerciseHistory in
  muscleGroupBalance <- analyzeMuscleGroupBalance recentWorkouts ;;
  let underworkedGroups := underworked muscleGroupBalance in
  if Z.of_nat (length underworkedGroups) =? 0 then Ok []
  else
    balancingExercises <- findAll (exercises db) Exercises.is_active ;;
    targeting <-
      filterResult
        (fun ex =>
           targetedGroups <- extractMuscleGroups ex ;;
           Ok (existsb (fun group => bool_decide (group ∈ underworkedGroups))
                       targetedGroups))
        balancingExercises ;;
    let recommendations :=
      map (fun ex =>
             {| rec_exercise := ex;
                ai_score := 75;
                recommendation_reason :=
                  TargetsUnderworked underworkedGroups |})
          targeting in
    Ok (slice0 4 recommendations).

Definition getAdaptiveDifficultyRecommendations (db : Database)
  (user : Users.t) (exerciseHistory : list UserExercises.t)
  (options : Options) : Result (list Rec) :=
  recentPerformance <- analyzeRecentPerformance exerciseHistory ;;
  let difficultyAdjustment :=
    if trending_up recentPerformance then 1
    else if trending_down recentPerformance then -1
    else 0 in
  let difficultyAdjustment :=
    match energy_level options with
    | Some level =>
        let adjustment :=
          if String.eqb level "low" then difficultyAdjustment - 1
          else difficultyAdjustment in
        if String.eqb level "high" then adjustment + 1 else adjustment
    | None => difficultyAdjustment
    end in
  targetDifficulty <-
    adjustDifficultyLevel (Users.activity_level user) difficultyAdjustment ;;
  adaptiveExercises <- findAll (exercises db) (fun ex =>
    bool_decide (Exercises.difficulty_level ex = targetDifficulty)
    && Exercises.is_active ex) ;;
  Ok (map (fun ex =>
             {| rec_exercise := ex;
                ai_score := 60;
                recommendation_reason := AdaptedToState difficultyAdjustment |})
          (take 5 adaptiveExercises)).

(** [getPersonalizedRecommendations].  The five scorers are started in the
    order of the array and awaited with [Promise.all], which rejects with
    the rejection that settles first.  The four learning scorers reach no
    [await] before they return or throw, so they are settled, in their
    order, while the goal-based scorer still waits for the store. *)
Definition getPersonalizedRecommendations (now : Date) (db : Database)
  (firebaseUid : string) (options : Options) : Result Personalized :=
  rethrow "AI Recommendation Error: " (
    user <- getUserFitnessProfile db firebaseUid ;;
    match user with
    | None => Err "User not found"
    | Some user =>
        exerciseHistory <- getUserExerciseHistory now db (Users.id user) ;;
        progressiveRecs <-
          getProgressiveOverloadRecommendations db user exerciseHistory ;;
        behavioralRecs <-
          getBehavioralRecommendations db user exerciseHistory ;;
        balanceRecs <-
          getBalanceAndRecoveryRecommendations now db user exerciseHistory ;;
        adaptiveRecs <-
          getAdaptiveDifficultyRecommendations db user exerciseHistory
                                               options ;;
        goalBasedRecs <-
          getGoalBasedRecommendations db user exerciseHistory options ;;
        let fusedRecommendations :=
          fuseRecommendations
            {| goalBased := goalBasedRecs;
               progressive_ := progressiveRecs;
               behavioral_ := behavioralRecs;
               balance_ := balanceRecs;
               adaptive_ := adaptiveRecs |} in
        Ok {| user_profile :=
                {| primary_goal := Users.fitness_goal user;
                   experience_score :=
                     calculateExperienceScore exerciseHistory |};
              ai_recommendations := fusedRecommendations;
              algorithm_breakdown :=
                [(goal_based, 35 # 100); (progressive, 25 # 100);
                 (behavioral, 20 # 100); (balance, 15 # 100);
                 (adaptive, 5 # 100)];
              generated_at := now |}
    end).


(** ** Specification vocabulary *)

(** The sum of [f] over a list, written as the spec does. *)
Definition sumQ {A} (f : A -> Q) (l : list A) : Q :=
  foldr (fun x acc => (f x + acc)%Q) 0%Q l.

Definition sumZ {A} (f : A -> Z) (l : list A) : Z :=
  foldr (fun x acc => f x + acc) 0 l.

Definition count {A} (p : A -> bool) (l : list A) : Z :=
  Z.of_nat (length (List.filter p l)).

(** A user that is there to be found. *)
Definition userFound (db : Database) (userId : string) (user : Users.t)
  : Prop :=
  exists rows, users db = Ok rows
               /\ List.find (by_firebase_uid userId) rows = Some user.

(** A user record that is simply absent: the lookup answers, with nothing. *)
Definition userAbsent (db : Database) (userId : string) : Prop :=
  exists rows, users db = Ok rows
               /\ List.find (by_firebase_uid userId) rows = None.

Section Counted.

Context {zone : Zone}.

(** The entries the daily food total counts: those of the user on the local
    day of [date]. *)
Definition countedFood (user : Users.t) (date : Date)
  (e : CalorieEntries.t) : bool :=
  (CalorieEntries.user_id e =? Users.id user)
  && (localDay (CalorieEntries.consumed_at e) =? localDay date).

(** The counted exercise logs and their calories. *)
Definition countedExercise (user : Users.t) (date : Date)
  (e : UserExercises.t) : bool :=
  (UserExercises.user_id e =? Users.id user)
  && (localDay (UserExercises.performed_at e) =? localDay date).

(** The daily food total as the sum of the per-entry [total_calories],
    each rounded on its own, with the sum rounded again. *)
Definition perEntryRoundedTotal (user : Users.t) (date : Date)
  (rows : list CalorieEntries.t) : Z :=
  Math.round (inject_Z (sumZ CalorieEntries.total_calories
                             (List.filter (countedFood user date) rows))).

End Counted.

(** What [calculateDailyBalance] makes of the three numbers it awaits. *)
Definition balanceOf (date : Date) (foodCalories exerciseCalories dailyGoal : Z)
  : DailyBalance :=
  let netCalories := foodCalories - exerciseCalories in
  let calorieBalance := dailyGoal - netCalories in
  let isUnderGoal :=
    if dailyGoal =? 0 then true else netCalories <=? dailyGoal in
  let isOverGoal :=
    if dailyGoal =? 0 then false else netCalories >? dailyGoal in
  {| date := isoDay date;
     food_calories := foodCalories;
     exercise_calories := exerciseCalories;
     net_calories := netCalories;
     daily_goal := dailyGoal;
     calorie_balance := calorieBalance;
     is_under_goal := isUnderGoal;
     is_over_goal := isOverGoal;
     goal_percentage :=
       if dailyGoal >? 0
       then Math.round (Double.mul (Double.div (inject_Z netCalories)
                                               (inject_Z dailyGoal)) 100)
       else 0;
     status := if dailyGoal =? 0 then NO_GOAL_SET
               else if isUnderGoal then UNDER_GOAL else OVER_GOAL;
     remaining_calories :=
       if (dailyGoal >? 0) && isUnderGoal then calorieBalance else 0;
     excess_calories :=
       if (dailyGoal >? 0) && isOverGoal
       then Math.abs calorieBalance else 0 |}.

(** A log is likely manual when it has a preset rate and a duration to
    compare with, neither of them 0, and its calories differ from
    rate x duration by more than 5% of it, in the arithmetic of the
    code. *)
Definition likelyManual (log : UserExercises.t) : Prop :=
  exists exercise rate minutes,
    UserExercises.exercise log = Some exercise
    /\ Exercises.calories_per_minute exercise = Some rate
    /\ ~ (rate == 0)%Q
    /\ UserExercises.duration_minutes log = Some minutes
    /\ minutes <> 0
    /\ let expected := Double.mul rate (inject_Z minutes) in
       let actual :=
         inject_Z (default 0 (UserExercises.calories_burned log)) in
       (5 < Double.mul (Double.div (Qabs (Double.sub actual expected))
                                   expected) 100)%Q.

Global Instance likelyManual_dec log : Decision (likelyManual log).
Proof.
  unfold likelyManual.
  destruct (UserExercises.exercise log) as [exercise |];
    [| right; intros (? & ? & ? & [=] & _)].
  destruct (Exercises.calories_per_minute exercise) as [rate |] eqn:Hrate;
    [| right; intros (? & ? & ? & [= <-] & H & _); congruence].
  destruct (Qeq_dec rate 0) as [Hzero | Hrate0];
    [right; intros (? & r & ? & [= <-] & H & Hr & _);
     rewrite Hrate in H; injection H as <-; contradiction |].
  destruct (UserExercises.duration_minutes log) as [minutes |];
    [| right; intros (? & ? & ? & _ & _ & _ & [=] & _)].
  destruct (Z.eq_dec minutes 0) as [Hmin | Hmin];
    [right; intros (? & ? & m & _ & _ & _ & [= <-] & Hm & _); contradiction |].
  destruct (Qlt_le_dec
              5 (Double.mul
                   (Double.div
                      (Qabs (Double.sub
                               (inject_Z (default 0 (UserExercises.calories_burned
                                                       log)))
                               (Double.mul rate (inject_Z minutes))))
                      (Double.mul rate (inject_Z minutes))) 100))
    as [Hlt | Hle].
  - left. exists exercise, rate, minutes. auto 10.
  - right. intros (ex & r & m & [= <-] & H & _ & [= <-] & _ & Hlt).
    rewrite Hrate in H. injection H as <-.
    exact (Qlt_not_le _ _ Hlt Hle).
Defined.

(** The share of likely manual logs, as a percentage in the arithmetic of
    the code, and the user it makes a likely tracker user: more than 30%. *)
Definition manualInputRate (logs : list UserExercises.t) : Q :=
  Double.mul
    (Double.div
       (inject_Z (count (fun log => bool_decide (likelyManual log)) logs))
       (inject_Z (Z.of_nat (length logs))))
    100.


(** A value that is there lies in a range. *)
Definition within (lo hi : Q) (v : option Q) : Prop :=
  forall x, v = Some x -> (lo <= x <= hi)%Q.

(** A request whose row the model of the log accepts, with [calories] as
    the calories to store. *)
Definition acceptableLog (body : ExerciseBody) (calories : Z) : Prop :=
  within 1 1440 (inject_Z <$> body_duration_minutes body)
  /\ within 1 100 (inject_Z <$> body_sets body)
  /\ within 1 1000 (inject_Z <$> body_reps body)
  /\ within 0 1000 (body_weight_kg body)
  /\ within 0 1000 (body_distance_km body)
  /\ 0 <= calories <= 5000
  /\ within 1 5 (inject_Z <$> body_rating body).


(** ** Sample data *)

(** A zone ahead of UTC by nine hours. *)
Definition tokyo : Zone := 9 * 60 * 60 * 1000.

Definition alice : Users.t :=
  {| Users.id := 1;
     Users.firebase_uid := "aLiCe0fIrEbAsEuId";
     Users.activity_level := Some moderately_active;
     Users.fitness_goal := Some lose_weight;
     Users.daily_calorie_goal := Some 2000 |}.

(** A user who has not set a goal yet. *)
Definition newcomer : Users.t :=
  {| Users.id := 2;
     Users.firebase_uid := "nEwCoMeR0fIrEbAsEuId";
     Users.activity_level := None;
     Users.fitness_goal := None;
     Users.daily_calorie_goal := None |}.

Definition noon : Date := 12 * 60 * 60 * 1000.

(** 20:00 UTC of day 0, which is 05:00 of day 1 in Tokyo. *)
Definition evening : Date := 20 * 60 * 60 * 1000.

Definition foodAt (owner : Z) (calories : Z) (servings : Q) (at_ : Date)
  : CalorieEntries.t :=
  {| CalorieEntries.user_id := owner;
     CalorieEntries.calories_per_serving := calories;
     CalorieEntries.servings_consumed := servings;
     CalorieEntries.consumed_at := at_ |}.

Definition dbWith (food : list CalorieEntries.t)
  (logs : list UserExercises.t) (catalog : list Exercises.t) : Database :=
  {| users := Ok [alice; newcomer];
     calorie_entries := Ok food;
     user_exercises := Ok logs;
     exercises := Ok catalog |}.

(** Two entries of one and a half servings of 101 calories, and one on the
    next day. *)
Definition halfServings : list CalorieEntries.t :=
  [foodAt 1 101 (3 # 2) noon; foodAt 1 101 (3 # 2) (noon + 1000);
   foodAt 1 500 1 (noon + MS_PER_DAY)].

(** One entry of 1800 calories at noon of day 0, keyed by the user's id. *)
Definition lunchDb : Database := dbWith [foodAt 1 1800 1 noon] [] [].


Definition lunchBalance : DailyBalance :=
  {| date := 0; food_calories := 1800; exercise_calories := 0;
     net_calories := 1800; daily_goal := 2000; calorie_balance := 200;
     is_under_goal := true; is_over_goal := false; goal_percentage := 90;
     status := UNDER_GOAL; remaining_calories := 200; excess_calories := 0 |}.

Definition lunchBody : FoodBody :=
  {| body_food_name := Some "Lunch";
     body_calories_per_serving := Some 1800;
     body_servings_consumed := Some 1%Q;
     body_consumed_at := Some noon |}.


(** The database after the user logs [lunchBody] through
    [createFoodEntry], starting with no entries at all. *)
Definition afterLogging (int_column : string -> option Z) : Database :=
  snd (createFoodEntry int_column noon (dbWith [] [] [])
                       "aLiCe0fIrEbAsEuId" lunchBody).

Definition nothingCounted : DailyBalance :=
  {| date := 0; food_calories := 0; exercise_calories := 0;
     net_calories := 0; daily_goal := 2000; calorie_balance := 2000;
     is_under_goal := true; is_over_goal := false; goal_percentage := 0;
     status := UNDER_GOAL; remaining_calories := 2000; excess_calories := 0 |}.

(** The exercise a request names, when the catalog has it. *)
Definition exerciseFound (db : Database) (exerciseId : Z)
  (exercise : Exercises.t) : Prop :=
  exists catalog,
    exercises db = Ok catalog
    /\ List.find (fun ex => Exercises.id ex =? exerciseId) catalog
       = Some exercise.

(** The logs of a user over the 30 days before [now]. *)
Definition lastThirtyDays (now : Date) (userId : Z) (log : UserExercises.t)
  : bool :=
  (UserExercises.user_id log =? userId)
  && (addDays now (-30) <=? UserExercises.performed_at log).



Definition running : Exercises.t :=
  {| Exercises.id := 1; Exercises.name := "Running";
     Exercises.category := cardio; Exercises.muscle_groups := ["legs"; "core"];
     Exercises.difficulty_level := beginner;
     Exercises.calories_per_minute := Some 12%Q;
     Exercises.is_active := true |}.

(** A walk at 2.3 calories per minute. *)
Definition walking : Exercises.t :=
  {| Exercises.id := 2; Exercises.name := "Walking";
     Exercises.category := functional; Exercises.muscle_groups := ["legs"];
     Exercises.difficulty_level := beginner;
     Exercises.calories_per_minute := Some (23 # 10)%Q;
     Exercises.is_active := true |}.

Definition tenMinutes (calories : option Z) : ExerciseBody :=
  {| body_exercise_id := 1;
     body_duration_minutes := Some 10;
     body_sets := None;
     body_reps := None;
     body_weight_kg := None;
     body_distance_km := None;
     body_calories_burned := calories;
     body_performed_at := Some noon;
     body_rating := None |}.

(** A request to log 25 minutes of walking. *)
Definition twentyFiveMinutes (calories : option Z) : ExerciseBody :=
  {| body_exercise_id := 2;
     body_duration_minutes := Some 25;
     body_sets := None;
     body_reps := None;
     body_weight_kg := None;
     body_distance_km := None;
     body_calories_burned := calories;
     body_performed_at := Some noon;
     body_rating := None |}.

(** Descending order of a list by a key. *)
Definition descending {A} (key : A -> Q) (a b : A) : Prop :=
  (key b <= key a)%Q.

(** The exercise has a preset rate above [n] calories per minute. *)
Definition caloriesAbove (n : Q) (exercise : Exercises.t) : Prop :=
  exists rate, Exercises.calories_per_minute exercise = Some rate
               /\ (n < rate)%Q.

Global Instance caloriesAbove_dec n exercise :
  Decision (caloriesAbove n exercise).
Proof.
  unfold caloriesAbove.
  destruct (Exercises.calories_per_minute exercise) as [rate |].
  - destruct (Qlt_le_dec n rate) as [Hlt | Hle].
    + left. eauto.
    + right. intros (r & [= <-] & Hr). exact (Qlt_not_le _ _ Hr Hle).
  - right. intros (r & [=] & _).
Defined.

(** The expected difficulty of an activity level, as the spec lists it. *)
Definition difficultyForLevel (level : ActivityLevel) : Difficulty :=
  if decide (level = sedentary \/ level = lightly_active)
  then beginner
  else if decide (level = moderately_active \/ level = very_active)
  then intermediate
  else advanced.

(** The ordered priority categories of a goal, with its calorie focus and
    its strength focus, as the spec lists the five goals; a user without a
    goal is scored as improve_fitness. *)
Definition goalPriorities (goal : option FitnessGoal)
  : list Category * bool * bool :=
  match goal with
  | Some lose_weight => ([cardio; functional], true, false)
  | Some build_muscle => ([strength], false, false)
  | Some maintain_weight => ([cardio; strength; flexibility], false, false)
  | Some gain_weight => ([strength], false, true)
  | Some improve_fitness | None =>
      ([cardio; functional; strength], false, false)
  end.

(** The goal-based score, as the spec adds it up, for a category that
    stands behind [ahead] others in a list of [listed] priorities. *)
Definition specScore (user : Users.t) (listed ahead : Z)
  (calorieFocus strengthFocus : bool) (exercise : Exercises.t) : Z :=
  20 * (listed - ahead)
  + (if decide (calorieFocus = true /\ caloriesAbove 8 exercise)
     then 25 else 0)
  + (if decide (strengthFocus = true
                /\ Exercises.category exercise = strength)
     then 30 else 0)
  + (if decide (Exercises.difficulty_level exercise
                = difficultyForLevel
                    (default moderately_active (Users.activity_level user)))
     then 15 else 0).

(** The candidates of the goal-based scorer. *)
Definition goalCandidate (goalConfig : GoalConfig) (exercise : Exercises.t)
  : bool :=
  bool_decide (Exercises.category exercise ∈ priorities goalConfig)
  && Exercises.is_active exercise.

(** The exercise ids of tagged recommendations and of a fused list. *)
Definition taggedIds {B} (l : list (Rec * B)) : list Z :=
  map (fun rec => rec_id rec.1) l.

Definition fusedIds (l : list Fused) : list Z :=
  map (fun f => rec_id (fused_rec f)) l.

(** [x] is the first element of [l] with its exercise id. *)
Definition firstWithId {B} (x : Rec * B) (l : list (Rec * B)) : Prop :=
  exists before after,
    l = (before ++ x :: after)%list /\ rec_id x.1 ∉ taggedIds before.

(** Six active cardio exercises, two of every difficulty. *)
Definition cardioOf (id : Z) (difficulty : Difficulty) : Exercises.t :=
  {| Exercises.id := id; Exercises.name := "Cardio";
     Exercises.category := cardio; Exercises.muscle_groups := ["legs"];
     Exercises.difficulty_level := difficulty;
     Exercises.calories_per_minute := Some 9%Q;
     Exercises.is_active := true |}.

Definition sixExercises : list Exercises.t :=
  [cardioOf 1 beginner; cardioOf 2 beginner;
   cardioOf 3 intermediate; cardioOf 4 intermediate;
   cardioOf 5 advanced; cardioOf 6 advanced].

(** A request for a single recommendation. *)
Definition topOne : Options := {| limit := Some 1; energy_level := None |}.

(** A request that leaves the limit to the service. *)
Definition byDefault : Options := {| limit := None; energy_level := None |}.

(** A database whose entry tables reject every query. *)
Definition entriesDown : Database :=
  {| users := Ok [alice; newcomer];
     calorie_entries := Err "connect ECONNREFUSED";
     user_exercises := Err "connect ECONNREFUSED";
     exercises := Ok [running] |}.

(** * More of the backend *)

(** Replies of the GET routes. *)
Inductive Reply (A : Type) : Type :=
| Success (data : A)            (* 200 *)
| BadRequest (message : string) (* 400 *)
| Missing (message : string)    (* 404 *)
| Failure (error : string).     (* 500 *)
Arguments Success {A} data.
Arguments BadRequest {A} message.
Arguments Missing {A} message.
Arguments Failure {A} error.

(** ** routes/calorie-balance.routes.js *)

Section BalanceRoutes.

Context {zone : Zone}.

(** A date parameter of a query: absent, not a date, or a date. *)
Inductive DateParam :=
| NoDate
| InvalidDate
| ValidDate (date : Date).

(** [GET /daily] *)
Definition dailyRoute (now : Date) (db : Database) (uid : string)
  (date : DateParam) : Reply DailyBalance :=
  match date with
  | InvalidDate => BadRequest "Invalid date format. Use YYYY-MM-DD"
  | _ =>
      let targetDate :=
        match date with ValidDate d => d | _ => now end in
      match calculateDailyBalance db uid targetDate with
      | Ok dayBalance => Success dayBalance
      | Err m => Failure m
      end
  end.

(** [date.getDay()], the local day of the week: 0 is Sunday; day 0 of the
    clock is a Thursday. *)
Definition getDay (date : Date) : Z := (localDay date + 4) mod 7.

(** The default week start of [GET /weekly]: the Monday of the current
    week.  The two clock readings of the handler are taken as one. *)
Definition defaultWeekStart (now : Date) : Date :=
  let today := now in
  let dayOfWeek := getDay today in
  let mondayOffset := if dayOfWeek =? 0 then 6 else dayOfWeek - 1 in
  addDays now (- mondayOffset).

(** [GET /weekly] *)
Definition weeklyRoute (now : Date) (db : Database) (uid : string)
  (week_start : DateParam) : Reply WeeklyBalance :=
  match week_start with
  | InvalidDate =>
      BadRequest "Invalid week_start date format. Use YYYY-MM-DD"
  | _ =>
      let weekStartDate :=
        match week_start with
        | ValidDate d => d
        | _ => defaultWeekStart now
        end in
      match getWeeklyBalance db uid weekStartDate with
      | Ok weeklyBalance => Success weeklyBalance
      | Err m => Failure m
      end
  end.

Inductive GoalCompletion :=
| NoGoalSetText                     (* 'No goal set' *)
| PercentOfGoal (percentage : Z).   (* `${goal_percentage}% of goal` *)

Record QuickStats := {
  calories_remaining : Z;
  calories_over : Z;
  can_eat_more : bool;
  goal_completion : GoalCompletion;
  net_calories_today : Z
}.

Definition quickStatsOf (today : DailyBalance) : QuickStats :=
  {| calories_remaining := remaining_calories today;
     calories_over := excess_calories today;
     can_eat_more := is_under_goal today && (daily_goal today >? 0);
     goal_completion :=
       if daily_goal today =? 0 then NoGoalSetText
       else PercentOfGoal (goal_percentage today);
     net_calories_today := net_calories today |}.

(** [GET /summary] *)
Definition summaryRoute (now : Date) (db : Database) (uid : string)
  : Reply (DailyBalance * QuickStats) :=
  let today := now in
  match calculateDailyBalance db uid today with
  | Ok dayBalance => Success (dayBalance, quickStatsOf dayBalance)
  | Err m => Failure m
  end.

(** ** controllers/exercise-logging.controller.js, the GET handlers *)

Record DailyExerciseTotals := {
  total_calories_burned : Z;
  total_duration_minutes : Z;
  total_exercises : Z
}.

Definition addExercise (totals : DailyExerciseTotals)
  (exercise : UserExercises.t) : DailyExerciseTotals :=
  {| total_calories_burned :=
       total_calories_burned totals
       + orZ (UserExercises.calories_burned exercise) 0;
     total_duration_minutes :=
       total_duration_minutes totals
       + orZ (UserExercises.duration_minutes exercise) 0;
     total_exercises := total_exercises totals + 1 |}.

(** [order: [['performed_at', 'ASC']]] *)
Definition oldestFirst (rows : list UserExercises.t) : list UserExercises.t :=
  sortDesc (fun log => inject_Z (- UserExercises.performed_at log)) rows.

(** [getDailyExercises]; the date of the query is taken as a date. *)
Definition getDailyExercises (now : Date) (db : Database) (uid : string)
  (date : option Date)
  : Reply (Z * list UserExercises.t * DailyExerciseTotals) :=
  let targetDate := default now date in
  match findOne (users db) (by_firebase_uid uid) with
  | Err m => Failure m
  | Ok None => Missing "User not found"
  | Ok (Some user) =>
      match findAll (user_exercises db) (fun e =>
              (UserExercises.user_id e =? Users.id user)
              && between (startOfDay targetDate) (endOfDay targetDate)
                         (UserExercises.performed_at e)) with
      | Err m => Failure m
      | Ok rows =>
          let exercises := oldestFirst rows in
          let dailyTotals :=
            fold_left addExercise exercises
              {| total_calories_burned := 0; total_duration_minutes := 0;
                 total_exercises := 0 |} in
          Success (isoDay targetDate, exercises, dailyTotals)
      end
  end.

Record Preview := {
  preview_exercise : Exercises.t;
  preview_duration_minutes : Z;
  estimated_calories : Z
}.

(** [GET /preview] of routes/exercise-logging.routes.js; a parameter that
    is there is taken as the number it spells. *)
Definition previewRoute (db : Database) (exercise_id duration_minutes : option Z)
  : Reply Preview :=
  match exercise_id, duration_minutes with
  | Some exercise_id, Some duration_minutes =>
      match findOne (exercises db)
              (fun ex => Exercises.id ex =? exercise_id) with
      | Err m => Failure m
      | Ok None => Missing "Exercise not found"
      | Ok (Some exercise) =>
          let estimatedCalories :=
            if truthyQ (Exercises.calories_per_minute exercise)
            then Math.round
                   (Double.mul
                      (default 0%Q (Exercises.calories_per_minute exercise))
                      (inject_Z duration_minutes))
            else 0 in
          Success {| preview_exercise := exercise;
                     preview_duration_minutes := duration_minutes;
                     estimated_calories := estimatedCalories |}
      end
  | _, _ => BadRequest "exercise_id and duration_minutes are required"
  end.

End BalanceRoutes.

(** ** Vocabulary for the properties below *)

(** The daily balance answers: the user lookup answers and, when it finds
    the user, so do both entry tables. *)
Definition balanceAnswers (db : Database) (userId : string) : bool :=
  match users db with
  | Ok rows =>
      match List.find (by_firebase_uid userId) rows with
      | Some _ => is_ok (calorie_entries db) && is_ok (user_exercises db)
      | None => true
      end
  | Err _ => false
  end.

(** The database with other food entries and exercise logs. *)
Definition withEntries (db : Database) (food : list CalorieEntries.t)
  (logs : list UserExercises.t) : Database :=
  {| users := users db;
     calorie_entries := Ok food;
     user_exercises := Ok logs;
     exercises := exercises db |}.


(** Rows that pass the validators of the models: calories and servings of
    a food entry, calories of an exercise log. *)
Definition validFood (e : CalorieEntries.t) : Prop :=
  0 <= CalorieEntries.calories_per_serving e <= 10000
  /\ (1 # 100 <= CalorieEntries.servings_consumed e <= 100)%Q.

Definition validLog (l : UserExercises.t) : Prop :=
  forall calories, UserExercises.calories_burned l = Some calories ->
                   0 <= calories <= 5000.

(** Three entries of the same instant whose products do not add up the
    same in both directions. *)
Definition threeSnacks : list CalorieEntries.t :=
  [foodAt 1 10 (279 # 100) noon; foodAt 1 2 (265 # 100) noon;
   foodAt 1 11 (30 # 100) noon].

(** Rows that are not Alice's of day 0: the food of another user, and a
    run of hers on the next day. *)
Definition strangerFood : CalorieEntries.t := foodAt 2 700 1 noon.

Definition runAt (at_ : Date) (calories : option Z) : UserExercises.t :=
  {| UserExercises.user_id := 1;
     UserExercises.exercise_id := 1;
     UserExercises.duration_minutes := Some 30;
     UserExercises.calories_burned := calories;
     UserExercises.performed_at := at_;
     UserExercises.rating := None;
     UserExercises.exercise := Some running |}.

(** Exercise logs in the order of their time. *)
Definition oldestToNewest (a b : UserExercises.t) : Prop :=
  UserExercises.performed_at a <= UserExercises.performed_at b.


(** The five goal configurations of [goalMappings]. *)
Definition goalConfigs : list GoalConfig :=
  map goalMappings
      [lose_weight; build_muscle; improve_fitness; maintain_weight;
       gain_weight].

(** The sessions grouped under an exercise id, none when the id has no
    group. *)
Definition groupOf (k : Z) (groups : list (Z * list UserExercises.t))
  : list UserExercises.t :=
  match List.find (fun group => group.1 =? k) groups with
  | Some group => group.2
  | None => []
  end.

Definition ofExercise (k : Z) (session : UserExercises.t) : bool :=
  UserExercises.exercise_id session =? k.

(** A session the user rated 4 or more. *)
Definition liked (session : UserExercises.t) : bool :=
  match UserExercises.rating session with
  | Some r => 4 <=? r
  | None => false
  end.

Definition oneRun : list UserExercises.t := [runAt noon (Some 360)].

(** Two runs of thirty minutes at noon of day 0, one logged with 500
    calories where the preset gives 360. *)
Definition twoRuns : list UserExercises.t :=
  [runAt noon (Some 500); runAt noon (Some 360)].

(** A hundred minutes of stretching at 2.2 calories per minute, logged with
    209 calories: 5% below the 220 of the preset. *)
Definition stretching : Exercises.t :=
  {| Exercises.id := 3; Exercises.name := "Stretching";
     Exercises.category := flexibility; Exercises.muscle_groups := ["back"];
     Exercises.difficulty_level := beginner;
     Exercises.calories_per_minute := Some (22 # 10)%Q;
     Exercises.is_active := true |}.

Definition longStretch : UserExercises.t :=
  {| UserExercises.user_id := 1;
     UserExercises.exercise_id := 3;
     UserExercises.duration_minutes := Some 100;
     UserExercises.calories_burned := Some 209;
     UserExercises.performed_at := noon;
     UserExercises.rating := None;
     UserExercises.exercise := Some stretching |}.

(** Three runs, the first of them on the day before. *)
Definition threeRuns : list UserExercises.t :=
  runAt (noon - MS_PER_DAY) (Some 360) :: twoRuns.

(** ** controllers/ai-recommendations.controller.js *)

(** [baseDurations]: minutes by category, then by goal. *)
Definition baseDurations (category : Category) : option (gmap string Z) :=
  match category with
  | cardio =>
      Some (list_to_map [("lose_weight", 15); ("build_muscle", 10);
                         ("improve_fitness", 12)])
  | strength =>
      Some (list_to_map [("lose_weight", 8); ("build_muscle", 12);
                         ("improve_fitness", 10)])
  | flexibility =>
      Some (list_to_map [("lose_weight", 5); ("build_muscle", 5);
                         ("improve_fitness", 8)])
  | functional =>
      Some (list_to_map [("lose_weight", 12); ("build_muscle", 10);
                         ("improve_fitness", 10)])
  | sports => None
  end.

(** The properties every JS object inherits.  A table written as an object
    answers its own entries and, at one of these names, the inherited
    property; the tables of this controller are modelled at the other
    names, where a name without an entry reads [undefined]. *)
Definition inheritedKeys : list string :=
  ["constructor"; "hasOwnProperty"; "isPrototypeOf"; "propertyIsEnumerable";
   "toLocaleString"; "toString"; "valueOf"; "__proto__";
   "__defineGetter__"; "__defineSetter__"; "__lookupGetter__";
   "__lookupSetter__"].

(** [baseDurations[exercise.category]?.[goal] || 10] *)
Definition suggestDuration (exercise : Exercises.t) (goal : string) : Z :=
  orZ (durations ← baseDurations (Exercises.category exercise);
       durations !! goal) 10.

Definition setSuggestions : gmap string Z :=
  list_to_map [("lose_weight", 3); ("build_muscle", 4);
               ("improve_fitness", 3); ("maintain_weight", 2)].

Definition suggestSets (exercise : Exercises.t) (goal : string) : option Z :=
  if bool_decide (Exercises.category exercise = cardio) then None
  else Some (orZ (setSuggestions !! goal) 3).

Definition repSuggestions : gmap string string :=
  list_to_map [("lose_weight", "12-15"); ("build_muscle", "6-10");
               ("improve_fitness", "8-12"); ("maintain_weight", "10-12")].

Definition suggestReps (exercise : Exercises.t) (goal : string)
  : option string :=
  if bool_decide (Exercises.category exercise = cardio) then None
  else Some (default "8-12" (repSuggestions !! goal)).

Definition suggestRestTime (exercise : Exercises.t) : string :=
  match Exercises.category exercise with
  | cardio => "30 seconds"
  | strength => "60-90 seconds"
  | flexibility => "15 seconds"
  | functional => "45 seconds"
  | sports => "60 seconds"
  end.

Definition calculateWorkoutDuration (exercises : list Fused) : Z :=
  let avgDurationPerExercise := 8 in
  Z.of_nat (length exercises) * avgDurationPerExercise.

(** [exercise.calories_per_minute * duration]; a missing rate counts
    as 0. *)
Definition calculateWorkoutCalories (exercises : list Fused) : Q :=
  fold_left (fun total exercise =>
               let duration :=
                 suggestDuration (rec_exercise (fused_rec exercise))
                                 "general" in
               Double.add total
                 (Double.mul
                    (default 0%Q (Exercises.calories_per_minute
                                    (rec_exercise (fused_rec exercise))))
                    (inject_Z duration)))
            exercises 0%Q.

Record PlanItem := {
  order : Z;
  plan_exercise : Exercises.t;
  recommended_duration : Z;
  recommended_sets : option Z;
  recommended_reps : option string;
  rest_time : string;
  reason : Reason;
  item_confidence_score : Z
}.

Record WorkoutPlan := {
  plan_goal : string;
  estimated_duration : Z;
  plan_total_exercises : Z;
  estimated_workout_calories : Q;
  plan_exercises : list PlanItem
}.

Definition planItem (goal : string) (index : nat) (exercise : Fused)
  : PlanItem :=
  let ex := rec_exercise (fused_rec exercise) in
  {| order := Z.of_nat index + 1;
     plan_exercise := ex;
     recommended_duration := suggestDuration ex goal;
     recommended_sets := suggestSets ex goal;
     recommended_reps := suggestReps ex goal;
     rest_time := suggestRestTime ex;
     reason := recommendation_reason (fused_rec exercise);
     item_confidence_score := fused_confidence exercise |}.

(** [getQuickWorkout]: the goal of the query goes into [override_goal],
    an option the service does not read; the service is asked for 5. *)
Definition getQuickWorkout (now : Date) (db : Database) (uid : string)
  (goal : option string) : Reply (UserProfile * WorkoutPlan) :=
  match goal with
  | None | Some "" =>
      BadRequest "Goal parameter is required (lose_weight, build_muscle, improve_fitness, etc.)"
  | Some goal =>
      let options := {| limit := Some 5; energy_level := None |} in
      match getPersonalizedRecommendations now db uid options with
      | Err m => Failure m
      | Ok quickWorkout =>
          let recommended := ai_recommendations quickWorkout in
          Success
            (user_profile quickWorkout,
             {| plan_goal := goal;
                estimated_duration := calculateWorkoutDuration recommended;
                plan_total_exercises := Z.of_nat (length recommended);
                estimated_workout_calories :=
                  calculateWorkoutCalories recommended;
                plan_exercises := imap (planItem goal) recommended |})
      end
  end.

(** The preset rate of a recommended exercise, 0 when it has none. *)
Definition presetRate (exercise : Fused) : Q :=
  default 0%Q (Exercises.calories_per_minute
                 (rec_exercise (fused_rec exercise))).

Definition durationGoals : list string :=
  ["lose_weight"; "build_muscle"; "improve_fitness"].

(** ** services/firebase-realtime.service.js: sync queue and sync status

    The realtime database is the tree under [users/]: for every user the
    [syncQueue] node, item type then item id then item, and the
    [appState/syncStatus] node.  The store is taken to answer every
    operation.  User ids and item types are keys of the tree, that is
    single path segments, and an item id is the decimal rendering of a
    clock reading, kept as the reading. *)

Module Realtime.

Section Tree.

(** What is queued: the food entry, exercise or workout handed over. *)
Context {Payload : Type}.

Record Item := {
  payload : Payload;
  queuedAt : Z;
  syncStatus : string
}.

Record SyncStatus := {
  lastSync : option Z;
  pendingOperations : Z;
  isOnline : bool;
  lastError : option string
}.

(** The [status] argument of [updateSyncStatus]; every field may be
    missing. *)
Record StatusUpdate := {
  new_pendingOperations : option Z;
  new_isOnline : option bool;
  new_lastError : option string
}.

Record Tree := {
  syncQueue : gmap string (gmap string (gmap Z Item));
  syncStatusNode : gmap string SyncStatus
}.

Definition empty : Tree := {| syncQueue := ∅; syncStatusNode := ∅ |}.

(** [snapshot.val() || {}] at [users/uid/syncQueue], and
    [syncQueue[itemType] || {}]. *)
Definition queueOf (firebaseUid : string) (db : Tree)
  : gmap string (gmap Z Item) :=
  default ∅ (syncQueue db !! firebaseUid).

Definition itemsOf (itemType : string) (queue : gmap string (gmap Z Item))
  : gmap Z Item :=
  default ∅ (queue !! itemType).

(** [ref.set(item)] at [users/uid/syncQueue/itemType/itemId]. *)
Definition setItem (firebaseUid itemType : string) (itemId : Z) (item : Item)
  (db : Tree) : Tree :=
  let queue := queueOf firebaseUid db in
  {| syncQueue :=
       <[firebaseUid :=
           <[itemType := <[itemId := item]> (itemsOf itemType queue)]> queue]>
         (syncQueue db);
     syncStatusNode := syncStatusNode db |}.

(** The three [queue...ForSync]: the id is the clock reading [now], as a
    string in the source; the item is written at the reading [later]. *)
Definition queueForSync (itemType : string) (now later : Z)
  (firebaseUid : string) (entry : Payload) (db : Tree) : Z * Tree :=
  let entryId := now in
  (entryId,
   setItem firebaseUid itemType entryId
     {| payload := entry; queuedAt := later; syncStatus := "pending" |} db).

Definition queueFoodEntryForSync := queueForSync "foodEntries".
Definition queueExerciseForSync := queueForSync "exercises".
Definition queueWorkoutForSync := queueForSync "workouts".

Record Pending := {
  foodEntries : gmap Z Item;
  exercises : gmap Z Item;
  workouts : gmap Z Item
}.

Definition getPendingSyncItems (firebaseUid : string) (db : Tree) : Pending :=
  let syncQueue := queueOf firebaseUid db in
  {| foodEntries := itemsOf "foodEntries" syncQueue;
     exercises := itemsOf "exercises" syncQueue;
     workouts := itemsOf "workouts" syncQueue |}.

(** [ref.remove()] at [users/uid/syncQueue/itemType/itemId]. *)
Definition markSyncCompleted (firebaseUid itemType : string) (itemId : Z)
  (db : Tree) : Tree :=
  {| syncQueue :=
       alter (alter (delete itemId) itemType) firebaseUid (syncQueue db);
     syncStatusNode := syncStatusNode db |}.

(** The test of [cleanupOldData]:
    [item.queuedAt < cutoffTime && item.syncStatus === 'completed']. *)
Definition oldAndCompleted (cutoffTime : Z) (item : Item) : bool :=
  (queuedAt item <? cutoffTime)
  && String.eqb (syncStatus item) "completed".

(** The number of paths in [updates]. *)
Definition updatesOf (cutoffTime : Z) (queue : gmap string (gmap Z Item))
  : nat :=
  map_fold (fun _ items n =>
              (n + size (filter (fun entry => oldAndCompleted cutoffTime
                                                               entry.2 = true)
                                items))%nat)
           O queue.

Definition cleanupOldData (now : Z) (firebaseUid : string) (daysOld : Z)
  (db : Tree) : nat * Tree :=
  let cutoffTime := now - daysOld * 24 * 60 * 60 * 1000 in
  let queue := queueOf firebaseUid db in
  let cleanedItems := updatesOf cutoffTime queue in
  if (0 <? cleanedItems)%nat
  then (cleanedItems,
        {| syncQueue :=
             <[firebaseUid :=
                 filter (fun entry => oldAndCompleted cutoffTime entry.2
                                      = false)
                 <$> queue]> (syncQueue db);
           syncStatusNode := syncStatusNode db |})
  else (cleanedItems, db).

(** [ref.update({ lastSync, pendingOperations, isOnline, lastError })]. *)
Definition updateSyncStatus (now : Z) (firebaseUid : string)
  (status : StatusUpdate) (db : Tree) : Tree :=
  {| syncQueue := syncQueue db;
     syncStatusNode :=
       <[firebaseUid :=
           {| lastSync := Some now;
              pendingOperations := orZ (new_pendingOperations status) 0;
              isOnline := default false (new_isOnline status) || true;
              lastError :=
                match new_lastError status with
                | Some "" | None => None
                | Some message => Some message
                end |}]> (syncStatusNode db) |}.

Definition getSyncStatus (firebaseUid : string) (db : Tree) : SyncStatus :=
  default {| lastSync := None; pendingOperations := 0; isOnline := false;
             lastError := None |}
          (syncStatusNode db !! firebaseUid).

(** [snapshot.exists()] at [users/uid]: something is stored under the user,
    here or in the nodes outside this tree (preferences, configuration,
    current workout), which [elsewhere] answers for.  An item type without
    items stores nothing. *)
Definition userExists (elsewhere : bool) (firebaseUid : string) (db : Tree)
  : bool :=
  elsewhere
  || bool_decide (is_Some (syncStatusNode db !! firebaseUid))
  || negb (forallb (fun items => Nat.eqb (size items.2) 0)
                   (map_to_list (queueOf firebaseUid db))).

(** [initializeUserData]: the initial data of a user without any; its three
    queues are empty, so it stores no item. *)
Definition initializeUserData (elsewhere : bool) (firebaseUid : string)
  (db : Tree) : Tree :=
  if userExists elsewhere firebaseUid db then db
  else {| syncQueue := syncQueue db;
          syncStatusNode :=
            <[firebaseUid :=
                {| lastSync := None; pendingOperations := 0;
                   isOnline := true; lastError := None |}]>
              (syncStatusNode db) |}.

(** The item stored under a user, type and id. *)
Definition itemAt (firebaseUid itemType : string) (itemId : Z) (db : Tree)
  : option Item :=
  itemsOf itemType (queueOf firebaseUid db) !! itemId.

(** Every item in the tree is marked pending. *)
Definition allPending (db : Tree) : Prop :=
  forall u t i item,
    itemAt u t i db = Some item -> syncStatus item = "pending".

(** The trees the service builds from the empty one. *)
Inductive built : Tree -> Prop :=
| built_empty : built empty
| built_queue itemType now later uid entry db :
    itemType ∈ ["foodEntries"; "exercises"; "workouts"] ->
    built db -> built (queueForSync itemType now later uid entry db).2
| built_mark uid itemType itemId db :
    built db -> built (markSyncCompleted uid itemType itemId db)
| built_cleanup now uid daysOld db :
    built db -> built (cleanupOldData now uid daysOld db).2
| built_status now uid status db :
    built db -> built (updateSyncStatus now uid status db)
| built_initialize elsewhere uid db :
    built db -> built (initializeUserData elsewhere uid db).

End Tree.

Arguments Item : clear implicits.
Arguments Tree : clear implicits.
Arguments Pending : clear implicits.

End Realtime.
(** * Properties *)

(** ** Rounding *)

Lemma round_comp (x y : Q) : (x == y)%Q -> Math.round x = Math.round y.
Proof.
  intros Hxy. unfold Math.round. apply Qfloor_comp. now rewrite Hxy.
Qed.

Lemma round_inject_Z (z : Z) : Math.round (inject_Z z) = z.
Proof.
  unfold Math.round.
  assert (Hlo : (inject_Z z <= inject_Z z + (1 # 2))%Q).
  { rewrite <- (Qplus_0_r (inject_Z z)) at 1.
    apply Qplus_le_r. discriminate. }
  assert (Hhi : (inject_Z z + (1 # 2) < inject_Z (z + 1))%Q).
  { rewrite inject_Z_plus. apply Qplus_lt_r. reflexivity. }
  pose proof (Qfloor_le (inject_Z z + (1 # 2))) as Hfl.
  pose proof (Qlt_floor (inject_Z z + (1 # 2))) as Hlt.
  assert (H1 : (inject_Z z < inject_Z (Qfloor (inject_Z z + (1 # 2)) + 1))%Q)
    by (eapply Qle_lt_trans; eassumption).
  assert (H2 : (inject_Z (Qfloor (inject_Z z + (1 # 2))) < inject_Z (z + 1))%Q)
    by (eapply Qle_lt_trans; eassumption).
  rewrite <- Zlt_Qlt in H1, H2. lia.
Qed.

Lemma round_mono (x y : Q) : (x <= y)%Q -> Math.round x <= Math.round y.
Proof.
  intros H. unfold Math.round. apply Qfloor_resp_le. lra.
Qed.

Lemma round_nonneg (x : Q) : (0 <= x)%Q -> 0 <= Math.round x.
Proof.
  intros H. change 0 with (Math.round 0). now apply round_mono.
Qed.

(** ** Doubles

    [Double.nearest] takes a number to a double of its binade, is monotone
    and leaves the integers up to 2^53 as they are; the bounds below follow
    from these three facts. *)

Section DoubleFacts.

Import Double.

Lemma pow2_pos e : (0 < pow2 e)%Q.
Proof. apply Qpower_0_lt. reflexivity. Qed.

Lemma pow2_add a b : (pow2 (a + b) == pow2 a * pow2 b)%Q.
Proof. apply Qpower_plus. discriminate. Qed.

Lemma pow2_le a b : a <= b -> (pow2 a <= pow2 b)%Q.
Proof. intros H. apply Qpower_le_compat_l; [exact H | discriminate]. Qed.

Lemma pow2_lt a b : a < b -> (pow2 a < pow2 b)%Q.
Proof. intros H. apply Qpower_lt_compat_l; [exact H | reflexivity]. Qed.

Lemma pow2_lt_inv a b : (pow2 a < pow2 b)%Q -> a < b.
Proof. intros H. apply (Qpower_lt_compat_l_inv 2); [exact H | reflexivity]. Qed.

Lemma pow2_Z n : 0 <= n -> (pow2 n == inject_Z (2 ^ n))%Q.
Proof. intros H. unfold pow2. now rewrite Zpower_Qpower. Qed.

Lemma pow2_succ a : (pow2 (a + 1) == 2 * pow2 a)%Q.
Proof. rewrite pow2_add. unfold pow2 at 2. simpl. ring. Qed.

Lemma ilog2_spec x :
  (0 < x)%Q -> (pow2 (ilog2 x) <= x)%Q /\ (x < pow2 (ilog2 x + 1))%Q.
Proof.
  intros Hx. unfold ilog2.
  destruct x as [n d].
  assert (Hn : 0 < n) by (unfold Qlt in Hx; simpl in Hx; lia).
  cbn [Qnum Qden].
  set (a := Z.log2 n). set (b := Z.log2 (Z.pos d)).
  assert (Ha : 0 <= a) by apply Z.log2_nonneg.
  assert (Hb : 0 <= b) by apply Z.log2_nonneg.
  destruct (Z.log2_spec n Hn) as [Hn1 Hn2]. fold a in Hn1, Hn2.
  destruct (Z.log2_spec (Z.pos d) eq_refl) as [Hd1 Hd2]. fold b in Hd1, Hd2.
  assert (HN1 : (pow2 a <= inject_Z n)%Q).
  { rewrite pow2_Z by exact Ha. now rewrite <- Zle_Qle. }
  assert (HN2 : (inject_Z n < pow2 (a + 1))%Q).
  { rewrite pow2_Z by lia. now rewrite <- Zlt_Qlt. }
  assert (HD1 : (pow2 b <= inject_Z (Z.pos d))%Q).
  { rewrite pow2_Z by exact Hb. now rewrite <- Zle_Qle. }
  assert (HD2 : (inject_Z (Z.pos d) < pow2 (b + 1))%Q).
  { rewrite pow2_Z by lia. now rewrite <- Zlt_Qlt. }
  assert (Hx' : (n # d == inject_Z n / inject_Z (Z.pos d))%Q)
    by apply Qmake_Qdiv.
  assert (HD : (0 < inject_Z (Z.pos d))%Q) by reflexivity.
  pose proof (pow2_pos a) as Pa. pose proof (pow2_pos b) as Pb.
  pose proof (pow2_pos (a - b)) as Pab.
  assert (Hab : (pow2 a == pow2 (a - b) * pow2 b)%Q).
  { rewrite <- pow2_add. now replace (a - b + b) with a by lia. }
  assert (Hupper : (n # d < pow2 (a - b + 1))%Q).
  { rewrite Hx'. apply Qlt_shift_div_r; [exact HD |].
    rewrite pow2_succ. rewrite pow2_succ in HN2. rewrite Hab in HN2.
    nra. }
  assert (Hlower : (pow2 (a - b - 1) <= n # d)%Q).
  { rewrite Hx'. apply Qle_shift_div_l; [exact HD |].
    assert (Hs : (pow2 (a - b) == 2 * pow2 (a - b - 1))%Q).
    { rewrite <- pow2_succ. now replace (a - b - 1 + 1) with (a - b) by lia. }
    rewrite pow2_succ in HD2. rewrite Hab, Hs in HN1.
    pose proof (pow2_pos (a - b - 1)). nra. }
  destruct (Qle_bool (pow2 (a - b)) (n # d)) eqn:Htest.
  - apply Qle_bool_iff in Htest. split; [exact Htest | exact Hupper].
  - assert (Hlt : (n # d < pow2 (a - b))%Q).
    { apply Qnot_le_lt. intros H. apply Qle_bool_iff in H. congruence. }
    split; [exact Hlower |].
    now replace (a - b - 1 + 1) with (a - b) by lia.
Qed.

Lemma ilog2_unique x e :
  (pow2 e <= x)%Q -> (x < pow2 (e + 1))%Q -> ilog2 x = e.
Proof.
  intros H1 H2.
  assert (Hx : (0 < x)%Q) by (eapply Qlt_le_trans; [apply pow2_pos | exact H1]).
  destruct (ilog2_spec x Hx) as [H3 H4].
  assert (ilog2 x < e + 1).
  { apply pow2_lt_inv. eapply Qle_lt_trans; [exact H3 | exact H2]. }
  assert (e < ilog2 x + 1).
  { apply pow2_lt_inv. eapply Qle_lt_trans; [exact H1 | exact H4]. }
  lia.
Qed.

Lemma ilog2_mono x y : (0 < x)%Q -> (x <= y)%Q -> ilog2 x <= ilog2 y.
Proof.
  intros Hx Hxy.
  assert (Hy : (0 < y)%Q) by (eapply Qlt_le_trans; eassumption).
  destruct (ilog2_spec x Hx) as [H1 _].
  destruct (ilog2_spec y Hy) as [_ H2].
  assert (ilog2 x < ilog2 y + 1); [| lia].
  apply pow2_lt_inv.
  eapply Qle_lt_trans; [exact H1 |]. eapply Qle_lt_trans; eassumption.
Qed.

(** Rounding to the nearest integer, ties to even. *)

Lemma rne_cases q :
  (rne q = Qfloor q /\ (q - inject_Z (Qfloor q) <= 1 # 2)%Q)
  \/ (rne q = Qfloor q + 1 /\ (1 # 2 <= q - inject_Z (Qfloor q))%Q).
Proof.
  unfold rne.
  destruct (Qcompare_spec (q - inject_Z (Qfloor q)) (1 # 2)) as [H | H | H].
  - destruct (Z.even (Qfloor q)).
    + left. split; [reflexivity | now rewrite H].
    + right. split; [reflexivity | now rewrite H].
  - left. split; [reflexivity | now apply Qlt_le_weak].
  - right. split; [reflexivity | now apply Qlt_le_weak].
Qed.

Lemma rne_exact q k : (q == inject_Z k)%Q -> rne q = k.
Proof.
  intros H. unfold rne.
  assert (Hf : Qfloor q = k) by (rewrite H; apply Qfloor_Z).
  rewrite Hf.
  assert (Hz : (q - inject_Z k == 0)%Q) by (rewrite H; ring).
  now rewrite Hz.
Qed.

Lemma rne_mono q q' : (q <= q')%Q -> rne q <= rne q'.
Proof.
  intros Hle.
  pose proof (Qfloor_resp_le _ _ Hle) as Hfloor.
  pose proof (Qfloor_le q) as Hq1. pose proof (Qlt_floor q) as Hq2.
  pose proof (Qfloor_le q') as Hq1'. pose proof (Qlt_floor q') as Hq2'.
  destruct (Z.eq_dec (Qfloor q) (Qfloor q')) as [Heq | Hne].
  - unfold rne. rewrite <- Heq.
    destruct (Qcompare_spec (q - inject_Z (Qfloor q)) (1 # 2)) as [H | H | H];
      destruct (Qcompare_spec (q' - inject_Z (Qfloor q)) (1 # 2))
        as [H' | H' | H'];
      try destruct (Z.even (Qfloor q)); try lia; exfalso; lra.
  - destruct (rne_cases q) as [[-> _] | [-> _]];
      destruct (rne_cases q') as [[-> _] | [-> _]]; lia.
Qed.

Lemma rne_comp q q' : (q == q')%Q -> rne q = rne q'.
Proof.
  intros H. apply Z.le_antisymm; apply rne_mono; rewrite H; apply Qle_refl.
Qed.

(** The nearest double of a positive number. *)

Lemma scaled_window x :
  (0 < x)%Q ->
  (pow2 52 <= x / pow2 (ilog2 x - 52))%Q
  /\ (x / pow2 (ilog2 x - 52) < pow2 53)%Q.
Proof.
  intros Hx. destruct (ilog2_spec x Hx) as [H1 H2].
  pose proof (pow2_pos (ilog2 x - 52)) as Hs.
  assert (He : (pow2 (ilog2 x) == pow2 52 * pow2 (ilog2 x - 52))%Q).
  { rewrite <- pow2_add. now replace (52 + (ilog2 x - 52)) with (ilog2 x) by lia. }
  assert (He' : (pow2 (ilog2 x + 1) == pow2 53 * pow2 (ilog2 x - 52))%Q).
  { rewrite <- pow2_add.
    now replace (53 + (ilog2 x - 52)) with (ilog2 x + 1) by lia. }
  split.
  - apply Qle_shift_div_l; [exact Hs |]. now rewrite <- He.
  - apply Qlt_shift_div_r; [exact Hs |]. now rewrite <- He'.
Qed.

Lemma mantissa_window x :
  (0 < x)%Q -> 2 ^ 52 <= rne (x / pow2 (ilog2 x - 52)) <= 2 ^ 53.
Proof.
  intros Hx. destruct (scaled_window x Hx) as [H1 H2].
  split.
  - rewrite <- (rne_exact (pow2 52) (2 ^ 52)) by (apply pow2_Z; lia).
    now apply rne_mono.
  - rewrite <- (rne_exact (pow2 53) (2 ^ 53)) by (apply pow2_Z; lia).
    apply rne_mono. now apply Qlt_le_weak.
Qed.

Lemma nearestPos_window x :
  (0 < x)%Q ->
  (pow2 (ilog2 x) <= nearestPos x)%Q /\ (nearestPos x <= pow2 (ilog2 x + 1))%Q.
Proof.
  intros Hx. unfold nearestPos.
  destruct (mantissa_window x Hx) as [H1 H2].
  pose proof (pow2_pos (ilog2 x - 52)) as Hs.
  assert (He : (pow2 (ilog2 x) == pow2 52 * pow2 (ilog2 x - 52))%Q).
  { rewrite <- pow2_add. now replace (52 + (ilog2 x - 52)) with (ilog2 x) by lia. }
  assert (He' : (pow2 (ilog2 x + 1) == pow2 53 * pow2 (ilog2 x - 52))%Q).
  { rewrite <- pow2_add.
    now replace (53 + (ilog2 x - 52)) with (ilog2 x + 1) by lia. }
  rewrite He, He'. rewrite !(pow2_Z 52), !(pow2_Z 53) by lia.
  split; apply Qmult_le_compat_r; try (now apply Qlt_le_weak);
    now rewrite <- Zle_Qle.
Qed.

Lemma nearestPos_mono x y :
  (0 < x)%Q -> (x <= y)%Q -> (nearestPos x <= nearestPos y)%Q.
Proof.
  intros Hx Hxy.
  assert (Hy : (0 < y)%Q) by (eapply Qlt_le_trans; eassumption).
  pose proof (ilog2_mono x y Hx Hxy) as He.
  destruct (Z.eq_dec (ilog2 x) (ilog2 y)) as [Heq | Hne].
  - unfold nearestPos. rewrite Heq.
    pose proof (pow2_pos (ilog2 y - 52)) as Hs.
    apply Qmult_le_compat_r; [| now apply Qlt_le_weak].
    rewrite <- Zle_Qle. apply rne_mono.
    apply Qmult_le_compat_r; [exact Hxy |].
    apply Qlt_le_weak. now apply Qinv_lt_0_compat.
  - destruct (nearestPos_window x Hx) as [_ H1].
    destruct (nearestPos_window y Hy) as [H2 _].
    eapply Qle_trans; [exact H1 |]. eapply Qle_trans; [| exact H2].
    apply pow2_le. lia.
Qed.

Lemma nearestPos_pos x : (0 < x)%Q -> (0 < nearestPos x)%Q.
Proof.
  intros Hx. destruct (nearestPos_window x Hx) as [H _].
  eapply Qlt_le_trans; [apply pow2_pos | exact H].
Qed.

(** The nearest double of any number. *)

Lemma nearest_0 x : (x == 0)%Q -> nearest x = 0%Q.
Proof. intros H. unfold nearest. now rewrite H. Qed.

Lemma nearest_pos x : (0 < x)%Q -> (nearest x == nearestPos x)%Q.
Proof.
  intros H. unfold nearest.
  destruct (Qcompare_spec x 0) as [H' | H' | H'].
  - rewrite H' in H. discriminate.
  - exfalso. lra.
  - apply Qred_correct.
Qed.

Lemma nearest_neg x : (x < 0)%Q -> (nearest x == - nearestPos (- x))%Q.
Proof.
  intros H. unfold nearest.
  destruct (Qcompare_spec x 0) as [H' | H' | H'].
  - rewrite H' in H. discriminate.
  - apply Qred_correct.
  - exfalso. lra.
Qed.

Lemma nearest_mono x y : (x <= y)%Q -> (nearest x <= nearest y)%Q.
Proof.
  intros Hxy.
  destruct (Qcompare_spec x 0) as [Hx | Hx | Hx];
    destruct (Qcompare_spec y 0) as [Hy | Hy | Hy];
    try (exfalso; lra).
  - rewrite (nearest_0 x Hx), (nearest_0 y Hy). apply Qle_refl.
  - rewrite (nearest_0 x Hx), (nearest_pos y Hy).
    apply Qlt_le_weak. now apply nearestPos_pos.
  - rewrite (nearest_neg x Hx), (nearest_0 y Hy).
    assert (0 < nearestPos (- x))%Q by (apply nearestPos_pos; lra). lra.
  - rewrite (nearest_neg x Hx), (nearest_neg y Hy).
    assert (nearestPos (- y) <= nearestPos (- x))%Q
      by (apply nearestPos_mono; lra). lra.
  - rewrite (nearest_neg x Hx), (nearest_pos y Hy).
    assert (0 < nearestPos (- x))%Q by (apply nearestPos_pos; lra).
    assert (0 < nearestPos y)%Q by (now apply nearestPos_pos). lra.
  - rewrite (nearest_pos x Hx), (nearest_pos y Hy).
    now apply nearestPos_mono.
Qed.

Lemma nearest_comp x y : (x == y)%Q -> (nearest x == nearest y)%Q.
Proof.
  intros H. apply Qle_antisym; apply nearest_mono; rewrite H; apply Qle_refl.
Qed.

Global Instance nearest_proper : Proper (Qeq ==> Qeq) nearest.
Proof. exact nearest_comp. Qed.

Lemma nearest_opp x : (nearest (- x) == - nearest x)%Q.
Proof.
  destruct (Qcompare_spec x 0) as [Hx | Hx | Hx].
  - rewrite (nearest_0 x Hx), (nearest_0 (- x)) by (rewrite Hx; reflexivity).
    reflexivity.
  - rewrite (nearest_neg x Hx), (nearest_pos (- x)) by lra. ring.
  - rewrite (nearest_pos x Hx), (nearest_neg (- x)) by lra.
    assert (H : (- - x == x)%Q) by ring.
    assert (H' := nearest_pos x Hx).
    assert (H'' : (nearest (- - x) == nearest x)%Q) by now apply nearest_comp.
    rewrite (nearest_pos _) in H'' by lra. rewrite H''. now rewrite H'.
Qed.

(** A number whose mantissa is an integer at its own scale is a double. *)
Lemma nearestPos_exact x j :
  (0 < x)%Q ->
  (x / pow2 (ilog2 x - 52) == inject_Z j)%Q ->
  (nearestPos x == x)%Q.
Proof.
  intros Hx Hj. unfold nearestPos.
  rewrite (rne_exact _ j Hj). rewrite <- Hj.
  field. intros H. pose proof (pow2_pos (ilog2 x - 52)) as Hs.
  rewrite H in Hs. discriminate.
Qed.

Lemma ilog2_Z k : 0 < k -> ilog2 (inject_Z k) = Z.log2 k.
Proof.
  intros Hk. destruct (Z.log2_spec k Hk) as [H1 H2].
  apply ilog2_unique.
  - rewrite pow2_Z by apply Z.log2_nonneg. now rewrite <- Zle_Qle.
  - rewrite pow2_Z by (pose proof (Z.log2_nonneg k); lia).
    now rewrite <- Zlt_Qlt.
Qed.

Lemma nearestPos_Z k :
  0 < k <= 2 ^ 53 -> (nearestPos (inject_Z k) == inject_Z k)%Q.
Proof.
  intros [Hk Hle].
  assert (Hx : (0 < inject_Z k)%Q).
  { change 0%Q with (inject_Z 0). now rewrite <- Zlt_Qlt. }
  pose proof (ilog2_Z k Hk) as He.
  assert (Hlog : Z.log2 k <= 53).
  { rewrite <- (Z.log2_pow2 53) by lia. now apply Z.log2_le_mono. }
  pose proof (Z.log2_nonneg k) as Hlog0.
  destruct (Z.eq_dec (Z.log2 k) 53) as [H53 | H53].
  - assert (k = 2 ^ 53).
    { destruct (Z.log2_spec k Hk) as [H1 _]. rewrite H53 in H1. lia. }
    subst k. apply (nearestPos_exact _ (2 ^ 52) Hx).
    rewrite He, H53. reflexivity.
  - apply (nearestPos_exact _ (k * 2 ^ (52 - Z.log2 k)) Hx).
    rewrite He.
    assert (Hp : (pow2 (Z.log2 k - 52) == / pow2 (52 - Z.log2 k))%Q).
    { unfold pow2. rewrite <- Qpower_opp. now replace (- (52 - Z.log2 k)) with (Z.log2 k - 52) by lia. }
    rewrite Hp. rewrite inject_Z_mult, (pow2_Z (52 - Z.log2 k)) by lia.
    field. intros H. pose proof (pow2_pos (52 - Z.log2 k)) as Hs.
    rewrite (pow2_Z (52 - Z.log2 k)) in Hs by lia. rewrite H in Hs. discriminate.
Qed.

Lemma nearest_Z k :
  - 2 ^ 53 <= k <= 2 ^ 53 -> (nearest (inject_Z k) == inject_Z k)%Q.
Proof.
  intros Hk.
  destruct (Z.lt_trichotomy k 0) as [Hneg | [-> | Hpos]].
  - assert (H : (inject_Z k == - inject_Z (- k))%Q)
      by (rewrite inject_Z_opp; ring).
    rewrite H at 1. rewrite nearest_opp.
    assert (Hx : (0 < inject_Z (- k))%Q).
    { change 0%Q with (inject_Z 0). rewrite <- Zlt_Qlt. lia. }
    rewrite (nearest_pos _ Hx), nearestPos_Z by lia.
    rewrite inject_Z_opp. ring.
  - reflexivity.
  - assert (Hx : (0 < inject_Z k)%Q).
    { change 0%Q with (inject_Z 0). now rewrite <- Zlt_Qlt. }
    rewrite (nearest_pos _ Hx). apply nearestPos_Z. lia.
Qed.

Lemma nearest_nonneg x : (0 <= x)%Q -> (0 <= nearest x)%Q.
Proof.
  intros H. change 0%Q with (nearest 0). now apply nearest_mono.
Qed.

Lemma nearest_le_Z x k :
  - 2 ^ 53 <= k <= 2 ^ 53 -> (x <= inject_Z k)%Q ->
  (nearest x <= inject_Z k)%Q.
Proof.
  intros Hk Hx. rewrite <- (nearest_Z k Hk). now apply nearest_mono.
Qed.



Lemma gtb_lt a b : gtb a b = true <-> (nearest b < nearest a)%Q.
Proof.
  unfold gtb. rewrite negb_true_iff. split.
  - intros H. apply Qnot_le_lt. intros Hle.
    apply Qle_bool_iff in Hle. congruence.
  - intros H. destruct (Qle_bool (nearest a) (nearest b)) eqn:Hle;
      [| reflexivity].
    apply Qle_bool_iff in Hle. exfalso. lra.
Qed.

Lemma leb_le a b : leb a b = true <-> (nearest a <= nearest b)%Q.
Proof. unfold leb. apply Qle_bool_iff. Qed.

End DoubleFacts.

Section DoubleOps.

Import Double.

Lemma pow2_53 : (pow2 53 == inject_Z (2 ^ 53))%Q.
Proof. apply pow2_Z. lia. Qed.

(** The nearest double of a double is the double itself. *)
Lemma nearestPos_idem x :
  (0 < x)%Q -> (nearestPos (nearestPos x) == nearestPos x)%Q.
Proof.
  intros Hx.
  pose proof (nearestPos_pos x Hx) as Hpos.
  destruct (mantissa_window x Hx) as [Hlo Hhi].
  set (s := ilog2 x - 52) in *.
  set (m := rne (x / pow2 s)) in *.
  assert (Hval : (nearestPos x == inject_Z m * pow2 s)%Q) by reflexivity.
  pose proof (pow2_pos s) as Hs.
  destruct (Z.eq_dec m (2 ^ 53)) as [Htop | Hbelow].
  - assert (He : ilog2 (nearestPos x) = s + 53).
    { apply ilog2_unique.
      - rewrite Hval, Htop, <- pow2_53, <- pow2_add.
        replace (53 + s) with (s + 53) by lia. apply Qle_refl.
      - rewrite Hval, Htop, <- pow2_53, <- pow2_add.
        apply pow2_lt. lia. }
    apply (nearestPos_exact _ (2 ^ 52) Hpos).
    rewrite He. replace (s + 53 - 52) with (1 + s) by lia.
    rewrite Hval, Htop, pow2_add.
    change (pow2 1) with 2%Q. rewrite <- pow2_53.
    assert (H53 : (pow2 53 == 2 * inject_Z (2 ^ 52))%Q) by reflexivity.
    rewrite H53. field. intros H. rewrite H in Hs. discriminate.
  - assert (He : ilog2 (nearestPos x) = s + 52).
    { apply ilog2_unique.
      - rewrite Hval. replace (s + 52) with (52 + s) by lia.
        rewrite pow2_add.
        apply Qmult_le_compat_r; [| now apply Qlt_le_weak].
        rewrite (pow2_Z 52) by lia. rewrite <- Zle_Qle. exact Hlo.
      - rewrite Hval. replace (s + 52 + 1) with (53 + s) by lia.
        rewrite pow2_add. apply Qmult_lt_compat_r; [exact Hs |].
        rewrite pow2_53, <- Zlt_Qlt. lia. }
    apply (nearestPos_exact _ m Hpos).
    rewrite He. replace (s + 52 - 52) with s by lia.
    rewrite Hval. field. intros H. rewrite H in Hs. discriminate.
Qed.

Lemma nearest_idem x : (nearest (nearest x) == nearest x)%Q.
Proof.
  destruct (Qcompare_spec x 0) as [Hx | Hx | Hx].
  - now rewrite (nearest_0 x Hx).
  - rewrite (nearest_neg x Hx), nearest_opp.
    assert (H : (0 < - x)%Q) by lra.
    rewrite (nearest_pos _ (nearestPos_pos _ H)).
    now rewrite nearestPos_idem.
  - rewrite (nearest_pos x Hx).
    rewrite (nearest_pos _ (nearestPos_pos _ Hx)).
    now apply nearestPos_idem.
Qed.

(** Comparisons of a number that is a double already. *)
Lemma gtb_nearest_Z a k :
  - 2 ^ 53 <= k <= 2 ^ 53 ->
  gtb (nearest a) (inject_Z k) = true <-> (inject_Z k < nearest a)%Q.
Proof.
  intros Hk. rewrite gtb_lt, nearest_idem, (nearest_Z k Hk). reflexivity.
Qed.

(** Products and sums with 0. *)
Lemma mul_0_l a b : (a == 0)%Q -> mul a b = 0%Q.
Proof.
  intros Ha. unfold mul. rewrite (nearest_0 a Ha).
  apply nearest_0. ring.
Qed.

Lemma mul_0_r a b : (b == 0)%Q -> mul a b = 0%Q.
Proof.
  intros Hb. unfold mul. rewrite (nearest_0 b Hb).
  apply nearest_0. ring.
Qed.

(** Signs and bounds of the operations. *)
Lemma mul_nonneg a b : (0 <= a)%Q -> (0 <= b)%Q -> (0 <= mul a b)%Q.
Proof.
  intros Ha Hb. apply nearest_nonneg.
  apply Qmult_le_0_compat; now apply nearest_nonneg.
Qed.

Lemma add_nonneg a b : (0 <= a)%Q -> (0 <= b)%Q -> (0 <= add a b)%Q.
Proof.
  intros Ha Hb. apply nearest_nonneg.
  pose proof (nearest_nonneg a Ha). pose proof (nearest_nonneg b Hb). lra.
Qed.

Lemma div_nonneg a b : (0 <= a)%Q -> (0 < b)%Q -> (0 <= div a b)%Q.
Proof.
  intros Ha Hb. apply nearest_nonneg.
  pose proof (nearest_nonneg a Ha) as Ha'.
  assert (Hb' : (0 < nearest b)%Q).
  { rewrite (nearest_pos b Hb). now apply nearestPos_pos. }
  apply Qle_shift_div_l; lra.
Qed.

Lemma nearest_pos_lt x : (0 < x)%Q -> (0 < nearest x)%Q.
Proof.
  intros Hx. rewrite (nearest_pos x Hx). now apply nearestPos_pos.
Qed.

Lemma mul_le_Z a b ka kb :
  (0 <= a)%Q -> (0 <= b)%Q ->
  (a <= inject_Z ka)%Q -> (b <= inject_Z kb)%Q ->
  0 <= ka <= 2 ^ 53 -> 0 <= kb <= 2 ^ 53 -> ka * kb <= 2 ^ 53 ->
  (mul a b <= inject_Z (ka * kb))%Q.
Proof.
  intros Ha Hb Hka Hkb Ra Rb Rab.
  apply nearest_le_Z; [lia |].
  pose proof (nearest_nonneg a Ha). pose proof (nearest_nonneg b Hb).
  pose proof (nearest_le_Z a ka ltac:(lia) Hka).
  pose proof (nearest_le_Z b kb ltac:(lia) Hkb).
  rewrite inject_Z_mult. nra.
Qed.

Lemma add_le_Z a b ka kb :
  (a <= inject_Z ka)%Q -> (b <= inject_Z kb)%Q ->
  - 2 ^ 53 <= ka <= 2 ^ 53 -> - 2 ^ 53 <= kb <= 2 ^ 53 ->
  - 2 ^ 53 <= ka + kb <= 2 ^ 53 ->
  (add a b <= inject_Z (ka + kb))%Q.
Proof.
  intros Hka Hkb Ra Rb Rab.
  apply nearest_le_Z; [lia |].
  pose proof (nearest_le_Z a ka Ra Hka).
  pose proof (nearest_le_Z b kb Rb Hkb).
  rewrite inject_Z_plus. lra.
Qed.

(** A sum of [n] terms between 0 and [bound] lies between 0 and
    [n * bound], as long as this is an integer that doubles count to. *)
Lemma sum_bounds {A} (f : A -> Q) (bound : Z) (l : list A) :
  0 <= bound ->
  Z.of_nat (length l) * bound <= 2 ^ 53 ->
  Forall (fun x => 0 <= f x <= inject_Z bound)%Q l ->
  (0 <= sum f l <= inject_Z (Z.of_nat (length l) * bound))%Q.
Proof.
  intros Hbound Hsize Hall. unfold sum.
  assert (Hgen : forall start k,
             0 <= k ->
             (k + Z.of_nat (length l)) * bound <= 2 ^ 53 ->
             (0 <= start <= inject_Z (k * bound))%Q ->
             (0 <= fold_left (fun total x => add total (f x)) l start
              <= inject_Z ((k + Z.of_nat (length l)) * bound))%Q).
  { clear Hsize. induction Hall as [| x l Hx _ IH]; intros start k Hk Hsize Hs.
    - simpl. now rewrite Z.add_0_r.
    - simpl fold_left. simpl length in *.
      rewrite Nat2Z.inj_succ in *.
      replace (k + Z.succ (Z.of_nat (length l)))
        with (k + 1 + Z.of_nat (length l)) in * by lia.
      apply IH; [lia | exact Hsize |].
      split; [apply add_nonneg; tauto |].
      replace ((k + 1) * bound) with (k * bound + bound) by lia.
      apply add_le_Z; try tauto; nia. }
  specialize (Hgen 0%Q 0 ltac:(lia)).
  rewrite Z.add_0_l in Hgen. apply Hgen; [exact Hsize |].
  simpl. split; apply Qle_refl.
Qed.

End DoubleOps.

(** ** Days *)

Lemma MS_PER_DAY_pos : 0 < MS_PER_DAY.
Proof. reflexivity. Qed.

Lemma isoDay_addDays (date : Date) (i : Z) :
  isoDay (addDays date i) = isoDay date + i.
Proof.
  unfold isoDay, addDays. apply Z.div_add. discriminate.
Qed.

Section Days.

Context {zone : Zone}.

(** The window [[startOfDay date, endOfDay date]] holds exactly the instants
    of the local day of [date]. *)
Lemma between_day (date t : Date) :
  between (startOfDay date) (endOfDay date) t = (localDay t =? localDay date).
Proof.
  unfold between, endOfDay, startOfDay, localDay, localClock.
  pose proof MS_PER_DAY_pos as Hpos.
  pose proof (Z.div_mod (date + utcOffset) MS_PER_DAY ltac:(lia)) as Hd.
  pose proof (Z.mod_pos_bound (date + utcOffset) MS_PER_DAY Hpos) as Hdb.
  pose proof (Z.div_mod (t + utcOffset) MS_PER_DAY ltac:(lia)) as Ht.
  pose proof (Z.mod_pos_bound (t + utcOffset) MS_PER_DAY Hpos) as Htb.
  set (D := MS_PER_DAY) in *.
  destruct (Z.eqb_spec ((t + utcOffset) / D) ((date + utcOffset) / D))
    as [Heq | Hne].
  - apply andb_true_iff. split; apply Z.leb_le; nia.
  - apply andb_false_iff.
    destruct (Z.lt_ge_cases ((t + utcOffset) / D) ((date + utcOffset) / D))
      as [Hlt | Hge].
    + left. apply Z.leb_gt. nia.
    + right. apply Z.leb_gt.
      assert ((date + utcOffset) / D < (t + utcOffset) / D) by lia. nia.
Qed.

(** The first instant of a local day: its midnight on the local clock. *)
Lemma startOfDay_midnight (date : Date) :
  startOfDay date = localDay date * MS_PER_DAY - utcOffset.
Proof.
  unfold startOfDay, localDay, localClock.
  pose proof (Z.div_mod (date + utcOffset) MS_PER_DAY ltac:(discriminate)).
  lia.
Qed.

Lemma localDay_addDays (date : Date) (i : Z) :
  localDay (addDays date i) = localDay date + i.
Proof.
  unfold localDay, localClock, addDays.
  replace (date + i * MS_PER_DAY + utcOffset)
    with (date + utcOffset + i * MS_PER_DAY) by lia.
  apply Z.div_add. discriminate.
Qed.

End Days.

(** ** Sums *)

Lemma fold_left_sumZ {A} (f : A -> Z) (l : list A) (start : Z) :
  fold_left (fun total x => total + f x) l start = start + sumZ f l.
Proof.
  revert start. induction l as [| x l IH]; intros start; simpl.
  - lia.
  - rewrite IH. lia.
Qed.

Lemma filter_ext_eq {A} (p q : A -> bool) (l : list A) :
  (forall x, p x = q x) -> List.filter p l = List.filter q l.
Proof.
  intros Hpq. induction l as [| x l IH]; simpl; [reflexivity |].
  rewrite Hpq, IH. reflexivity.
Qed.

(** ** Daily balance *)

Section DailyBalance.

Context {zone : Zone}.

Lemma getDailyFoodCalories_found db userId date user rows :
  userFound db userId user ->
  calorie_entries db = Ok rows ->
  getDailyFoodCalories db userId date
  = Ok (Math.round (Double.sum foodProduct
                               (List.filter (countedFood user date) rows))).
Proof.
  intros (us & Hus & Hfind) Hrows.
  unfold getDailyFoodCalories, findOne, findAll.
  rewrite Hus, Hrows. simpl. rewrite Hfind. simpl. f_equal.
  erewrite filter_ext_eq.
  2:{ intros e. rewrite between_day. reflexivity. }
  reflexivity.
Qed.

Lemma getDailyFoodCalories_absent db userId date :
  userAbsent db userId -> getDailyFoodCalories db userId date = Ok 0.
Proof.
  intros (us & Hus & Hfind). unfold getDailyFoodCalories, findOne.
  rewrite Hus. simpl. rewrite Hfind. reflexivity.
Qed.

Lemma getDailyExerciseCalories_absent db userId date :
  userAbsent db userId -> getDailyExerciseCalories db userId date = Ok 0.
Proof.
  intros (us & Hus & Hfind). unfold getDailyExerciseCalories, findOne.
  rewrite Hus. simpl. rewrite Hfind. reflexivity.
Qed.

Lemma getUserDailyGoal_absent db userId :
  userAbsent db userId -> getUserDailyGoal db userId = 0.
Proof.
  intros (us & Hus & Hfind). unfold getUserDailyGoal, findOne.
  rewrite Hus. simpl. rewrite Hfind. reflexivity.
Qed.

Lemma getDailyExerciseCalories_found db userId date user rows :
  userFound db userId user ->
  user_exercises db = Ok rows ->
  getDailyExerciseCalories db userId date
  = Ok (sumZ (fun e => default 0 (UserExercises.calories_burned e))
             (List.filter (countedExercise user date) rows)).
Proof.
  intros (us & Hus & Hfind) Hrows.
  unfold getDailyExerciseCalories, findOne, findAll.
  rewrite Hus, Hrows. simpl. rewrite Hfind. simpl. f_equal.
  erewrite filter_ext_eq.
  2:{ intros e. rewrite between_day. reflexivity. }
  fold (countedExercise user date).
  rewrite round_inject_Z.
  rewrite (fold_left_sumZ
             (fun e => default 0 (UserExercises.calories_burned e))).
  lia.
Qed.

Lemma calculateDailyBalance_inv db userId date b :
  calculateDailyBalance db userId date = Ok b ->
  exists foodCalories exerciseCalories,
    getDailyFoodCalories db userId date = Ok foodCalories
    /\ getDailyExerciseCalories db userId date = Ok exerciseCalories
    /\ b = balanceOf date foodCalories exerciseCalories
                     (getUserDailyGoal db userId).
Proof.
  unfold calculateDailyBalance. intros H.
  destruct (getDailyFoodCalories db userId date) as [food | m]; simpl in H;
    [| discriminate].
  destruct (getDailyExerciseCalories db userId date) as [exercise | m];
    simpl in H; [| discriminate].
  exists food, exercise. repeat split. now inversion H.
Qed.

Lemma calculateDailyBalance_ok db userId date foodCalories exerciseCalories :
  getDailyFoodCalories db userId date = Ok foodCalories ->
  getDailyExerciseCalories db userId date = Ok exerciseCalories ->
  calculateDailyBalance db userId date
  = Ok (balanceOf date foodCalories exerciseCalories
                  (getUserDailyGoal db userId)).
Proof.
  intros Hf He. unfold calculateDailyBalance. rewrite Hf, He. reflexivity.
Qed.

(** ** C1: the daily food total *)

(** C1 (amended): for every user and every date, the daily food total used
    by [calculateDailyBalance] is the sum, over the user's food entries
    consumed on the local day of the date, from 00:00:00.000 to
    23:59:59.999, of calories-per-serving times servings-consumed, the
    products being added unrounded, as the doubles they are and in the
    order of the store, and the sum being rounded once; entries of other
    days or other users are left out, and a user without a record has a
    total of 0. *)
Theorem daily_food_total db userId date :
  (forall user rows,
      userFound db userId user ->
      calorie_entries db = Ok rows ->
      let midnight := localDay date * MS_PER_DAY - utcOffset in
      let lastInstant :=
        midnight + (((23 * 60 + 59) * 60 + 59) * 1000 + 999) in
      let total :=
        Math.round
          (Double.sum (fun e =>
                         Double.mul
                           (inject_Z (CalorieEntries.calories_per_serving e))
                           (CalorieEntries.servings_consumed e))
                      (List.filter (countedFood user date) rows)) in
      (forall e,
          countedFood user date e = true
          <-> CalorieEntries.user_id e = Users.id user
              /\ midnight <= CalorieEntries.consumed_at e <= lastInstant)
      /\ getDailyFoodCalories db userId date = Ok total
      /\ forall b, calculateDailyBalance db userId date = Ok b ->
                   food_calories b = total)
  /\ (userAbsent db userId ->
      getDailyFoodCalories db userId date = Ok 0
      /\ forall b, calculateDailyBalance db userId date = Ok b ->
                   food_calories b = 0).
Proof.
  split.
  - intros user rows Hfound Hrows midnight lastInstant total.
    pose proof (getDailyFoodCalories_found db userId date user rows
                  Hfound Hrows) as Hfood.
    split; [| split; [exact Hfood |]].
    + intros e. unfold countedFood.
      rewrite andb_true_iff, Z.eqb_eq, <- between_day.
      unfold between. rewrite andb_true_iff, !Z.leb_le.
      unfold endOfDay. rewrite startOfDay_midnight.
      subst midnight lastInstant.
      change (MS_PER_DAY - 1) with (((23 * 60 + 59) * 60 + 59) * 1000 + 999).
      tauto.
    + intros b Hb. apply calculateDailyBalance_inv in Hb.
      destruct Hb as (food & exercise & Hf & _ & ->).
      rewrite Hfood in Hf. inversion Hf. reflexivity.
  - intros Habsent.
    pose proof (getDailyFoodCalories_absent db userId date Habsent) as Hfood.
    split; [exact Hfood |].
    intros b Hb. apply calculateDailyBalance_inv in Hb.
    destruct Hb as (food & exercise & Hf & _ & ->).
    rewrite Hfood in Hf. inversion Hf. reflexivity.
Qed.

End DailyBalance.

(** C1, as stated, fails: the per-entry products are summed unrounded and
    only the sum is rounded.  Two entries of 1.5 servings of 101 calories
    give 303, where rounding each entry first would give 152 + 152 = 304. *)
Lemma daily_food_total_not_per_entry_rounded :
  getDailyFoodCalories (zone := tokyo) (dbWith halfServings [] [])
                       "aLiCe0fIrEbAsEuId" noon
  = Ok 303
  /\ perEntryRoundedTotal (zone := tokyo) alice noon halfServings = 304
  /\ getDailyFoodCalories (zone := tokyo) (dbWith halfServings [] [])
                          "aLiCe0fIrEbAsEuId" noon
     <> Ok (perEntryRoundedTotal (zone := tokyo) alice noon halfServings).
Proof.
  split; [vm_compute; reflexivity |]. split; [vm_compute; reflexivity |].
  intros H. vm_compute in H. discriminate H.
Qed.

Lemma daily_food_total_witness :
  userFound (dbWith halfServings [] []) "aLiCe0fIrEbAsEuId" alice
  /\ calorie_entries (dbWith halfServings [] []) = Ok halfServings
  /\ getDailyFoodCalories (zone := tokyo) (dbWith halfServings [] [])
                          "aLiCe0fIrEbAsEuId" noon
     = Ok 303.
Proof.
  assert (Hfound : userFound (dbWith halfServings [] [])
                             "aLiCe0fIrEbAsEuId" alice).
  { exists [alice; newcomer]. split; reflexivity. }
  split; [exact Hfound |]. split; [reflexivity |].
  exact (proj1 (proj2 (proj1 (daily_food_total (zone := tokyo)
                                (dbWith halfServings [] [])
                                "aLiCe0fIrEbAsEuId" noon)
                             alice halfServings Hfound eq_refl))).
Defined.

(** ** C2: goal status of a daily balance *)


Section Balances.

Context {zone : Zone}.


(** ** Weekly balance *)

Lemma weekLoop_days db userId weekStartDate remaining :
  forall i days,
    weekLoop db userId weekStartDate i remaining = Ok days ->
    Forall2 (fun k b =>
               calculateDailyBalance db userId (addDays weekStartDate k) = Ok b
               /\ date b = isoDay weekStartDate + k)
            (seqZ i (Z.of_nat remaining)) days.
Proof.
  induction remaining as [| n IH]; intros i days H.
  - simpl in H. inversion H. constructor.
  - rewrite Nat2Z.inj_succ, seqZ_cons by lia.
    replace (Z.pred (Z.succ (Z.of_nat n))) with (Z.of_nat n) by lia.
    simpl in H.
    destruct (calculateDailyBalance db userId (addDays weekStartDate i))
      as [b | m] eqn:Hday; simpl in H; [| discriminate].
    destruct (weekLoop db userId weekStartDate (i + 1) n) as [rest | m]
      eqn:Hrest; simpl in H; [| discriminate].
    inversion H; subst days. constructor.
    + split; [exact Hday |].
      apply calculateDailyBalance_inv in Hday.
      destruct Hday as (f & e & _ & _ & ->). simpl. apply isoDay_addDays.
    + replace (Z.succ i) with (i + 1) by lia. apply IH. exact Hrest.
Qed.

Lemma weekLoop_total db userId weekStartDate remaining :
  forall i,
    (forall date, is_ok (calculateDailyBalance db userId date) = true) ->
    is_ok (weekLoop db userId weekStartDate i remaining) = true.
Proof.
  induction remaining as [| n IH]; intros i Hok; [reflexivity |].
  simpl. pose proof (Hok (addDays weekStartDate i)) as Hday.
  destruct (calculateDailyBalance db userId (addDays weekStartDate i));
    [| discriminate].
  simpl. specialize (IH (i + 1) Hok).
  destruct (weekLoop db userId weekStartDate (i + 1) n); [| discriminate].
  reflexivity.
Qed.

Lemma fold_addDay days :
  forall totals,
    fold_left addDay days totals
    = {| total_food := total_food totals + sumZ food_calories days;
         total_exercise :=
           total_exercise totals + sumZ exercise_calories days;
         total_net := total_net totals + sumZ net_calories days;
         days_under_goal := days_under_goal totals + count is_under_goal days;
         days_over_goal := days_over_goal totals + count is_over_goal days |}.
Proof.
  unfold count.
  induction days as [| day days IH]; intros totals; simpl.
  - destruct totals; simpl. f_equal; lia.
  - rewrite IH. unfold addDay; simpl.
    destruct (is_under_goal day), (is_over_goal day); simpl length;
      f_equal; lia.
Qed.

Lemma getWeeklyBalance_inv db userId weekStartDate w :
  getWeeklyBalance db userId weekStartDate = Ok w ->
  weekLoop db userId weekStartDate 0 7 = Ok (daily_balances w)
  /\ weekly_totals w = fold_left addDay (daily_balances w) noTotals
  /\ weekly_average_net w
     = Math.round (inject_Z (total_net (weekly_totals w)) / 7)%Q
  /\ success_rate w
     = Math.round ((inject_Z (days_under_goal (weekly_totals w)) / 7) * 100)%Q
  /\ week_start w = isoDay weekStartDate.
Proof.
  unfold getWeeklyBalance. intros H.
  destruct (weekLoop db userId weekStartDate 0 7) as [days | m];
    simpl in H; [| discriminate].
  inversion H. simpl. repeat split.
Qed.


(** ** C10: days without a goal *)

Lemma balanceOf_flags date food exercise goal :
  let b := balanceOf date food exercise goal in
  is_over_goal b = negb (is_under_goal b)
  /\ (daily_goal b = 0 -> is_under_goal b = true /\ is_over_goal b = false).
Proof.
  unfold balanceOf; simpl. split.
  - destruct (goal =? 0); [reflexivity |].
    rewrite Z.gtb_ltb, Z.ltb_antisym. reflexivity.
  - intros ->. simpl. split; reflexivity.
Qed.

Lemma count_complement {A} (p q : A -> bool) (l : list A) :
  Forall (fun x => q x = negb (p x)) l ->
  count p l + count q l = Z.of_nat (length l).
Proof.
  unfold count. induction 1 as [| x l Hx _ IH]; [reflexivity |].
  simpl. rewrite Hx. destruct (p x); simpl; lia.
Qed.

Lemma count_le {A} (p q : A -> bool) (l : list A) :
  Forall (fun x => p x = true -> q x = true) l -> count p l <= count q l.
Proof.
  unfold count. induction 1 as [| x l Hx _ IH]; [reflexivity |].
  simpl. destruct (p x).
  - rewrite Hx by reflexivity. simpl. lia.
  - destruct (q x); simpl; lia.
Qed.

Lemma count_all {A} (p : A -> bool) (l : list A) :
  Forall (fun x => p x = true) l -> count p l = Z.of_nat (length l).
Proof.
  unfold count. induction 1 as [| x l Hx _ IH]; [reflexivity |].
  simpl. rewrite Hx. simpl. lia.
Qed.

Lemma week_days_are_balances db userId weekStartDate w :
  getWeeklyBalance db userId weekStartDate = Ok w ->
  length (daily_balances w) = 7%nat
  /\ Forall (fun b => exists date food exercise,
                        b = balanceOf date food exercise
                                      (getUserDailyGoal db userId))
            (daily_balances w).
Proof.
  intros H. apply getWeeklyBalance_inv in H. destruct H as (Hloop & _).
  apply weekLoop_days in Hloop. split.
  { apply Forall2_length in Hloop. rewrite <- Hloop. reflexivity. }
  revert Hloop. generalize (daily_balances w) (seqZ 0 (Z.of_nat 7)).
  intros days ks Hdays. induction Hdays as [| k b ks days [Hb _] _ IH];
    constructor; [| exact IH].
  apply calculateDailyBalance_inv in Hb.
  destruct Hb as (food & exercise & _ & _ & ->). eauto.
Qed.

(** C10: a daily balance with goal 0 is flagged under goal and not over
    goal; so in every weekly balance the days under and over goal add up to
    7, the days without a goal are among the days under goal, and for a
    user without a goal all 7 days count as under goal, for a success rate
    of 100. *)
Theorem no_goal_days_count_as_under db userId :
  (forall date b,
      calculateDailyBalance db userId date = Ok b ->
      daily_goal b = 0 ->
      is_under_goal b = true /\ is_over_goal b = false)
  /\ (forall weekStartDate w,
         getWeeklyBalance db userId weekStartDate = Ok w ->
         let totals := weekly_totals w in
         days_under_goal totals + days_over_goal totals = 7
         /\ count (fun b => daily_goal b =? 0) (daily_balances w)
            <= days_under_goal totals
         /\ (getUserDailyGoal db userId = 0 ->
             days_under_goal totals = 7 /\ success_rate w = 100)).
Proof.
  split.
  - intros date b Hb Hgoal. apply calculateDailyBalance_inv in Hb.
    destruct Hb as (food & exercise & _ & _ & ->).
    now apply balanceOf_flags.
  - intros weekStartDate w Hw totals.
    pose proof (week_days_are_balances _ _ _ _ Hw) as [Hlen Hdays].
    apply getWeeklyBalance_inv in Hw.
    destruct Hw as (_ & Htotals & _ & Hrate & _).
    assert (Hunder : days_under_goal totals
                     = count is_under_goal (daily_balances w)).
    { subst totals. rewrite Htotals, fold_addDay. simpl. lia. }
    assert (Hover : days_over_goal totals
                    = count is_over_goal (daily_balances w)).
    { subst totals. rewrite Htotals, fold_addDay. simpl. lia. }
    rewrite Hunder, Hover.
    split; [| split].
    + rewrite count_complement, Hlen; [reflexivity |].
      eapply Forall_impl; [exact Hdays |].
      intros b (date & food & exercise & ->). apply balanceOf_flags.
    + apply count_le. eapply Forall_impl; [exact Hdays |].
      intros b (date & food & exercise & ->) Hzero.
      apply Z.eqb_eq in Hzero. now apply balanceOf_flags.
    + intros Hgoal.
      assert (Hall : count is_under_goal (daily_balances w) = 7).
      { rewrite count_all, Hlen; [reflexivity |].
        eapply Forall_impl; [exact Hdays |].
        intros b (date & food & exercise & ->). rewrite Hgoal.
        reflexivity. }
      split; [exact Hall |].
      fold totals in Hrate. rewrite Hrate, Hunder, Hall. reflexivity.
Qed.

End Balances.



Lemma no_goal_days_count_as_under_witness :
  getUserDailyGoal lunchDb "nEwCoMeR0fIrEbAsEuId" = 0
  /\ exists w,
      getWeeklyBalance (zone := tokyo) lunchDb "nEwCoMeR0fIrEbAsEuId" noon
      = Ok w
      /\ days_under_goal (weekly_totals w) = 7
      /\ success_rate w = 100.
Proof.
  split; [reflexivity |].
  eexists. split; [vm_compute; reflexivity |].
  exact (proj2 (proj2 (proj2 (no_goal_days_count_as_under (zone := tokyo)
                                lunchDb "nEwCoMeR0fIrEbAsEuId")
                             noon _ eq_refl))
               eq_refl).
Defined.

(** ** C3: from logging to balance *)

Section FoodKeys.

Context {zone : Zone}.
Variable int_column : string -> option Z.

(** An entry logged through [createFoodEntry] is keyed by what the storage
    makes of the Firebase UID; unless that happens to be the user's id, the
    daily food total does not see it. *)
Lemma logged_entry_outside_total now db uid body user date :
  userFound db uid user ->
  int_column uid <> Some (Users.id user) ->
  getDailyFoodCalories (snd (createFoodEntry int_column now db uid body))
                       uid date
  = getDailyFoodCalories db uid date.
Proof.
  intros (us & Hus & Hfind) Hkey. unfold createFoodEntry.
  destruct (validateFoodEntry _ _ _) as [| error errors]; [| reflexivity].
  destruct (body_calories_per_serving body) as [calories |]; [| reflexivity].
  destruct (calorie_entries db) as [rows | m] eqn:Hrows; [| reflexivity].
  destruct (int_column uid) as [key |] eqn:Hcol; [| reflexivity].
  unfold getDailyFoodCalories, findOne, findAll. simpl.
  rewrite Hus, Hrows. simpl. rewrite Hfind. simpl.
  rewrite List.filter_app. simpl.
  destruct (Z.eqb_spec key (Users.id user)) as [-> | Hne];
    [congruence |].
  simpl. rewrite app_nil_r. reflexivity.
Qed.

End FoodKeys.

(** C3, at the defect: the user with goal 2000 and no exercise history logs
    1800 calories through [createFoodEntry]; the entry is keyed by the
    Firebase UID instead of the user's id, so under a strict store (row
    rejected) as under a lenient one (UID stored as 0) the daily balance of
    that day counts no food: food 0, net 0, remaining 2000. *)
Theorem logged_food_missing_from_balance :
  calculateDailyBalance (zone := tokyo) (afterLogging strict_int_column)
                        "aLiCe0fIrEbAsEuId" noon = Ok nothingCounted
  /\ calculateDailyBalance (zone := tokyo) (afterLogging lenient_int_column)
                           "aLiCe0fIrEbAsEuId" noon = Ok nothingCounted
  /\ food_calories nothingCounted = 0
  /\ remaining_calories nothingCounted = 2000.
Proof.
  repeat split; vm_compute; reflexivity.
Qed.

(** The same scenario with the entry keyed by the user's id, as the
    exercise log is: the balance the scenario expects. *)
Lemma scenario_when_keyed_by_user_id :
  calculateDailyBalance (zone := tokyo)
                        (afterLogging (fun _ => Some (Users.id alice)))
                        "aLiCe0fIrEbAsEuId" noon = Ok lunchBalance.
Proof. vm_compute. reflexivity. Qed.

(** ** C8: a user that is absent *)

(** C8: when the user record is absent, the daily balance of any date is
    returned, with goal 0, status NO_GOAL_SET and no food or exercise
    calories, whatever the state of the entry tables; the recommendation
    call fails with the user-not-found error and returns nothing. *)
Theorem absent_user_asymmetry {zone : Zone}
  (now : Date) (db : Database) (userId : string) (date : Date)
  (options : Options) :
  userAbsent db userId ->
  (exists b,
      calculateDailyBalance db userId date = Ok b
      /\ daily_goal b = 0 /\ status b = NO_GOAL_SET
      /\ food_calories b = 0 /\ exercise_calories b = 0
      /\ net_calories b = 0)
  /\ getPersonalizedRecommendations now db userId options
     = Err "AI Recommendation Error: User not found".
Proof.
  intros Habsent. split.
  - exists (balanceOf date 0 0 0). split; [| repeat split].
    rewrite (calculateDailyBalance_ok db userId date 0 0).
    + now rewrite getUserDailyGoal_absent.
    + now apply getDailyFoodCalories_absent.
    + now apply getDailyExerciseCalories_absent.
  - destruct Habsent as (us & Hus & Hfind).
    unfold getPersonalizedRecommendations, getUserFitnessProfile, findOne.
    rewrite Hus. simpl. rewrite Hfind. reflexivity.
Qed.

Lemma absent_user_asymmetry_witness :
  userAbsent entriesDown "sTrAnGeR0fIrEbAsEuId"
  /\ (exists b,
         calculateDailyBalance (zone := tokyo) entriesDown
                               "sTrAnGeR0fIrEbAsEuId" noon = Ok b
         /\ status b = NO_GOAL_SET)
  /\ getPersonalizedRecommendations noon entriesDown "sTrAnGeR0fIrEbAsEuId"
                                    topOne
     = Err "AI Recommendation Error: User not found".
Proof.
  assert (Habsent : userAbsent entriesDown "sTrAnGeR0fIrEbAsEuId")
    by (exists [alice; newcomer]; split; reflexivity).
  split; [exact Habsent |].
  destruct (absent_user_asymmetry (zone := tokyo)
              noon entriesDown "sTrAnGeR0fIrEbAsEuId" noon topOne Habsent)
    as [(b & Hb & _ & Hstatus & _) Hrec].
  split; [exists b; split; assumption | exact Hrec].
Defined.

(** ** C5: the calorie estimate of an exercise log *)

Lemma truthyZ_false (v : option Z) :
  truthyZ v = false -> v = None \/ v = Some 0.
Proof.
  destruct v as [n |]; simpl; [| now left].
  destruct (Z.eqb_spec n 0) as [-> | _]; [now right | discriminate].
Qed.

Lemma truthyZ_true (v : option Z) :
  truthyZ v = true -> exists n, v = Some n /\ n <> 0.
Proof.
  destruct v as [n |]; simpl; [| discriminate].
  destruct (Z.eqb_spec n 0) as [-> | Hn]; [discriminate | eauto].
Qed.

Lemma truthyZ_some (v : option Z) (m : Z) :
  truthyZ v = false -> v = Some m -> m <> 0 -> False.
Proof.
  intros Hv -> Hm. simpl in Hv. apply Z.eqb_neq in Hm. rewrite Hm in Hv.
  discriminate.
Qed.

Lemma orZ_default (v : option Z) : orZ v 0 = default 0 v.
Proof.
  destruct v as [n |]; simpl; [| reflexivity].
  destruct (Z.eqb_spec n 0); congruence.
Qed.

Lemma round_zero_product (rate : Q) (minutes : Z) :
  (rate == 0)%Q \/ minutes = 0 ->
  Math.round (Double.mul rate (inject_Z minutes)) = 0.
Proof.
  intros [H | ->].
  - now rewrite mul_0_l.
  - now rewrite mul_0_r.
Qed.

Lemma estimate_cases userStats exercise duration_minutes calories_burned :
  let '(final, method, _) :=
    estimate userStats exercise duration_minutes calories_burned in
  (forall m, calories_burned = Some m -> m <> 0 ->
             orZ final 0 = m /\ method = manual)
  /\ (truthyZ calories_burned = false ->
      forall minutes rate,
        duration_minutes = Some minutes ->
        Exercises.calories_per_minute exercise = Some rate ->
        orZ final 0 = Math.round (Double.mul rate (inject_Z minutes))
        /\ method = automatic)
  /\ (truthyZ calories_burned = false ->
      duration_minutes = None
      \/ Exercises.calories_per_minute exercise = None ->
      orZ final 0 = 0 /\ method = automatic).
Proof.
  unfold estimate.
  destruct (truthyZ calories_burned) eqn:Hmanual; simpl.
  - apply truthyZ_true in Hmanual. destruct Hmanual as (n & -> & Hn).
    simpl. apply Z.eqb_neq in Hn.
    split; [| split]; try discriminate.
    intros m [= <-] _. rewrite Hn. split; reflexivity.
  - assert (Hfallback : orZ calories_burned 0 = 0).
    { apply truthyZ_false in Hmanual. now destruct Hmanual as [-> | ->]. }
    destruct (truthyZ duration_minutes) eqn:Hduration; simpl.
    + apply truthyZ_true in Hduration.
      destruct Hduration as (d & -> & Hd).
      destruct (Exercises.calories_per_minute exercise) as [rate |] eqn:Hrate;
        simpl.
      * destruct (Qeq_bool rate 0) eqn:Hzero; simpl.
        -- apply Qeq_bool_eq in Hzero.
           split; [| split].
           ++ intros m Hm Hnz. exfalso. eapply truthyZ_some; eassumption.
           ++ intros _ minutes r [= ->] [= ->]. rewrite Hfallback.
              rewrite round_zero_product by now left. split; reflexivity.
           ++ intros _ [H | H]; discriminate.
        -- split; [| split].
           ++ intros m Hm Hnz. exfalso. eapply truthyZ_some; eassumption.
           ++ intros _ minutes r [= ->] [= ->]. split; [| reflexivity].
              unfold orZ.
              destruct (Z.eqb_spec
                          (Math.round (Double.mul r (inject_Z minutes))) 0)
                as [-> | _]; reflexivity.
           ++ intros _ [H | H]; discriminate.
      * split; [| split].
        -- intros m Hm Hnz. exfalso. eapply truthyZ_some; eassumption.
        -- intros _ minutes r _ [=].
        -- intros _ _. split; [exact Hfallback | reflexivity].
    + apply truthyZ_false in Hduration.
      split; [| split].
      * intros m Hm Hnz. exfalso. eapply truthyZ_some; eassumption.
      * intros _ minutes rate Hd Hr. rewrite Hfallback.
        split; [| reflexivity].
        destruct Hduration as [H | H]; rewrite H in Hd; [discriminate |].
        injection Hd as <-. now rewrite round_zero_product by now right.
      * intros _ _. split; [exact Hfallback | reflexivity].
Qed.

(** The validators accept a value in its range and reject an integer
    outside of it. *)
Lemma withinRange_within column lo hi v :
  within lo hi v -> withinRange column lo hi v = [].
Proof.
  intros Hv. destruct v as [x |]; [| reflexivity].
  destruct (Hv x eq_refl) as [Hlo Hhi]. unfold withinRange.
  assert (H1 : Double.leb lo x = true)
    by (apply leb_le; now apply nearest_mono).
  assert (H2 : Double.leb x hi = true)
    by (apply leb_le; now apply nearest_mono).
  now rewrite H1, H2.
Qed.


Lemma within_Z (lo hi x : Z) :
  within (inject_Z lo) (inject_Z hi) (Some (inject_Z x)) <-> lo <= x <= hi.
Proof.
  unfold within. split.
  - intros H. specialize (H _ eq_refl). rewrite <- !Zle_Qle in H. exact H.
  - intros H y [= <-]. now rewrite <- !Zle_Qle.
Qed.

Lemma validateExerciseLog_acceptable body calories :
  acceptableLog body calories -> validateExerciseLog body calories = [].
Proof.
  intros (Hd & Hs & Hr & Hw & Hk & Hc & Hg). unfold validateExerciseLog.
  rewrite !withinRange_within; try assumption; [reflexivity |].
  now apply (within_Z 0 5000).
Qed.


Section ExerciseLogging.

Context {zone : Zone}.

(** What [logExercise] answers for a user and an exercise that are found:
    the estimate decides the calories and the method, the validators and
    the store decide whether the row is written. *)
Lemma logExercise_found now db readBack uid body user exercise :
  userFound db uid user ->
  exerciseFound db (body_exercise_id body) exercise ->
  let userStats := getUserExerciseStats now db (Users.id user) in
  let result :=
    estimate userStats exercise (body_duration_minutes body)
             (body_calories_burned body) in
  let calories := orZ result.1.1 0 in
  let newLog :=
    {| UserExercises.user_id := Users.id user;
       UserExercises.exercise_id := body_exercise_id body;
       UserExercises.duration_minutes := body_duration_minutes body;
       UserExercises.calories_burned := Some calories;
       UserExercises.performed_at := default now (body_performed_at body);
       UserExercises.rating := body_rating body;
       UserExercises.exercise := Some exercise |} in
  logExercise now db readBack uid body
  = match validateExerciseLog body calories, user_exercises db with
    | _ :: _ as errors, _ => (ServerError (joinLines errors), db)
    | [], Err m => (ServerError m, db)
    | [], Ok rows =>
        let written :=
          {| users := users db;
             calorie_entries := calorie_entries db;
             user_exercises := Ok (rows ++ [newLog])%list;
             exercises := exercises db |} in
        match readBack with
        | Err m => (ServerError m, written)
        | Ok _ =>
            (Created {| log := newLog;
                        calculation_method := result.1.2;
                        preset_calories_per_min :=
                          Exercises.calories_per_minute exercise;
                        smart_suggestion := result.2;
                        user_stats := userStats |},
             written)
        end
    end.
Proof.
  intros (us & Hus & Hfind) (catalog & Hcat & Hex). simpl.
  unfold logExercise, findOne. rewrite Hus, Hcat. simpl.
  rewrite Hfind, Hex.
  destruct (estimate _ exercise _ _) as [[final method] suggestion].
  reflexivity.
Qed.


End ExerciseLogging.


(** The two examples of the spec, and one where the product of the doubles
    is below the product of the decimals: a manual 50 wins over the preset,
    10 minutes at 12 calories per minute give 120, and 25 minutes at 2.3
    calories per minute give 57, the double of 2.3 x 25 being
    57.49999999999999. *)
Example estimate_manual_override :
  estimate emptyStats running (Some 10) (Some 50) = (Some 50, manual, None).
Proof. reflexivity. Qed.

Example estimate_preset :
  let '(calories, method, _) := estimate emptyStats running (Some 10) None in
  calories = Some 120 /\ method = automatic.
Proof. split; reflexivity. Qed.

Example estimate_in_doubles :
  let '(calories, method, _) := estimate emptyStats walking (Some 25) None in
  calories = Some 57 /\ method = automatic.
Proof. split; reflexivity. Qed.

(** ** C9: logging statistics and the smart suggestion *)

(** Double arithmetic is reasoned about through its lemmas, never unfolded
    by [simpl]. *)
Arguments Double.nearest : simpl never.
Arguments Double.mul : simpl never.
Arguments Double.div : simpl never.
Arguments Double.add : simpl never.
Arguments Double.sub : simpl never.
Arguments Double.gtb : simpl never.
Arguments Double.leb : simpl never.
Arguments Math.round : simpl never.

Lemma Qgtb_lt (x y : Q) : Qgtb x y = true <-> (y < x)%Q.
Proof.
  unfold Qgtb. rewrite negb_true_iff. split.
  - intros H. apply Qnot_le_lt. intros Hle.
    apply Qle_bool_iff in Hle. congruence.
  - intros H. destruct (Qle_bool x y) eqn:Hle; [| reflexivity].
    apply Qle_bool_iff in Hle. exfalso. exact (Qlt_not_le _ _ H Hle).
Qed.

Lemma Qgtb_ge (x y : Q) : Qgtb x y = false <-> (x <= y)%Q.
Proof.
  unfold Qgtb. rewrite negb_false_iff. apply Qle_bool_iff.
Qed.

(** The test of the loop over the logs is the 5% test of the spec. *)
Lemma countLog_manual acc log :
  (countLog acc log).1.1
  = acc.1.1 + (if bool_decide (likelyManual log) then 1 else 0).
Proof.
  destruct acc as [[m t] c]. unfold countLog, comparable.
  assert (Hno : ~ likelyManual log ->
                (m, t, c).1.1
                = (m, t, c).1.1
                  + (if bool_decide (likelyManual log) then 1 else 0)).
  { intros H. rewrite bool_decide_eq_false_2 by exact H. cbn [fst]. lia. }
  assert (Hno' : ~ likelyManual log ->
                (m, t, c + 1).1.1
                = (m, t, c).1.1
                  + (if bool_decide (likelyManual log) then 1 else 0)).
  { intros H. rewrite bool_decide_eq_false_2 by exact H. cbn [fst]. lia. }
  destruct (UserExercises.exercise log) as [exercise |] eqn:Hexercise.
  2:{ apply Hno. intros (? & ? & ? & H & _). congruence. }
  destruct (Exercises.calories_per_minute exercise) as [rate |] eqn:Hrate.
  2:{ apply Hno. intros (? & ? & ? & H & H' & _).
      rewrite Hexercise in H. injection H as <-. congruence. }
  unfold truthyQ at 1.
  destruct (Qeq_bool rate 0) eqn:Hzero.
  { apply Qeq_bool_eq in Hzero. apply Hno.
    intros (? & r & ? & H & H' & Hr & _).
    rewrite Hexercise in H. injection H as <-.
    rewrite Hrate in H'. injection H' as <-. contradiction. }
  apply Qeq_bool_neq in Hzero.
  destruct (UserExercises.duration_minutes log) as [minutes |] eqn:Hminutes.
  2:{ apply Hno. intros (? & ? & ? & _ & _ & _ & H & _). congruence. }
  unfold truthyZ at 1.
  destruct (Z.eqb_spec minutes 0) as [-> | Hmin].
  { apply Hno. intros (? & ? & d & _ & _ & _ & H & Hd & _).
    rewrite Hminutes in H. injection H as <-. contradiction. }
  cbn [negb andb default from_option id].
  unfold percentDiff, calorieDifference, expectedCalories.
  set (expected := Double.mul rate (inject_Z minutes)).
  set (actual := inject_Z (default 0 (UserExercises.calories_burned log))).
  unfold Double.mul at 1.
  destruct (Double.gtb _ 5) eqn:Htest.
  - change 5%Q with (inject_Z 5) in Htest.
    apply gtb_nearest_Z in Htest; [| lia].
    rewrite bool_decide_eq_true_2; [reflexivity |].
    exists exercise, rate, minutes. repeat split; try assumption.
  - apply Hno'.
    intros (ex & r & d & H1 & H2 & _ & H3 & _ & Hlt).
    rewrite Hexercise in H1. injection H1 as <-.
    rewrite Hrate in H2. injection H2 as <-.
    rewrite Hminutes in H3. injection H3 as <-.
    cbv zeta in Hlt. fold expected actual in Hlt.
    unfold Double.mul at 1 in Hlt.
    change 5%Q with (inject_Z 5) in Hlt.
    apply (gtb_nearest_Z _ 5) in Hlt; [| lia].
    change (inject_Z 5) with 5%Q in Hlt. congruence.
Qed.

Lemma fold_countLog_manual logs :
  forall acc,
    (fold_left countLog logs acc).1.1
    = acc.1.1 + count (fun log => bool_decide (likelyManual log)) logs.
Proof.
  unfold count.
  induction logs as [| log logs IH]; intros acc; simpl; [lia |].
  rewrite IH, countLog_manual.
  destruct (bool_decide (likelyManual log)); simpl length; lia.
Qed.


Lemma statsOf_nil : statsOf [] = emptyStats.
Proof. reflexivity. Qed.










(** ** The logging statistics *)

Lemma count_bounds {A} (p : A -> bool) (l : list A) :
  0 <= count p l <= Z.of_nat (length l).
Proof.
  unfold count. pose proof (List.filter_length_le p l). lia.
Qed.

Lemma fold_countLog_difference logs :
  forall acc,
    (0 <= acc.1.2)%Q -> 0 <= acc.2 ->
    (0 <= (fold_left countLog logs acc).1.2)%Q
    /\ 0 <= (fold_left countLog logs acc).2.
Proof.
  induction logs as [| log logs IH]; intros [[m t] c] Ht Hc;
    cbn [fold_left fst snd] in *.
  - auto.
  - apply IH; unfold countLog;
      destruct (comparable log) as [[rate minutes] |]; cbn [fst snd];
      try assumption;
      destruct (Double.gtb _ 5); cbn [fst snd]; try assumption; try lia.
    apply add_nonneg; [exact Ht |]. unfold calorieDifference.
    apply Qabs_nonneg.
Qed.

Lemma div_le_1 (m n : Z) :
  0 <= m <= n -> 0 < n ->
  (Double.div (inject_Z m) (inject_Z n) <= inject_Z 1)%Q.
Proof.
  intros Hm Hn. unfold Double.div. apply nearest_le_Z; [lia |].
  assert (Hn' : (0 < Double.nearest (inject_Z n))%Q).
  { apply nearest_pos_lt. change 0%Q with (inject_Z 0).
    now rewrite <- Zlt_Qlt. }
  apply Qle_shift_div_r; [exact Hn' |]. rewrite Qmult_1_l.
  apply nearest_mono. rewrite <- Zle_Qle. lia.
Qed.

Lemma percentage_bounds (m n : Z) :
  0 <= m <= n -> 0 < n ->
  (0 <= Double.mul (Double.div (inject_Z m) (inject_Z n)) 100 <= 100)%Q.
Proof.
  intros Hm Hn.
  assert (Hn' : (0 < inject_Z n)%Q)
    by (change 0%Q with (inject_Z 0); now rewrite <- Zlt_Qlt).
  assert (Hm0 : (0 <= inject_Z m)%Q)
    by (change 0%Q with (inject_Z 0); rewrite <- Zle_Qle; lia).
  pose proof (div_nonneg _ _ Hm0 Hn') as Hlo.
  split.
  - apply mul_nonneg; [exact Hlo | discriminate].
  - change 100%Q with (inject_Z (1 * 100)) at 2.
    apply mul_le_Z; try exact Hlo; try discriminate; try lia;
      try (now apply div_le_1); try apply Qle_refl.
Qed.

(** The logging statistics never fail: when the log table rejects they are
    the statistics of a user without logs.  The manual input rate lies
    between 0 and 100, the average difference is never negative, and a
    likely tracker user has logs and a rate of at least 30. *)
Theorem exercise_stats_bounds now db userId :
  let stats := getUserExerciseStats now db userId in
  0 <= total_workouts stats
  /\ 0 <= manual_input_rate stats <= 100
  /\ 0 <= avg_manual_vs_preset_diff stats
  /\ (is_likely_tracker_user stats = true ->
      0 < total_workouts stats /\ 30 <= manual_input_rate stats)
  /\ (is_ok (user_exercises db) = false -> stats = emptyStats).
Proof.
  unfold getUserExerciseStats, findAll.
  destruct (user_exercises db) as [rows | m]; cbn [bind recover is_ok];
    [| repeat split; try (cbn; lia); discriminate].
  set (logs := List.filter _ rows). unfold statsOf.
  destruct (Z.eqb_spec (Z.of_nat (length logs)) 0) as [Hzero | Hpos].
  { repeat split; try (cbn; lia); discriminate. }
  pose proof (fold_countLog_manual logs (0, 0%Q, 0)) as Hmanual.
  pose proof (fold_countLog_difference logs (0, 0%Q, 0)
                ltac:(cbn; lra) ltac:(cbn; lia)) as [Hdiff Hcomparable].
  destruct (fold_left countLog logs (0, 0%Q, 0)) as [[m t] c].
  cbn [fst snd] in Hmanual, Hdiff, Hcomparable. subst m.
  pose proof (count_bounds (fun log => bool_decide (likelyManual log)) logs)
    as Hcount.
  rewrite Z.add_0_l.
  pose proof (percentage_bounds
                (count (fun log => bool_decide (likelyManual log)) logs)
                (Z.of_nat (length logs)) Hcount ltac:(lia)) as Hrate.
  set (rate := Double.mul _ 100) in *.
  cbn [total_workouts manual_input_rate avg_manual_vs_preset_diff
       is_likely_tracker_user].
  split; [lia |]. split; [| split; [| split; [| discriminate]]].
  - split; [apply round_nonneg; tauto |].
    rewrite <- (round_inject_Z 100). apply round_mono. tauto.
  - apply round_nonneg. rewrite Z.gtb_ltb.
    destruct (Z.ltb_spec 0 c) as [Hc | Hc]; [| apply Qle_refl].
    apply div_nonneg; [exact Hdiff |].
    change 0%Q with (inject_Z 0). now rewrite <- Zlt_Qlt.
  - intros Hlikely. subst rate. unfold Double.mul at 1 in Hlikely.
    change 30%Q with (inject_Z 30) in Hlikely.
    apply gtb_nearest_Z in Hlikely; [| lia]. split; [lia |].
    rewrite <- (round_inject_Z 30). apply round_mono.
    apply Qlt_le_weak. exact Hlikely.
Qed.

Lemma exercise_stats_bounds_witness :
  is_ok (user_exercises entriesDown) = false
  /\ getUserExerciseStats noon entriesDown 1 = emptyStats.
Proof.
  split; [reflexivity |].
  apply (proj2 (proj2 (proj2 (proj2
           (exercise_stats_bounds noon entriesDown 1))))).
  reflexivity.
Defined.

(** ** The exercise controller *)

Section ExerciseController.

Context {zone : Zone}.

(** The calorie preview is the estimate a log gets: for a request without
    a manual calories value and with a duration, the preview of the same
    exercise and duration answers; every log that is created stores the
    calories the preview shows, with method "automatic"; and the log is
    created when its model accepts the row and the store answers. *)
Theorem preview_matches_log now db readBack uid body user exercise rows
  minutes :
  userFound db uid user ->
  exerciseFound db (body_exercise_id body) exercise ->
  user_exercises db = Ok rows ->
  truthyZ (body_calories_burned body) = false ->
  body_duration_minutes body = Some minutes ->
  exists preview,
    previewRoute db (Some (body_exercise_id body)) (Some minutes)
    = Success preview
    /\ (forall data db',
          logExercise now db readBack uid body = (Created data, db') ->
          UserExercises.calories_burned (log data)
          = Some (estimated_calories preview)
          /\ calculation_method data = automatic)
    /\ (acceptableLog body (estimated_calories preview) ->
        is_ok readBack = true ->
        exists data db',
          logExercise now db readBack uid body = (Created data, db')).
Proof.
  intros Huser Hexercise Hrows Hmanual Hminutes.
  rewrite (logExercise_found now db readBack uid body user exercise
             Huser Hexercise).
  destruct Hexercise as (catalog & Hcat & Hex).
  unfold previewRoute, findOne. rewrite Hcat. cbn [bind]. rewrite Hex.
  pose proof (estimate_cases (getUserExerciseStats now db (Users.id user))
                exercise (body_duration_minutes body)
                (body_calories_burned body)) as Hcases.
  destruct (estimate (getUserExerciseStats now db (Users.id user)) exercise
                     (body_duration_minutes body) (body_calories_burned body))
    as [[final method] suggestion].
  destruct Hcases as (_ & Hauto & Hnone).
  eexists. split; [reflexivity |].
  cbn [estimated_calories fst snd]. rewrite Hrows.
  assert (Hsame : orZ final 0
                  = (if truthyQ (Exercises.calories_per_minute exercise)
                     then Math.round
                            (Double.mul
                               (default 0%Q
                                  (Exercises.calories_per_minute exercise))
                               (inject_Z minutes))
                     else 0)
                  /\ method = automatic).
  { destruct (Exercises.calories_per_minute exercise) as [rate |] eqn:Hrate.
    - destruct (Hauto Hmanual minutes rate Hminutes eq_refl) as [-> ->].
      split; [| reflexivity]. cbn [truthyQ default from_option id].
      destruct (Qeq_bool rate 0) eqn:Hzero; [| reflexivity].
      apply Qeq_bool_eq in Hzero.
      now rewrite round_zero_product by now left.
    - destruct (Hnone Hmanual (or_intror eq_refl)) as [-> ->].
      split; reflexivity. }
  destruct Hsame as [<- ->].
  split.
  - intros data db' Hlog.
    destruct (validateExerciseLog body (orZ final 0)); [| discriminate].
    destruct readBack; [| discriminate].
    injection Hlog as <- _. split; reflexivity.
  - intros Hvalid Hread.
    rewrite (validateExerciseLog_acceptable _ _ Hvalid).
    destruct readBack; [| discriminate]. eauto.
Qed.


(** From logging to balance, for exercise: a log created through
    [logExercise] is counted by the balance of the same user on the day it
    was performed; the exercise calories of that day grow by the calories
    stored in the log, and the food calories stay. *)
Theorem logged_exercise_counted now db readBack uid body user data db' :
  userFound db uid user ->
  logExercise now db readBack uid body = (Created data, db') ->
  exists stored before,
    UserExercises.calories_burned (log data) = Some stored
    /\ let day := UserExercises.performed_at (log data) in
       getDailyExerciseCalories db uid day = Ok before
       /\ getDailyExerciseCalories db' uid day = Ok (before + stored)
       /\ getDailyFoodCalories db' uid day = getDailyFoodCalories db uid day.
Proof.
  intros Hfound Hlog.
  pose proof Hfound as (us & Hus & Hfind).
  unfold logExercise, findOne in Hlog. rewrite Hus in Hlog.
  cbn [bind] in Hlog. rewrite Hfind in Hlog.
  destruct (exercises db) as [catalog | m] eqn:Hcat; cbn [bind] in Hlog;
    [| discriminate].
  destruct (List.find _ catalog) as [exercise |] eqn:Hex; [| discriminate].
  destruct (estimate _ exercise _ _) as [[final method] suggestion].
  cbv zeta in Hlog.
  destruct (validateExerciseLog body (orZ final 0)); [| discriminate].
  destruct (user_exercises db) as [rows | m] eqn:Hrows; [| discriminate].
  destruct readBack; [| discriminate].
  injection Hlog as <- <-. cbn [log UserExercises.calories_burned
                                UserExercises.performed_at].
  eexists _, _. split; [reflexivity |].
  set (newLog := {| UserExercises.user_id := Users.id user;
                    UserExercises.exercise_id := body_exercise_id body;
                    UserExercises.duration_minutes :=
                      body_duration_minutes body;
                    UserExercises.calories_burned := Some (orZ final 0);
                    UserExercises.performed_at :=
                      default now (body_performed_at body);
                    UserExercises.rating := body_rating body;
                    UserExercises.exercise := Some exercise |}).
  set (day := default now (body_performed_at body)).
  split; [| split].
  - apply (getDailyExerciseCalories_found db uid day user rows Hfound Hrows).
  - rewrite (getDailyExerciseCalories_found _ uid day user
               (rows ++ [newLog])%list).
    + rewrite List.filter_app. cbn [List.filter].
      assert (Hcounted : countedExercise user day newLog = true).
      { unfold countedExercise. cbn. fold day.
        now rewrite !Z.eqb_refl. }
      rewrite Hcounted. f_equal.
      clear.
      set (f := fun e => default 0 (UserExercises.calories_burned e)).
      change (orZ final 0) with (f newLog).
      induction (List.filter _ rows) as [| x l IH].
      * unfold sumZ. cbn [app foldr]. lia.
      * cbn [app]. unfold sumZ in *. cbn [foldr]. lia.
    + exists us. auto.
    + reflexivity.
  - unfold getDailyFoodCalories, findOne, findAll. cbn.
    now rewrite Hus.
Qed.

End ExerciseController.

Lemma preview_matches_log_witness :
  exists preview data db',
    previewRoute (dbWith [] twoRuns [running; walking]) (Some 2) (Some 25)
    = Success preview
    /\ logExercise noon (dbWith [] twoRuns [running; walking]) (Ok tt)
                   "aLiCe0fIrEbAsEuId" (twentyFiveMinutes None)
       = (Created data, db')
    /\ estimated_calories preview = 57
    /\ UserExercises.calories_burned (log data) = Some 57.
Proof.
  assert (Hu : userFound (dbWith [] twoRuns [running; walking])
                         "aLiCe0fIrEbAsEuId" alice)
    by (exists [alice; newcomer]; split; reflexivity).
  assert (He : exerciseFound (dbWith [] twoRuns [running; walking]) 2
                             walking)
    by (exists [running; walking]; split; reflexivity).
  destruct (preview_matches_log noon (dbWith [] twoRuns [running; walking])
              (Ok tt) "aLiCe0fIrEbAsEuId" (twentyFiveMinutes None) alice
              walking twoRuns 25 Hu He eq_refl eq_refl eq_refl)
    as (preview & Hpreview & Hsame & Hcreate).
  assert (Hcalories : estimated_calories preview = 57).
  { vm_compute in Hpreview. injection Hpreview as <-. reflexivity. }
  assert (Hvalid : acceptableLog (twentyFiveMinutes None)
                                 (estimated_calories preview)).
  { rewrite Hcalories. unfold acceptableLog, within. cbn.
    repeat match goal with |- _ /\ _ => split end;
      try (intros y [=]; fail);
      try (intros y [= <-]; split; discriminate); lia. }
  destruct (Hcreate Hvalid eq_refl) as (data & db' & Hlog).
  exists preview, data, db'.
  split; [exact Hpreview |]. split; [exact Hlog |].
  split; [exact Hcalories |].
  rewrite <- Hcalories. exact (proj1 (Hsame data db' Hlog)).
Defined.

(** A read-back that fails after the write: the answer is 500 and the row
    is stored. *)
Example log_exercise_read_back_failure :
  exists row,
    logExercise noon (dbWith [] twoRuns [running; walking])
                (Err "Connection lost") "aLiCe0fIrEbAsEuId"
                (tenMinutes None)
    = (ServerError "Connection lost",
       dbWith [] (twoRuns ++ [row]) [running; walking])
    /\ UserExercises.calories_burned row = Some 120.
Proof.
  eexists. split; [vm_compute; reflexivity | reflexivity].
Qed.

Lemma logged_exercise_counted_witness :
  exists data db',
    logExercise noon (dbWith [] twoRuns [running]) (Ok tt)
                "aLiCe0fIrEbAsEuId" (tenMinutes None) = (Created data, db')
    /\ getDailyExerciseCalories (zone := tokyo)
         (dbWith [] twoRuns [running]) "aLiCe0fIrEbAsEuId" noon = Ok 860
    /\ getDailyExerciseCalories (zone := tokyo) db' "aLiCe0fIrEbAsEuId" noon
       = Ok 980.
Proof.
  assert (Hu : userFound (dbWith [] twoRuns [running]) "aLiCe0fIrEbAsEuId"
                         alice)
    by (exists [alice; newcomer]; split; reflexivity).
  destruct (logExercise noon (dbWith [] twoRuns [running]) (Ok tt)
              "aLiCe0fIrEbAsEuId" (tenMinutes None))
    as [[data | message | error] db'] eqn:Hlog;
    try (vm_compute in Hlog; discriminate).
  exists data, db'. split; [reflexivity |].
  destruct (logged_exercise_counted (zone := tokyo) noon
              (dbWith [] twoRuns [running]) (Ok tt) "aLiCe0fIrEbAsEuId"
              (tenMinutes None) alice data db' Hu Hlog)
    as (stored & before & Hstored & Hbefore & Hafter & _).
  assert (Hdata : UserExercises.performed_at (log data) = noon
                  /\ UserExercises.calories_burned (log data) = Some 120).
  { apply (f_equal fst) in Hlog. vm_compute in Hlog.
    injection Hlog as <-. split; reflexivity. }
  destruct Hdata as [Hday Hcalories].
  rewrite Hday in Hbefore, Hafter. rewrite Hcalories in Hstored.
  injection Hstored as <-.
  assert (Hb : before = 860).
  { vm_compute in Hbefore. now injection Hbefore as <-. }
  subst before. split; [exact Hbefore | exact Hafter].
Defined.

(** ** Arrays: sorting and slicing *)

Section ArrayFacts.

Context {A : Type} (key : A -> Q).

Lemma insertDesc_perm (x : A) (l : list A) :
  Permutation (insertDesc key x l) (x :: l).
Proof.
  induction l as [| y l IH]; simpl; [reflexivity |].
  destruct (Qgtb (key y) (key x)); [| reflexivity].
  rewrite IH. apply perm_swap.
Qed.

Lemma sortDesc_perm (l : list A) : Permutation (sortDesc key l) l.
Proof.
  induction l as [| x l IH]; simpl; [reflexivity |].
  rewrite insertDesc_perm. now constructor.
Qed.

Lemma insertDesc_sorted (x : A) (l : list A) :
  StronglySorted (descending key) l ->
  StronglySorted (descending key) (insertDesc key x l).
Proof.
  induction 1 as [| y l Hsorted IH Hall]; simpl.
  - repeat constructor.
  - destruct (Qgtb (key y) (key x)) eqn:Hcmp.
    + apply Qgtb_lt in Hcmp. constructor; [exact IH |].
      rewrite insertDesc_perm. constructor; [| exact Hall].
      unfold descending. now apply Qlt_le_weak.
    + apply Qgtb_ge in Hcmp.
      constructor; [now constructor |].
      constructor; [exact Hcmp |].
      eapply Forall_impl; [exact Hall |].
      intros z Hz. unfold descending in *.
      eapply Qle_trans; eassumption.
Qed.

Lemma sortDesc_sorted (l : list A) :
  StronglySorted (descending key) (sortDesc key l).
Proof.
  induction l as [| x l IH]; simpl; [constructor |].
  now apply insertDesc_sorted.
Qed.

Lemma sortDesc_length (l : list A) : length (sortDesc key l) = length l.
Proof. apply Permutation_length, sortDesc_perm. Qed.

Lemma slice0_take (n : Z) (l : list A) :
  0 <= n -> slice0 n l = take (Z.to_nat n) l.
Proof.
  intros Hn. unfold slice0.
  destruct (Z.ltb_spec n 0); [lia | reflexivity].
Qed.

Lemma slice0_length (n : Z) (l : list A) :
  0 <= n -> Z.of_nat (length (slice0 n l)) = Z.min n (Z.of_nat (length l)).
Proof.
  intros Hn. rewrite slice0_take by exact Hn.
  rewrite length_take. lia.
Qed.

End ArrayFacts.

(** ** C7: the goal-based scorer *)

(** The table of the service is the table of the spec. *)
Lemma goalConfigOf_spec (user : Users.t) :
  goalPriorities (Users.fitness_goal user)
  = (priorities (goalConfigOf user), calorie_focus (goalConfigOf user),
     strength_focus (goalConfigOf user)).
Proof.
  unfold goalConfigOf.
  destruct (Users.fitness_goal user) as [[] |]; reflexivity.
Qed.

Lemma levelMap_spec (level : ActivityLevel) :
  levelMap level = difficultyForLevel level.
Proof. destruct level; reflexivity. Qed.

(** [indexOf] counts the categories ahead of the first occurrence. *)
Lemma indexOf_first (x : Category) (before after : list Category) :
  x ∉ before -> indexOf x (before ++ x :: after) = Some (length before).
Proof.
  induction before as [| y before IH]; intros Hnot; simpl.
  - now rewrite bool_decide_eq_true_2.
  - rewrite bool_decide_eq_false_2.
    + rewrite IH; [reflexivity |].
      intros Hin. apply Hnot. now right.
    + intros ->. apply Hnot. now left.
Qed.

Lemma indexOf_split (x : Category) (l : list Category) :
  x ∈ l ->
  exists before after, l = (before ++ x :: after)%list /\ x ∉ before.
Proof.
  induction l as [| y l IH]; intros Hin.
  - inversion Hin.
  - destruct (decide (y = x)) as [-> | Hne].
    + exists [], l. split; [reflexivity |]. intros H. inversion H.
    + assert (Hl : x ∈ l) by (inversion Hin; subst; congruence).
      destruct (IH Hl) as (before & after & -> & Hnot).
      exists (y :: before), after. split; [reflexivity |].
      intros H. inversion H; subst; [congruence | contradiction].
Qed.

Lemma goalScore_spec user goalConfig exercise before after :
  priorities goalConfig
  = (before ++ Exercises.category exercise :: after)%list ->
  Exercises.category exercise ∉ before ->
  goalScore user goalConfig exercise
  = specScore user (Z.of_nat (length (priorities goalConfig)))
              (Z.of_nat (length before))
              (calorie_focus goalConfig) (strength_focus goalConfig)
              exercise.
Proof.
  intros Hsplit Hfirst.
  unfold goalScore, specScore, expectedDifficulty, indexOfZ.
  rewrite levelMap_spec.
  assert (Hindex : indexOf (Exercises.category exercise)
                           (priorities goalConfig)
                   = Some (length before))
    by (rewrite Hsplit; now apply indexOf_first).
  rewrite Hindex.
  assert (Hcal :
    (calorie_focus goalConfig
     && match Exercises.calories_per_minute exercise with
        | Some rate => Qgtb rate 8
        | None => false
        end) = bool_decide (calorie_focus goalConfig = true
                            /\ caloriesAbove 8 exercise)).
  { unfold caloriesAbove. apply eq_true_iff_eq.
    rewrite andb_true_iff, bool_decide_eq_true.
    destruct (Exercises.calories_per_minute exercise) as [rate |].
    - rewrite Qgtb_lt. split.
      + intros [Hf Hr]. eauto.
      + intros (Hf & r & [= <-] & Hr). auto.
    - split; [intros [_ [=]] | intros (_ & r & [=] & _)]. }
  assert (Hstr :
    (strength_focus goalConfig
     && bool_decide (Exercises.category exercise = strength))
    = bool_decide (strength_focus goalConfig = true
                   /\ Exercises.category exercise = strength)).
  { apply eq_true_iff_eq.
    rewrite andb_true_iff, !bool_decide_eq_true. reflexivity. }
  rewrite Hcal, Hstr. cbv zeta.
  repeat case_bool_decide; repeat case_decide;
    first [lia | exfalso; tauto].
Qed.

(** C7: the goal-based scorer.  With the ordered priorities and the two
    focus flags the spec lists for the goal of the user (those of
    improve_fitness for a user without one), the candidates are the active
    exercises of the catalog whose category is among the priorities; a
    candidate whose category stands behind [ahead] others in a list of
    [listed] priorities scores 20 x (listed - ahead), + 25 with a calorie
    focus and more than 8 calories per minute, + 30 with a strength focus
    on a strength exercise, + 15 when its difficulty is the one of the
    user's activity level; the candidates are sorted by descending score
    and cut to the limit, 8 when there is none. *)
Theorem goal_based_ranking db user exerciseHistory options catalog :
  exercises db = Ok catalog ->
  let '(ranked, calorieFocus, strengthFocus) :=
    goalPriorities (Users.fitness_goal user) in
  let listed := Z.of_nat (length ranked) in
  let candidate exercise :=
    bool_decide (Exercises.category exercise ∈ ranked)
    && Exercises.is_active exercise in
  let result := getGoalBasedRecommendations db user exerciseHistory options in
  exists scored,
    Permutation (map rec_exercise scored) (List.filter candidate catalog)
    /\ StronglySorted (descending ai_score) scored
    /\ Forall (fun r =>
                 let exercise := rec_exercise r in
                 exists before after,
                   ranked
                   = (before ++ Exercises.category exercise :: after)%list
                   /\ (Exercises.category exercise ∉ before)
                   /\ ai_score r
                      = inject_Z (specScore user listed
                                            (Z.of_nat (length before))
                                            calorieFocus strengthFocus
                                            exercise))
              scored
    /\ (forall n, limit options = Some n -> 0 < n ->
                  result = Ok (take (Z.to_nat n) scored))
    /\ (truthyZ (limit options) = false -> result = Ok (take 8 scored)).
Proof.
  intros Hcatalog. rewrite goalConfigOf_spec.
  set (goalConfig := goalConfigOf user). cbv zeta.
  set (candidates := List.filter _ catalog).
  exists (sortDesc ai_score (map (scoreExercise user goalConfig) candidates)).
  assert (Hresult :
    getGoalBasedRecommendations db user exerciseHistory options
    = Ok (slice0 (orZ (limit options) 8)
            (sortDesc ai_score
               (map (scoreExercise user goalConfig) candidates)))).
  { unfold getGoalBasedRecommendations, findAll.
    rewrite Hcatalog. reflexivity. }
  split.
  { rewrite sortDesc_perm, map_map. cbn [scoreExercise rec_exercise].
    now rewrite map_id. }
  split; [apply sortDesc_sorted |].
  split.
  { eapply Permutation_Forall; [symmetry; apply sortDesc_perm |].
    apply Forall_map, Forall_forall. intros ex Hex.
    apply list_elem_of_In, filter_In in Hex. destruct Hex as [_ Hcandidate].
    apply andb_true_iff in Hcandidate. destruct Hcandidate as [Hin _].
    apply bool_decide_eq_true in Hin.
    destruct (indexOf_split _ _ Hin) as (before & after & Hsplit & Hfirst).
    exists before, after. cbn [scoreExercise rec_exercise ai_score].
    split; [exact Hsplit |]. split; [exact Hfirst |].
    f_equal. now apply goalScore_spec with (after := after). }
  split.
  - intros n Hn Hpos. rewrite Hresult, Hn. simpl.
    destruct (Z.eqb_spec n 0); [lia |].
    now rewrite slice0_take by lia.
  - intros Hlimit. rewrite Hresult.
    apply truthyZ_false in Hlimit. destruct Hlimit as [-> | ->]; reflexivity.
Qed.

Lemma goal_based_ranking_witness :
  exists scored,
    getGoalBasedRecommendations (dbWith [] [] [walking; running]) alice []
                                byDefault
    = Ok scored
    /\ map (fun r => (rec_id r, ai_score r)) scored
       = [(1, 65%Q); (2, 20%Q)].
Proof.
  destruct (goal_based_ranking (dbWith [] [] [walking; running]) alice []
              byDefault [walking; running] eq_refl)
    as (scored & Hperm & _ & _ & _ & Hdefault).
  specialize (Hdefault eq_refl).
  apply Permutation_length in Hperm. rewrite length_map in Hperm.
  change (length (List.filter _ _)) with 2%nat in Hperm.
  rewrite take_ge in Hdefault by (rewrite Hperm; lia).
  exists scored. split; [exact Hdefault |].
  vm_compute in Hdefault. injection Hdefault as <-. reflexivity.
Defined.

(** ** The fusion *)

Lemma dedupFrom_sound {B} (l : list (Rec * B)) :
  forall seen,
    NoDup (taggedIds (dedupFrom seen l))
    /\ forall i, i ∈ taggedIds (dedupFrom seen l) ->
                 (i ∉ seen) /\ (i ∈ taggedIds l).
Proof.
  induction l as [| rec l IH]; intros seen; simpl.
  - split; [constructor | intros i Hi; inversion Hi].
  - case_bool_decide as Hseen.
    + destruct (IH seen) as [Hnodup Hin]. split; [exact Hnodup |].
      intros i Hi. destruct (Hin i Hi). split; [assumption |].
      rewrite elem_of_cons. now right.
    + destruct (IH ({[rec_id rec.1]} ∪ seen)) as [Hnodup Hin].
      simpl. split.
      * apply NoDup_cons. split; [| exact Hnodup].
        intros Hi. apply Hin in Hi. destruct Hi as [Hfresh _].
        apply Hfresh, elem_of_union. left. now apply elem_of_singleton.
      * intros i Hi. apply elem_of_cons in Hi.
        destruct Hi as [-> | Hi].
        -- split; [exact Hseen | rewrite elem_of_cons; now left].
        -- apply Hin in Hi. destruct Hi as [Hfresh Hi]. split.
           ++ intros Hs. apply Hfresh, elem_of_union. now right.
           ++ rewrite elem_of_cons. now right.
Qed.

Lemma dedupFrom_complete {B} (l : list (Rec * B)) :
  forall seen i,
    i ∈ taggedIds l -> i ∉ seen -> i ∈ taggedIds (dedupFrom seen l).
Proof.
  induction l as [| rec l IH]; intros seen i Hi Hseen; simpl in *.
  - inversion Hi.
  - apply elem_of_cons in Hi. case_bool_decide as Hrec.
    + destruct Hi as [-> | Hi]; [contradiction | now apply IH].
    + simpl. destruct (decide (i = rec_id rec.1)) as [-> | Hne].
      * rewrite elem_of_cons. now left.
      * rewrite elem_of_cons. right. destruct Hi as [-> | Hi]; [done |].
        apply IH; [exact Hi |].
        rewrite elem_of_union, elem_of_singleton. tauto.
Qed.

Lemma dedupFrom_first {B} (l : list (Rec * B)) :
  forall seen x,
    x ∈ dedupFrom seen l -> firstWithId x l.
Proof.
  induction l as [| rec l IH]; intros seen x Hx; simpl in Hx.
  - inversion Hx.
  - case_bool_decide as Hseen.
    + destruct (IH seen x Hx) as (before & after & -> & Hfresh).
      exists (rec :: before), after. split; [reflexivity |].
      simpl. intros Hin. apply elem_of_cons in Hin.
      destruct Hin as [Heq | Hin]; [| contradiction].
      pose proof (dedupFrom_sound (before ++ x :: after)%list seen)
        as [_ Hsound].
      destruct (Hsound (rec_id x.1)) as [Hnot _]; [| congruence].
      unfold taggedIds. apply list_elem_of_In, in_map_iff.
      exists x. split; [reflexivity | now apply list_elem_of_In].
    + apply elem_of_cons in Hx. destruct Hx as [-> | Hx].
      * exists [], l. split; [reflexivity |]. simpl. apply not_elem_of_nil.
      * destruct (IH _ x Hx) as (before & after & -> & Hfresh).
        exists (rec :: before), after. split; [reflexivity |].
        simpl. intros Hin. apply elem_of_cons in Hin.
        destruct Hin as [Heq | Hin]; [| contradiction].
        pose proof (dedupFrom_sound (before ++ x :: after)%list
                      ({[rec_id rec.1]} ∪ seen)) as [_ Hsound].
        destruct (Hsound (rec_id x.1)) as [Hnot _];
          [| apply Hnot, elem_of_union; left; apply elem_of_singleton;
             congruence].
        unfold taggedIds. apply list_elem_of_In, in_map_iff.
        exists x. split; [reflexivity | now apply list_elem_of_In].
Qed.

Lemma round_below (y : Q) : (y < 1 # 2)%Q -> Math.round y <= 0.
Proof.
  intros Hy. unfold Math.round.
  pose proof (Qfloor_le (y + (1 # 2))) as Hfl.
  assert (H : (inject_Z (Qfloor (y + (1 # 2))) < inject_Z 1)%Q).
  { eapply Qle_lt_trans; [exact Hfl |]. change (inject_Z 1) with 1%Q. lra. }
  rewrite <- Zlt_Qlt in H. lia.
Qed.

(** The nearest double of a positive number is above it by less than a
    sixteenth of it. *)
Lemma nearest_upper (y : Q) :
  (0 <= y)%Q -> (Double.nearest y <= y * (17 # 16))%Q.
Proof.
  intros Hy. destruct (Qle_lt_or_eq _ _ Hy) as [Hpos | Hzero].
  2:{ rewrite (nearest_0 y) by now symmetry. lra. }
  rewrite (nearest_pos y Hpos). unfold Double.nearestPos.
  set (s := Double.ilog2 y - 52).
  pose proof (pow2_pos s) as Hs.
  destruct (scaled_window y Hpos) as [Hlo _]. fold s in Hlo.
  set (q := (y / Double.pow2 s)%Q) in *.
  assert (Hq : (q * Double.pow2 s == y)%Q).
  { subst q. field. intros H. rewrite H in Hs. discriminate. }
  assert (Hrne : (inject_Z (Double.rne q) <= q + (1 # 2))%Q).
  { pose proof (Qfloor_le q) as Hfloor.
    destruct (rne_cases q) as [[-> _] | [-> Hhalf]].
    - lra.
    - rewrite inject_Z_plus. change (inject_Z 1) with 1%Q. lra. }
  assert (H16 : (16 <= q)%Q).
  { eapply Qle_trans; [| exact Hlo].
    rewrite (pow2_Z 52) by lia. change 16%Q with (inject_Z 16).
    rewrite <- Zle_Qle. lia. }
  assert (Hbound : (inject_Z (Double.rne q) <= q * (17 # 16))%Q) by lra.
  eapply Qle_trans.
  - apply Qmult_le_compat_r; [exact Hbound | now apply Qlt_le_weak].
  - rewrite <- Hq. apply Qle_lteq. right. ring.
Qed.

Lemma weightOf_double (s : Source) :
  (0 <= Double.nearest (weightOf s) <= 2 # 5)%Q.
Proof.
  destruct s; split; apply Qle_bool_iff; vm_compute; reflexivity.
Qed.

(** A weight of the fusion never rounds a score above itself. *)
Lemma round_weighted_le (score : Q) (s : Source) :
  (0 <= score)%Q ->
  (inject_Z (Math.round (Double.mul score (weightOf s))) <= score)%Q.
Proof.
  intros Hscore. unfold Double.mul.
  pose proof (nearest_nonneg score Hscore) as Hn0.
  pose proof (nearest_upper score Hscore) as Hn.
  destruct (weightOf_double s) as [Hw0 Hw].
  set (x := Double.nearest score) in *.
  set (w := Double.nearest (weightOf s)) in *.
  assert (Hxw0 : (0 <= x * w)%Q) by now apply Qmult_le_0_compat.
  assert (Hxw : (x * w <= score * (17 # 40))%Q).
  { eapply Qle_trans.
    - apply Qmult_le_compat_r; [exact Hn | exact Hw0].
    - eapply Qle_trans.
      + rewrite Qmult_comm. apply Qmult_le_compat_r; [exact Hw |]. lra.
      + apply Qle_lteq. right. ring. }
  pose proof (nearest_upper (x * w) Hxw0) as Hm.
  set (m := Double.nearest (x * w)) in *.
  destruct (Qlt_le_dec m (1 # 2)) as [Hsmall | Hbig].
  - apply round_below in Hsmall.
    eapply Qle_trans; [| exact Hscore].
    change 0%Q with (inject_Z 0). now rewrite <- Zle_Qle.
  - unfold Math.round.
    eapply Qle_trans; [apply Qfloor_le |]. lra.
Qed.

Lemma finalize_id (rec : Rec * (Source * Q)) :
  rec_id (fused_rec (finalize rec)) = rec_id rec.1.
Proof. destruct rec as [r [s w]]. reflexivity. Qed.

Lemma fusedIds_finalize (l : list (Rec * (Source * Q))) :
  fusedIds (map finalize l) = taggedIds l.
Proof.
  unfold fusedIds, taggedIds. rewrite map_map.
  apply map_ext. intros rec. apply finalize_id.
Qed.

Lemma allRecs_weight recommendations rec :
  rec ∈ allRecs recommendations -> rec.2.2 = weightOf rec.2.1.
Proof.
  unfold allRecs, tag. rewrite !elem_of_app, !list_elem_of_In, !in_map_iff.
  intros H. decompose [or] H; clear H;
    match goal with
    | H : exists _, _ |- _ => destruct H as (r & <- & _); reflexivity
    end.
Qed.

Lemma deduplicate_subset {B} (l : list (Rec * B)) x :
  x ∈ deduplicateRecommendations l -> x ∈ l.
Proof.
  intros Hx. apply dedupFrom_first in Hx.
  destruct Hx as (before & after & -> & _).
  rewrite elem_of_app, elem_of_cons. auto.
Qed.

(** The fusion holds no exercise twice, keeps of each the first
    occurrence in the concatenation of the five lists (so the goal-based
    one when there is one), has at most 10 items, and gives every item the
    rounded product of its raw score and the weight of its source, a
    product of doubles, which is no larger than a raw score that is not
    negative. *)
Theorem fuse_properties recommendations :
  let fused := fuseRecommendations recommendations in
  NoDup (fusedIds fused)
  /\ (length fused <= 10)%nat
  /\ Forall (fun f =>
               firstWithId (fused_rec f, (source f, weight f))
                           (allRecs recommendations)
               /\ weight f = weightOf (source f)
               /\ final_ai_score f
                  = Math.round (Double.mul (ai_score (fused_rec f))
                                           (weight f))
               /\ ((0 <= ai_score (fused_rec f))%Q ->
                   (inject_Z (final_ai_score f) <= ai_score (fused_rec f))%Q))
            fused.
Proof.
  unfold fuseRecommendations. cbv zeta.
  rewrite slice0_take by lia.
  set (unique := deduplicateRecommendations (allRecs recommendations)).
  set (sorted := sortDesc _ (map finalize unique)).
  assert (Hperm : Permutation sorted (map finalize unique))
    by apply sortDesc_perm.
  split; [| split].
  - unfold fusedIds. rewrite <- firstn_map.
    eapply sublist_NoDup; [| apply sublist_take].
    rewrite (Permutation_map (fun f => rec_id (fused_rec f)) Hperm).
    change (NoDup (fusedIds (map finalize unique))).
    rewrite fusedIds_finalize. apply (dedupFrom_sound _ ∅).
  - rewrite length_take. lia.
  - apply Forall_forall. intros f Hf.
    apply subseteq_take in Hf.
    rewrite Hperm in Hf.
    apply list_elem_of_In, in_map_iff in Hf.
    destruct Hf as ([r [s w]] & <- & Hin). apply list_elem_of_In in Hin.
    cbn [finalize fused_rec source weight final_ai_score].
    pose proof (allRecs_weight recommendations (r, (s, w))
                  (deduplicate_subset _ _ Hin)) as Hw.
    cbn [fst snd] in Hw. subst w.
    split; [exact (dedupFrom_first _ _ _ Hin) |].
    split; [reflexivity |]. split; [reflexivity |].
    apply round_weighted_le.
Qed.

Lemma fuse_length recommendations :
  length (fuseRecommendations recommendations)
  = Nat.min 10 (length (deduplicateRecommendations (allRecs recommendations))).
Proof.
  unfold fuseRecommendations. cbv zeta.
  rewrite slice0_take by lia.
  rewrite length_take, sortDesc_length, length_map. reflexivity.
Qed.

Lemma StronglySorted_take {A} (R : A -> A -> Prop) (n : nat) (l : list A) :
  StronglySorted R l -> StronglySorted R (take n l).
Proof.
  intros Hsorted. revert n.
  induction Hsorted as [| x l _ IH Hall]; intros [| n]; simpl;
    try constructor; [apply IH | now apply Forall_take].
Qed.

(** The fused list is ordered by final score, highest first; every
    confidence is 50, 70, 80 or 100: at least 80 for a goal-based
    recommendation and at most 70 for any other, with the 20 extra points
    exactly for a raw score above 80. *)
Theorem fused_order_and_confidence recommendations :
  let fused := fuseRecommendations recommendations in
  StronglySorted (fun a b => final_ai_score b <= final_ai_score a) fused
  /\ Forall (fun f =>
               fused_confidence f
               = 50 + (if bool_decide (source f = goal_based) then 30 else 0)
                 + (if Qgtb (ai_score (fused_rec f)) 80 then 20 else 0)
               /\ 50 <= fused_confidence f <= 100
               /\ (source f = goal_based <-> 80 <= fused_confidence f))
            fused.
Proof.
  unfold fuseRecommendations. cbv zeta.
  rewrite slice0_take by lia.
  set (unique := deduplicateRecommendations (allRecs recommendations)).
  set (sorted := sortDesc _ (map finalize unique)).
  split.
  - apply StronglySorted_take.
    pose proof (sortDesc_sorted (fun r => inject_Z (final_ai_score r))
                  (map finalize unique)) as Hsorted.
    fold sorted in Hsorted.
    induction Hsorted as [| a l _ IH Hall]; constructor; [exact IH |].
    eapply Forall_impl; [exact Hall |].
    intros b Hb. unfold descending in Hb. now rewrite <- Zle_Qle in Hb.
  - apply Forall_take.
    assert (Hperm : Permutation sorted (map finalize unique))
      by apply sortDesc_perm.
    rewrite Hperm. apply Forall_forall. intros f Hf.
    apply list_elem_of_In, in_map_iff in Hf.
    destruct Hf as ([r [s w]] & <- & _). simpl.
    unfold calculateConfidence.
    destruct (decide (s = goal_based)) as [-> | Hs].
    + rewrite bool_decide_eq_true_2 by reflexivity.
      destruct (Qgtb (ai_score r) 80); simpl; repeat split; intros; lia.
    + rewrite bool_decide_eq_false_2 by exact Hs.
      destruct (Qgtb (ai_score r) 80); simpl; repeat split; intros;
        try lia; try contradiction.
Qed.


(** ** The scorers *)

Lemma pushSession_cons session groups : pushSession session groups <> [].
Proof.
  destruct groups as [| [k sessions] rest]; simpl; [discriminate |].
  destruct (_ =? k); [discriminate |]. destruct (_ <? k); discriminate.
Qed.

Lemma groupExercisesByType_cons (exerciseHistory : list UserExercises.t) :
  exerciseHistory <> [] -> groupExercisesByType exerciseHistory <> [].
Proof.
  unfold groupExercisesByType.
  assert (Hfold : forall history groups,
             groups <> [] ->
             fold_left (fun groups session => pushSession session groups)
                       history groups <> []).
  { induction history as [| session history IH]; intros groups Hgroups;
      simpl; [exact Hgroups |].
    apply IH, pushSession_cons. }
  destruct exerciseHistory as [| session history]; [contradiction |].
  intros _. cbn [fold_left]. apply Hfold, pushSession_cons.
Qed.

Lemma progressionLoop_throws db groups :
  groups <> [] ->
  progressionLoop db groups = notAFunction "analyzeProgression".
Proof.
  destruct groups as [| [exerciseId sessions] rest]; [contradiction |].
  reflexivity.
Qed.

Lemma learning_scorers_cases db user exerciseHistory :
  ((length exerciseHistory < 3)%nat ->
   getProgressiveOverloadRecommendations db user exerciseHistory = Ok []
   /\ getBehavioralRecommendations db user exerciseHistory = Ok [])
  /\ ((3 <= length exerciseHistory)%nat ->
      getProgressiveOverloadRecommendations db user exerciseHistory
      = Err "this.analyzeProgression is not a function").
Proof.
  unfold getProgressiveOverloadRecommendations, getBehavioralRecommendations.
  split; intros Hlength.
  - destruct (Z.ltb_spec (Z.of_nat (length exerciseHistory)) 3); [| lia].
    destruct (Z.ltb_spec (Z.of_nat (length exerciseHistory)) 5); [| lia].
    split; reflexivity.
  - destruct (Z.ltb_spec (Z.of_nat (length exerciseHistory)) 3); [lia |].
    rewrite progressionLoop_throws; [reflexivity |].
    apply groupExercisesByType_cons.
    destruct exerciseHistory; [simpl in Hlength; lia | discriminate].
Qed.

(** The two learning scorers stay silent until there is enough history:
    the progressive one answers the empty list below 3 logs and the
    behavioral one below 5, without consulting the store.  With more
    history each starts with an analysis that the class does not define,
    and throws. *)
Theorem learning_scorers_need_history db user exerciseHistory :
  ((length exerciseHistory < 3)%nat ->
   getProgressiveOverloadRecommendations db user exerciseHistory = Ok [])
  /\ ((3 <= length exerciseHistory)%nat ->
      getProgressiveOverloadRecommendations db user exerciseHistory
      = Err "this.analyzeProgression is not a function")
  /\ ((length exerciseHistory < 5)%nat ->
      getBehavioralRecommendations db user exerciseHistory = Ok [])
  /\ ((5 <= length exerciseHistory)%nat ->
      getBehavioralRecommendations db user exerciseHistory
      = Err "this.analyzeBehavioralPatterns is not a function").
Proof.
  unfold getProgressiveOverloadRecommendations, getBehavioralRecommendations.
  repeat split; intros Hlength.
  - destruct (Z.ltb_spec (Z.of_nat (length exerciseHistory)) 3);
      [reflexivity | lia].
  - destruct (Z.ltb_spec (Z.of_nat (length exerciseHistory)) 3); [lia |].
    rewrite progressionLoop_throws; [reflexivity |].
    apply groupExercisesByType_cons.
    destruct exerciseHistory; [simpl in Hlength; lia | discriminate].
  - destruct (Z.ltb_spec (Z.of_nat (length exerciseHistory)) 5);
      [reflexivity | lia].
  - destruct (Z.ltb_spec (Z.of_nat (length exerciseHistory)) 5); [lia |].
    reflexivity.
Qed.

(** The balance scorer and the adaptive scorer never answer: the first
    thing each does is to call an analysis that the class does not define,
    whatever the user, the history, the options and the store. *)
Theorem flat_scorers now db user exerciseHistory options :
  getBalanceAndRecoveryRecommendations now db user exerciseHistory
  = Err "this.analyzeMuscleGroupBalance is not a function"
  /\ getAdaptiveDifficultyRecommendations db user exerciseHistory options
     = Err "this.analyzeRecentPerformance is not a function".
Proof. split; reflexivity. Qed.

Lemma getPersonalizedRecommendations_found now db firebaseUid options user
  rows :
  userFound db firebaseUid user ->
  user_exercises db = Ok rows ->
  let exerciseHistory :=
    List.filter (lastThirtyDays now (Users.id user)) rows in
  getPersonalizedRecommendations now db firebaseUid options
  = Err ("AI Recommendation Error: this."
         +:+ (if (length exerciseHistory <? 3)%nat
              then "analyzeMuscleGroupBalance" else "analyzeProgression")
         +:+ " is not a function").
Proof.
  intros (us & Hus & Hfind) Hrows exerciseHistory.
  unfold getPersonalizedRecommendations, getUserFitnessProfile, findOne,
    getUserExerciseHistory, findAll.
  rewrite Hus, Hrows. cbn [bind]. rewrite Hfind. cbn [bind].
  match goal with
  | |- context [sortDesc ?key ?l] => set (history := sortDesc key l)
  end.
  assert (Hlength : length history = length exerciseHistory)
    by apply sortDesc_length.
  destruct (learning_scorers_cases db user history)
    as (Hshort & Hlong).
  destruct (Nat.ltb_spec (length exerciseHistory) 3) as [Hlt | Hge].
  - destruct Hshort as [-> ->]; [lia |]. reflexivity.
  - rewrite Hlong by lia. reflexivity.
Qed.

Lemma getPersonalizedRecommendations_fails now db firebaseUid options :
  is_ok (getPersonalizedRecommendations now db firebaseUid options) = false.
Proof.
  unfold getPersonalizedRecommendations.
  destruct (getUserFitnessProfile db firebaseUid) as [[user |] | m];
    cbn [bind rethrow is_ok]; try reflexivity.
  destruct (getUserExerciseHistory now db (Users.id user))
    as [exerciseHistory | m]; cbn [bind rethrow is_ok]; [| reflexivity].
  destruct (getProgressiveOverloadRecommendations db user exerciseHistory);
    cbn [bind rethrow is_ok]; [| reflexivity].
  destruct (getBehavioralRecommendations db user exerciseHistory);
    reflexivity.
Qed.

(** C4, at the defect: no recommend call returns a fused list.  The four
    learning scorers call eight methods that the class does not define, so
    that every call for a user that is found ends in a TypeError, rethrown
    as an AI Recommendation Error, before the fusion is reached; for a
    user without history and a request for one recommendation it is the
    balance scorer that throws. *)
Theorem recommend_call_never_returns :
  (forall now db firebaseUid options,
      is_ok (getPersonalizedRecommendations now db firebaseUid options)
      = false)
  /\ getPersonalizedRecommendations noon (dbWith [] [] sixExercises)
                                    "aLiCe0fIrEbAsEuId" topOne
     = Err ("AI Recommendation Error: "
            +:+ "this.analyzeMuscleGroupBalance is not a function").
Proof.
  split; [exact getPersonalizedRecommendations_fails | reflexivity].
Qed.

Lemma indexOf_bound (x : Category) (l : list Category) :
  x ∈ l -> 0 <= indexOfZ x l < Z.of_nat (length l).
Proof.
  unfold indexOfZ. induction l as [| y l IH]; intros Hx.
  - inversion Hx.
  - simpl. case_bool_decide as Hy; [simpl; lia |].
    apply elem_of_cons in Hx. destruct Hx as [-> | Hx]; [contradiction |].
    specialize (IH Hx). destruct (indexOf x l) as [i |]; simpl in *; lia.
Qed.

Lemma goalConfigOf_priorities (user : Users.t) :
  (1 <= length (priorities (goalConfigOf user)) <= 3)%nat.
Proof.
  unfold goalConfigOf.
  destruct (Users.fitness_goal user) as [[] |]; simpl; lia.
Qed.

(** Whatever the goal-based scorer returns is an active exercise of the
    catalog whose category is one of the priorities of the user's goal,
    with a score between 20 and 130: no inactive or off-goal exercise is
    ever recommended, and no goal-based score is 0 or negative. *)
Theorem goal_based_never_off_goal db user exerciseHistory options recs :
  getGoalBasedRecommendations db user exerciseHistory options = Ok recs ->
  Forall (fun r =>
            Exercises.is_active (rec_exercise r) = true
            /\ Exercises.category (rec_exercise r)
               ∈ priorities (goalConfigOf user)
            /\ (exists catalog, exercises db = Ok catalog
                                /\ In (rec_exercise r) catalog)
            /\ (20 <= ai_score r <= 130)%Q)
         recs.
Proof.
  unfold getGoalBasedRecommendations, findAll.
  destruct (exercises db) as [catalog | m]; simpl; [| discriminate].
  intros [= <-].
  set (cfg := goalConfigOf user).
  assert (Hall : Forall (fun r =>
            Exercises.is_active (rec_exercise r) = true
            /\ Exercises.category (rec_exercise r) ∈ priorities cfg
            /\ (exists catalog0, Ok catalog = Ok catalog0
                                 /\ In (rec_exercise r) catalog0)
            /\ (20 <= ai_score r <= 130)%Q)
          (sortDesc ai_score
             (map (scoreExercise user cfg)
                  (List.filter
                     (fun ex =>
                        bool_decide (Exercises.category ex ∈ priorities cfg)
                        && Exercises.is_active ex) catalog)))).
  { rewrite sortDesc_perm. apply Forall_forall. intros r Hr.
    apply list_elem_of_In, in_map_iff in Hr.
    destruct Hr as (ex & <- & Hex). simpl.
    apply filter_In in Hex. destruct Hex as [Hex Hkeep].
    apply andb_true_iff in Hkeep. destruct Hkeep as [Hcat Hactive].
    apply bool_decide_eq_true in Hcat.
    split; [exact Hactive |]. split; [exact Hcat |].
    split; [exists catalog; auto |].
    pose proof (indexOf_bound _ _ Hcat) as Hindex.
    pose proof (goalConfigOf_priorities user) as Hlen. fold cfg in Hlen.
    assert (Hscore : 20 <= goalScore user cfg ex <= 130).
    { unfold goalScore. cbv zeta.
      repeat match goal with
             | |- context [if ?c then _ else _] => destruct c
             end; lia. }
    change 20%Q with (inject_Z 20). change 130%Q with (inject_Z 130).
    rewrite <- !Zle_Qle. exact Hscore. }
  unfold slice0. destruct (_ <? 0); now apply Forall_take.
Qed.

Lemma goal_based_never_off_goal_witness :
  getGoalBasedRecommendations (dbWith [] [] sixExercises) alice [] topOne
  = Ok [scoreExercise alice (goalConfigOf alice) (cardioOf 3 intermediate)]
  /\ Exercises.is_active (cardioOf 3 intermediate) = true.
Proof.
  split; [reflexivity |].
  pose proof (goal_based_never_off_goal (dbWith [] [] sixExercises) alice []
                topOne _ eq_refl) as Hall.
  apply Forall_inv in Hall. exact (proj1 Hall).
Defined.

Lemma pushSession_keys session groups :
  StronglySorted Z.lt groups.*1 ->
  StronglySorted Z.lt (pushSession session groups).*1
  /\ forall k, k ∈ (pushSession session groups).*1
               <-> k = UserExercises.exercise_id session \/ k ∈ groups.*1.
Proof.
  induction groups as [| [k0 sessions] groups IH]; intros Hsorted; simpl.
  - split; [repeat constructor |].
    intros k. rewrite list_elem_of_singleton, elem_of_nil. tauto.
  - apply StronglySorted_inv in Hsorted. destruct Hsorted as [Hrest Hall].
    destruct (Z.eqb_spec (UserExercises.exercise_id session) k0) as [-> | Hne].
    + simpl. split; [now constructor |].
      intros k. rewrite elem_of_cons. tauto.
    + destruct (Z.ltb_spec (UserExercises.exercise_id session) k0)
        as [Hlt | Hge]; simpl.
      * split.
        -- constructor; [now constructor |].
           constructor; [exact Hlt |].
           eapply Forall_impl; [exact Hall |]. simpl. intros; lia.
        -- intros k. rewrite !elem_of_cons. tauto.
      * destruct (IH Hrest) as [IHsorted IHkeys]. split.
        -- constructor; [exact IHsorted |].
           apply Forall_forall. intros k Hk. apply IHkeys in Hk.
           destruct Hk as [-> | Hk]; [lia |].
           rewrite Forall_forall in Hall. now apply Hall.
        -- intros k. rewrite !elem_of_cons, IHkeys. tauto.
Qed.

Lemma groupOf_absent k groups :
  k ∉ groups.*1 -> groupOf k groups = [].
Proof.
  unfold groupOf. induction groups as [| [k0 sessions] groups IH]; simpl;
    [reflexivity |].
  intros Hk. rewrite not_elem_of_cons in Hk. destruct Hk as [Hne Hk].
  destruct (Z.eqb_spec k0 k); [congruence | now apply IH].
Qed.

Lemma pushSession_groupOf session groups k :
  StronglySorted Z.lt groups.*1 ->
  groupOf k (pushSession session groups)
  = (groupOf k groups
     ++ (if ofExercise k session then [session] else []))%list.
Proof.
  unfold ofExercise.
  induction groups as [| [k0 sessions] groups IH]; intros Hsorted.
  - unfold groupOf. simpl.
    destruct (Z.eqb_spec (UserExercises.exercise_id session) k);
      reflexivity.
  - apply StronglySorted_inv in Hsorted. destruct Hsorted as [Hrest Hall].
    simpl pushSession.
    destruct (Z.eqb_spec (UserExercises.exercise_id session) k0) as [Heq | Hne].
    + unfold groupOf. simpl. rewrite Heq.
      destruct (Z.eqb_spec k0 k); simpl; [reflexivity |].
      now rewrite app_nil_r.
    + destruct (Z.ltb_spec (UserExercises.exercise_id session) k0)
        as [Hlt | Hge].
      * destruct (Z.eqb_spec (UserExercises.exercise_id session) k)
          as [Heq | Hne'].
        -- rewrite (groupOf_absent k ((k0, sessions) :: groups)).
           ++ unfold groupOf. simpl. rewrite Heq, Z.eqb_refl. reflexivity.
           ++ simpl. rewrite not_elem_of_cons. split; [lia |].
              intros Hk. rewrite Forall_forall in Hall.
              specialize (Hall _ Hk). simpl in Hall. lia.
        -- unfold groupOf. simpl.
           destruct (Z.eqb_spec (UserExercises.exercise_id session) k);
             [contradiction |].
           now rewrite app_nil_r.
      * unfold groupOf in *. simpl.
        destruct (Z.eqb_spec k0 k) as [<- | Hk].
        -- destruct (Z.eqb_spec (UserExercises.exercise_id session) k0);
             [contradiction | now rewrite app_nil_r].
        -- now apply IH.
Qed.

Lemma groupExercisesByType_fold history :
  forall groups,
    StronglySorted Z.lt groups.*1 ->
    let result :=
      fold_left (fun groups session => pushSession session groups)
                history groups in
    StronglySorted Z.lt result.*1
    /\ (forall k, groupOf k result
                  = (groupOf k groups ++ List.filter (ofExercise k) history)
                      %list)
    /\ (forall k, k ∈ result.*1
                  <-> k ∈ groups.*1
                      \/ k ∈ map UserExercises.exercise_id history).
Proof.
  induction history as [| session history IH]; intros groups Hsorted; simpl.
  - split; [exact Hsorted |]. split.
    + intros k. now rewrite app_nil_r.
    + intros k. rewrite elem_of_nil. tauto.
  - destruct (pushSession_keys session groups Hsorted) as [Hsorted' Hkeys].
    destruct (IH _ Hsorted') as (IHsorted & IHgroup & IHkeys).
    split; [exact IHsorted |]. split.
    + intros k. rewrite IHgroup, pushSession_groupOf by exact Hsorted.
      rewrite <- app_assoc. f_equal.
      destruct (ofExercise k session); reflexivity.
    + intros k. rewrite IHkeys, Hkeys, elem_of_cons. tauto.
Qed.

Lemma groupOf_entry k sessions groups :
  NoDup groups.*1 -> (k, sessions) ∈ groups -> groupOf k groups = sessions.
Proof.
  unfold groupOf. induction groups as [| [k0 ss] groups IH]; simpl;
    intros Hnodup Hin; [inversion Hin |].
  apply NoDup_cons in Hnodup. destruct Hnodup as [Hfresh Hnodup].
  apply elem_of_cons in Hin. destruct Hin as [[= <- <-] | Hin].
  - now rewrite Z.eqb_refl.
  - destruct (Z.eqb_spec k0 k) as [<- | Hne]; [| now apply IH].
    exfalso. apply Hfresh. apply list_elem_of_fmap.
    exists (k0, sessions). auto.
Qed.

Lemma StronglySorted_lt_NoDup (l : list Z) :
  StronglySorted Z.lt l -> NoDup l.
Proof.
  induction 1 as [| x l _ IH Hall]; constructor; [| exact IH].
  intros Hx. rewrite Forall_forall in Hall. specialize (Hall _ Hx). lia.
Qed.

(** Grouping the history by exercise: there is exactly one group for every
    exercise id of the history and none for any other id, and the group of
    an id holds all the sessions of that exercise and only those, in the
    order of the history; so no group is empty and no session is lost. *)
Theorem groups_partition_history (exerciseHistory : list UserExercises.t) :
  let groups := groupExercisesByType exerciseHistory in
  NoDup groups.*1
  /\ (forall k, k ∈ groups.*1
                <-> k ∈ map UserExercises.exercise_id exerciseHistory)
  /\ (forall k sessions,
         (k, sessions) ∈ groups ->
         sessions = List.filter (ofExercise k) exerciseHistory
         /\ sessions <> []).
Proof.
  unfold groupExercisesByType.
  destruct (groupExercisesByType_fold exerciseHistory []
              ltac:(constructor)) as (Hsorted & Hgroup & Hkeys).
  cbv zeta in *.
  set (groups := fold_left _ exerciseHistory []) in *.
  assert (Hnodup : NoDup groups.*1) by now apply StronglySorted_lt_NoDup.
  split; [exact Hnodup |]. split.
  - intros k. rewrite Hkeys. simpl. rewrite elem_of_nil. tauto.
  - intros k sessions Hin.
    assert (Hsessions : sessions = List.filter (ofExercise k) exerciseHistory).
    { rewrite <- (groupOf_entry k sessions groups Hnodup Hin).
      now rewrite Hgroup. }
    split; [exact Hsessions |].
    assert (Hk : k ∈ groups.*1).
    { apply list_elem_of_fmap. exists (k, sessions). auto. }
    apply Hkeys in Hk. destruct Hk as [Hk | Hk]; [inversion Hk |].
    apply list_elem_of_In, in_map_iff in Hk.
    destruct Hk as (session & Hid & Hsession).
    assert (Hmember : In session (List.filter (ofExercise k) exerciseHistory)).
    { apply filter_In. split; [exact Hsession |].
      unfold ofExercise. now apply Z.eqb_eq. }
    rewrite Hsessions. intros Hempty. rewrite Hempty in Hmember.
    inversion Hmember.
Qed.

(** The experience score lies between 0 and 100 and is 0 only for an empty
    history; with [n] workouts it is at least min(100, 2n + 5) and at most
    min(100, 7n). *)
Theorem experience_score_bounds (exerciseHistory : list UserExercises.t) :
  let score := calculateExperienceScore exerciseHistory in
  let n := Z.of_nat (length exerciseHistory) in
  0 <= score <= 100
  /\ (score = 0 <-> exerciseHistory = [])
  /\ (exerciseHistory <> [] -> Z.min 100 (2 * n + 5) <= score)
  /\ score <= Z.min 100 (7 * n).
Proof.
  unfold calculateExperienceScore. cbv zeta.
  set (ids := map UserExercises.exercise_id exerciseHistory).
  set (unique := list_to_set ids : gset Z).
  assert (Hupper : (size unique <= length exerciseHistory)%nat).
  { subst unique. replace (length exerciseHistory) with (length ids)
      by apply length_map.
    clear. induction ids as [| x ids IH].
    - reflexivity.
    - rewrite list_to_set_cons. simpl length.
      rewrite size_union_alt, size_singleton.
      assert (size (list_to_set ids ∖ {[x]} : gset Z)
              <= size (list_to_set ids : gset Z))%nat; [| lia].
      apply subseteq_size. apply subseteq_difference_l. reflexivity. }
  assert (Hlower : exerciseHistory <> [] -> (1 <= size unique)%nat).
  { intros Hne. destruct exerciseHistory as [| session rest];
      [contradiction |].
    subst unique ids. simpl map. rewrite list_to_set_cons.
    rewrite size_union_alt, size_singleton. lia. }
  destruct exerciseHistory as [| session rest] eqn:Hhistory.
  - subst unique ids. change (size (list_to_set (map _ []) : gset Z))
      with 0%nat. simpl.
    repeat split; intros; try lia; try contradiction; try reflexivity.
  - specialize (Hlower ltac:(discriminate)).
    set (n := Z.of_nat (length (session :: rest))) in *.
    assert (0 < n) by (subst n; simpl; lia).
    repeat split; intros; try lia; try discriminate.
Qed.

Lemma groups_partition_history_witness :
  (1, oneRun) ∈ groupExercisesByType oneRun /\ oneRun <> [].
Proof.
  assert (Hin : (1, oneRun) ∈ groupExercisesByType oneRun)
    by (apply list_elem_of_here).
  split; [exact Hin |].
  exact (proj2 (proj2 (proj2 (groups_partition_history oneRun)) 1 oneRun Hin)).
Defined.

Lemma experience_score_bounds_witness :
  oneRun <> [] /\ Z.min 100 (2 * 1 + 5) <= calculateExperienceScore oneRun.
Proof.
  assert (Hne : oneRun <> []) by discriminate.
  split; [exact Hne |].
  exact (proj1 (proj2 (proj2 (experience_score_bounds oneRun))) Hne).
Defined.


Lemma learning_scorers_need_history_witness :
  getProgressiveOverloadRecommendations entriesDown alice oneRun = Ok []
  /\ getProgressiveOverloadRecommendations
       (dbWith [] threeRuns [running]) alice threeRuns
     = Err "this.analyzeProgression is not a function"
  /\ getBehavioralRecommendations entriesDown alice threeRuns = Ok [].
Proof.
  pose proof (learning_scorers_need_history entriesDown alice oneRun)
    as (Hshort & _).
  pose proof (learning_scorers_need_history (dbWith [] threeRuns [running])
                alice threeRuns) as (_ & Hlong & _).
  pose proof (learning_scorers_need_history entriesDown alice threeRuns)
    as (_ & _ & Hquiet & _).
  split; [apply Hshort; simpl; lia |].
  split; [apply Hlong; simpl; lia | apply Hquiet; simpl; lia].
Defined.

(** ** The recommendation controller *)

(** The suggestions of the quick workout: a duration between 5 and 15
    minutes, 10 for a sports exercise and for every goal without an entry
    in the table (maintain_weight and gain_weight among them); a cardio
    exercise gets neither sets nor reps, every other exercise gets both,
    between 2 and 4 sets.  The goal is any string that does not name a
    property inherited by every object. *)
Theorem workout_suggestions (exercise : Exercises.t) (goal : string) :
  goal ∉ inheritedKeys ->
  5 <= suggestDuration exercise goal <= 15
  /\ (Exercises.category exercise = sports \/ goal ∉ durationGoals ->
      suggestDuration exercise goal = 10)
  /\ (suggestSets exercise goal = None
      <-> Exercises.category exercise = cardio)
  /\ (suggestReps exercise goal = None
      <-> Exercises.category exercise = cardio)
  /\ (forall sets, suggestSets exercise goal = Some sets -> 2 <= sets <= 4).
Proof.
  intros _.
  split; [| split; [| split; [| split]]].
  - unfold suggestDuration, baseDurations.
    destruct (Exercises.category exercise); simpl;
      repeat (rewrite lookup_insert; case_decide; subst; [simpl; lia |]);
      try rewrite lookup_empty; simpl; lia.
  - unfold suggestDuration, baseDurations, durationGoals.
    intros [-> | Hgoal]; [reflexivity |].
    rewrite !not_elem_of_cons in Hgoal.
    destruct Hgoal as (H1 & H2 & H3 & _).
    destruct (Exercises.category exercise); simpl;
      repeat (rewrite lookup_insert_ne by congruence);
      try rewrite lookup_empty; reflexivity.
  - unfold suggestSets. case_bool_decide; split; intros; congruence.
  - unfold suggestReps. case_bool_decide; split; intros; congruence.
  - intros sets. unfold suggestSets, setSuggestions.
    case_bool_decide; [discriminate |]. intros [= <-]. simpl.
    repeat (rewrite lookup_insert; case_decide; subst; [simpl; lia |]).
    rewrite lookup_empty. simpl. lia.
Qed.

(** The quick workout never answers 200.  Without a goal it answers 400;
    with one it asks the recommendation service for 5 recommendations,
    the service throws, and the answer is 500 with the message of the
    service: for a user that is found, with fewer than 3 logs in the last
    30 days, the TypeError of the balance scorer. *)
Theorem quick_workout_never_answers now db uid goal :
  let reply := getQuickWorkout now db uid goal in
  let options := {| limit := Some 5; energy_level := None |} in
  (goal = None \/ goal = Some "" -> exists message, reply = BadRequest message)
  /\ (forall name,
         goal = Some name -> name <> "" ->
         exists error,
           getPersonalizedRecommendations now db uid options = Err error
           /\ reply = Failure error)
  /\ (forall name user rows,
         goal = Some name -> name <> "" ->
         userFound db uid user -> user_exercises db = Ok rows ->
         (length (List.filter (lastThirtyDays now (Users.id user)) rows)
          < 3)%nat ->
         reply
         = Failure ("AI Recommendation Error: "
                    +:+ "this.analyzeMuscleGroupBalance is not a function")).
Proof.
  cbv zeta. split; [| split].
  - intros [-> | ->]; eexists; reflexivity.
  - intros name -> Hname. unfold getQuickWorkout.
    destruct name as [| c rest]; [contradiction |].
    destruct (getPersonalizedRecommendations now db uid _) as [p | m]
      eqn:Hcall.
    + exfalso.
      pose proof (getPersonalizedRecommendations_fails now db uid
                    {| limit := Some 5; energy_level := None |}) as Hfails.
      rewrite Hcall in Hfails. discriminate.
    + eauto.
  - intros name user rows -> Hname Huser Hrows Hshort.
    unfold getQuickWorkout.
    destruct name as [| c rest]; [contradiction |].
    rewrite (getPersonalizedRecommendations_found now db uid _ user rows
               Huser Hrows).
    cbv zeta. apply Nat.ltb_lt in Hshort. rewrite Hshort. reflexivity.
Qed.

Lemma quick_workout_never_answers_witness :
  getQuickWorkout noon (dbWith [] twoRuns sixExercises) "aLiCe0fIrEbAsEuId"
                  (Some "lose_weight")
  = Failure ("AI Recommendation Error: "
             +:+ "this.analyzeMuscleGroupBalance is not a function").
Proof.
  apply (proj2 (proj2 (quick_workout_never_answers
                         noon (dbWith [] twoRuns sixExercises)
                         "aLiCe0fIrEbAsEuId" (Some "lose_weight")))
           "lose_weight" alice twoRuns eq_refl).
  - discriminate.
  - exists [alice; newcomer]. split; reflexivity.
  - reflexivity.
  - simpl. lia.
Defined.

Lemma workout_suggestions_witness :
  ("gain_weight" ∉ inheritedKeys)
  /\ ("gain_weight" ∉ durationGoals)
  /\ suggestDuration running "gain_weight" = 10.
Proof.
  assert (Hown : "gain_weight" ∉ inheritedKeys).
  { unfold inheritedKeys. rewrite !not_elem_of_cons.
    repeat split; try discriminate. apply not_elem_of_nil. }
  assert (Hgoal : "gain_weight" ∉ durationGoals).
  { unfold durationGoals. rewrite !not_elem_of_cons.
    repeat split; try discriminate. apply not_elem_of_nil. }
  split; [exact Hown |]. split; [exact Hgoal |].
  apply (proj1 (proj2 (workout_suggestions running "gain_weight" Hown))).
  now right.
Defined.


(** ** The realtime service: sync queue and sync status *)

Section RealtimeFacts.

Context {Payload : Type}.
Implicit Types db : Realtime.Tree Payload.
Implicit Types item : Realtime.Item Payload.

Lemma itemAt_setItem uid itemType itemId item db u t i :
  Realtime.itemAt u t i (Realtime.setItem uid itemType itemId item db)
  = if decide (u = uid /\ t = itemType /\ i = itemId) then Some item
    else Realtime.itemAt u t i db.
Proof.
  unfold Realtime.itemAt, Realtime.setItem, Realtime.queueOf,
    Realtime.itemsOf. simpl.
  destruct (decide (u = uid)) as [-> | Hu].
  - rewrite lookup_insert_eq. simpl.
    destruct (decide (t = itemType)) as [-> | Ht].
    + rewrite lookup_insert_eq. simpl.
      destruct (decide (i = itemId)) as [-> | Hi].
      * rewrite lookup_insert_eq. now rewrite decide_True.
      * rewrite lookup_insert_ne by congruence.
        now rewrite decide_False by tauto.
    + rewrite lookup_insert_ne by congruence.
      now rewrite decide_False by tauto.
  - rewrite lookup_insert_ne by congruence.
    now rewrite decide_False by tauto.
Qed.

Lemma itemAt_markSyncCompleted uid itemType itemId db u t i :
  Realtime.itemAt u t i (Realtime.markSyncCompleted uid itemType itemId db)
  = if decide (u = uid /\ t = itemType /\ i = itemId) then None
    else Realtime.itemAt u t i db.
Proof.
  unfold Realtime.itemAt, Realtime.markSyncCompleted, Realtime.queueOf,
    Realtime.itemsOf. simpl.
  rewrite lookup_alter.
  destruct (decide (uid = u)) as [<- | Hu].
  - destruct (Realtime.syncQueue db !! uid) as [queue |] eqn:Hqueue; simpl.
    + rewrite lookup_alter.
      destruct (decide (itemType = t)) as [<- | Ht].
      * destruct (queue !! itemType) as [items |] eqn:Hitems; simpl.
        -- destruct (decide (i = itemId)) as [-> | Hi].
           ++ rewrite lookup_delete_eq. now rewrite decide_True.
           ++ rewrite lookup_delete_ne by congruence.
              now rewrite decide_False by tauto.
        -- rewrite lookup_empty. now destruct (decide _).
      * now rewrite decide_False by (intros (_ & -> & _); congruence).
    + rewrite !lookup_empty. simpl. rewrite lookup_empty.
      now destruct (decide _).
  - now rewrite decide_False by (intros (-> & _); congruence).
Qed.

(** Queue and read back: an entry queued for sync is filed under the clock
    reading as its id, marked pending, and is what the pending items of
    that user and type hold at that id; nothing else in the tree changes.
    Marking it completed removes it, and only it. *)
Theorem queued_item_round_trip itemType now later uid (entry : Payload) db :
  let '(entryId, db') :=
    Realtime.queueForSync itemType now later uid entry db in
  let queued :=
    {| Realtime.payload := entry; Realtime.queuedAt := later;
       Realtime.syncStatus := "pending" |} in
  entryId = now
  /\ Realtime.itemAt uid itemType entryId db' = Some queued
  /\ (forall u t i,
         (u, t, i) <> (uid, itemType, entryId) ->
         Realtime.itemAt u t i db' = Realtime.itemAt u t i db)
  /\ Realtime.syncStatusNode db' = Realtime.syncStatusNode db
  /\ Realtime.itemAt uid itemType entryId
       (Realtime.markSyncCompleted uid itemType entryId db') = None
  /\ (forall u t i,
         (u, t, i) <> (uid, itemType, entryId) ->
         Realtime.itemAt u t i
           (Realtime.markSyncCompleted uid itemType entryId db')
         = Realtime.itemAt u t i db).
Proof.
  unfold Realtime.queueForSync. cbv zeta.
  split; [reflexivity |]. split.
  { rewrite itemAt_setItem. now rewrite decide_True. }
  split.
  { intros u t i Hne. rewrite itemAt_setItem.
    rewrite decide_False; [reflexivity |].
    intros (-> & -> & ->). now apply Hne. }
  split; [reflexivity |]. split.
  { rewrite itemAt_markSyncCompleted. now rewrite decide_True. }
  intros u t i Hne. rewrite itemAt_markSyncCompleted, itemAt_setItem.
  rewrite !decide_False; [reflexivity | |];
    intros (-> & -> & ->); now apply Hne.
Qed.

(** The three queues are the three fields of the pending items. *)
Lemma pending_fields uid db i :
  Realtime.foodEntries (Realtime.getPendingSyncItems uid db) !! i
  = Realtime.itemAt uid "foodEntries" i db
  /\ Realtime.exercises (Realtime.getPendingSyncItems uid db) !! i
     = Realtime.itemAt uid "exercises" i db
  /\ Realtime.workouts (Realtime.getPendingSyncItems uid db) !! i
     = Realtime.itemAt uid "workouts" i db.
Proof. repeat split. Qed.

(** Ids come from the clock: two entries of one type queued for one user at
    the same clock reading share their id, and the second replaces the
    first; queued at different readings, both are kept. *)
Theorem same_instant_entries_collide itemType now later1 later2 uid
  (first second : Payload) db :
  (Realtime.queueForSync itemType now later2 uid second
     (Realtime.queueForSync itemType now later1 uid first db).2).2
  = (Realtime.queueForSync itemType now later2 uid second db).2
  /\ forall other,
      other <> now ->
      let db' :=
        (Realtime.queueForSync itemType other later2 uid second
           (Realtime.queueForSync itemType now later1 uid first db).2).2 in
      Realtime.itemAt uid itemType now db'
      = Some {| Realtime.payload := first; Realtime.queuedAt := later1;
                Realtime.syncStatus := "pending" |}
      /\ Realtime.itemAt uid itemType other db'
         = Some {| Realtime.payload := second; Realtime.queuedAt := later2;
                   Realtime.syncStatus := "pending" |}.
Proof.
  split.
  - unfold Realtime.queueForSync, Realtime.setItem, Realtime.queueOf,
      Realtime.itemsOf. simpl.
    rewrite !lookup_insert_eq. simpl. rewrite !lookup_insert_eq. simpl.
    now rewrite !insert_insert_eq.
  - intros other Hother. unfold Realtime.queueForSync. simpl. split.
    + rewrite !itemAt_setItem. rewrite decide_False by (intros (_ & _ & ?);
        congruence).
      now rewrite decide_True.
    + rewrite itemAt_setItem. now rewrite decide_True.
Qed.

End RealtimeFacts.

Lemma same_instant_entries_collide_witness :
  (7 : Z) <> 5
  /\ Realtime.itemAt "u" "foodEntries" 5
       (Realtime.queueForSync "foodEntries" 7 7 "u" "rice"
          (Realtime.queueForSync "foodEntries" 5 5 "u" "oats"
             Realtime.empty).2).2
     = Some {| Realtime.payload := "oats"; Realtime.queuedAt := 5;
               Realtime.syncStatus := "pending" |}.
Proof.
  split; [discriminate |].
  exact (proj1 (proj2 (same_instant_entries_collide "foodEntries" 5 5 7 "u"
                         "oats" "rice" Realtime.empty)
                      7 ltac:(discriminate))).
Defined.

Lemma queued_item_round_trip_witness :
  ("u", "exercises", 9) <> ("u", "foodEntries", 5)
  /\ Realtime.itemAt "u" "exercises" 9
       (Realtime.queueForSync "foodEntries" 5 5 "u" "oats"
                              Realtime.empty).2
     = Realtime.itemAt "u" "exercises" 9 (@Realtime.empty string).
Proof.
  assert (Hne : ("u", "exercises", 9) <> ("u", "foodEntries", 5))
    by discriminate.
  split; [exact Hne |].
  exact (proj1 (proj2 (proj2 (queued_item_round_trip "foodEntries" 5 5 "u"
                                "oats" Realtime.empty)))
               "u" "exercises" 9 Hne).
Defined.

Section RealtimeCleanup.

Context {Payload : Type}.
Implicit Types db : Realtime.Tree Payload.
Implicit Types item : Realtime.Item Payload.

Lemma updatesOf_zero cutoffTime
  (queue : gmap string (gmap Z (Realtime.Item Payload))) :
  Realtime.updatesOf cutoffTime queue = O
  <-> forall t items i item,
        queue !! t = Some items -> items !! i = Some item ->
        Realtime.oldAndCompleted cutoffTime item = false.
Proof.
  unfold Realtime.updatesOf.
  apply (map_fold_weak_ind
           (fun n (m : gmap string (gmap Z (Realtime.Item Payload))) =>
              n = O
              <-> forall t items i item,
                    m !! t = Some items -> items !! i = Some item ->
                    Realtime.oldAndCompleted cutoffTime item = false)).
  - split; [| reflexivity]. intros _ t items i item Ht.
    now rewrite lookup_empty in Ht.
  - intros t items m n Hfresh IH. split.
    + intros Hsum t' items' i item Ht' Hi.
      assert (Hn : n = O) by lia.
      assert (Hsize : size (filter
                              (fun entry : Z * Realtime.Item Payload =>
                                 Realtime.oldAndCompleted cutoffTime entry.2
                                 = true) items) = O) by lia.
      destruct (decide (t = t')) as [<- | Hne].
      * rewrite lookup_insert_eq in Ht'. injection Ht' as <-.
        apply map_size_empty_iff in Hsize.
        destruct (Realtime.oldAndCompleted cutoffTime item) eqn:Hold;
          [| reflexivity].
        assert (Hin : filter (fun entry : Z * Realtime.Item Payload =>
                                Realtime.oldAndCompleted cutoffTime entry.2
                                = true) items !! i = Some item)
          by (apply map_lookup_filter_Some; auto).
        rewrite Hsize, lookup_empty in Hin. discriminate.
      * rewrite lookup_insert_ne in Ht' by exact Hne.
        exact (proj1 IH Hn t' items' i item Ht' Hi).
    + intros Hall.
      assert (Hn : n = O).
      { apply IH. intros t' items' i item Ht' Hi.
        apply (Hall t' items' i item); [| exact Hi].
        rewrite lookup_insert_ne; [exact Ht' |].
        intros <-. congruence. }
      assert (Hempty : filter (fun entry : Z * Realtime.Item Payload =>
                                 Realtime.oldAndCompleted cutoffTime entry.2
                                 = true) items = ∅).
      { apply map_empty. intros i.
        apply eq_None_not_Some. intros [item Hitem].
        apply map_lookup_filter_Some in Hitem. destruct Hitem as [Hi Hold].
        simpl in Hold.
        rewrite (Hall t items i item) in Hold;
          [discriminate | apply lookup_insert_eq | exact Hi]. }
      rewrite Hn, Hempty, map_size_empty. reflexivity.
Qed.

Lemma itemAt_cleanupOldData now uid daysOld db u t i :
  Realtime.itemAt u t i (Realtime.cleanupOldData now uid daysOld db).2
  = item ← Realtime.itemAt u t i db;
    if bool_decide (u = uid)
       && Realtime.oldAndCompleted (now - daysOld * 24 * 60 * 60 * 1000) item
    then None else Some item.
Proof.
  unfold Realtime.cleanupOldData. cbv zeta.
  set (cutoffTime := now - daysOld * 24 * 60 * 60 * 1000).
  destruct (Nat.ltb_spec 0 (Realtime.updatesOf cutoffTime
                              (Realtime.queueOf uid db))) as [Hsome | Hnone].
  - unfold Realtime.itemAt, Realtime.queueOf, Realtime.itemsOf. simpl.
    destruct (decide (u = uid)) as [-> | Hu].
    + rewrite lookup_insert_eq, bool_decide_eq_true_2 by reflexivity. simpl.
      rewrite lookup_fmap.
      destruct (default ∅ (Realtime.syncQueue db !! uid) !! t)
        as [items |]; simpl; [| now rewrite lookup_empty].
      rewrite map_lookup_filter.
      destruct (items !! i) as [item |]; simpl; [| reflexivity].
      case_guard as Hold; simpl in Hold.
      * now rewrite Hold.
      * destruct (Realtime.oldAndCompleted cutoffTime item);
          [reflexivity | contradiction].
    + rewrite lookup_insert_ne by congruence.
      rewrite bool_decide_eq_false_2 by exact Hu. simpl.
      now destruct (_ !! i).
  - simpl. assert (Hzero : Realtime.updatesOf cutoffTime
                             (Realtime.queueOf uid db) = O) by lia.
    unfold Realtime.itemAt.
    destruct (Realtime.itemsOf t (Realtime.queueOf u db) !! i)
      as [item |] eqn:Hitem; simpl; [| reflexivity].
    case_bool_decide as Hu; simpl; [| reflexivity]. subst u.
    unfold Realtime.itemsOf in Hitem.
    destruct (Realtime.queueOf uid db !! t) as [items |] eqn:Hitems;
      simpl in Hitem; [| now rewrite lookup_empty in Hitem].
    now rewrite (proj1 (updatesOf_zero cutoffTime _) Hzero t items i item).
Qed.

(** Cleanup removes from the queue of the user exactly the items that are
    marked completed and were queued before the cutoff, counts them, and
    leaves every other item, every other user and the sync status alone;
    it reports 0 exactly when no item of the user is old and completed. *)
Theorem cleanup_removes_old_completed now uid daysOld db :
  let cutoffTime := now - daysOld * 24 * 60 * 60 * 1000 in
  let '(cleanedItems, db') := Realtime.cleanupOldData now uid daysOld db in
  (forall u t i,
      Realtime.itemAt u t i db'
      = item ← Realtime.itemAt u t i db;
        if bool_decide (u = uid) && Realtime.oldAndCompleted cutoffTime item
        then None else Some item)
  /\ (cleanedItems = O
      <-> forall t i item,
            Realtime.itemAt uid t i db = Some item ->
            Realtime.oldAndCompleted cutoffTime item = false)
  /\ Realtime.syncStatusNode db' = Realtime.syncStatusNode db.
Proof.
  intros cutoffTime.
  pose proof (itemAt_cleanupOldData now uid daysOld db) as Hlookup.
  unfold Realtime.cleanupOldData in *. cbv zeta in *. fold cutoffTime in Hlookup.
  fold cutoffTime.
  assert (Hcount : Realtime.updatesOf cutoffTime (Realtime.queueOf uid db) = O
                   <-> forall t i item,
                         Realtime.itemAt uid t i db = Some item ->
                         Realtime.oldAndCompleted cutoffTime item = false).
  { rewrite updatesOf_zero. unfold Realtime.itemAt, Realtime.itemsOf. split.
    - intros Hall t i item Hitem.
      destruct (Realtime.queueOf uid db !! t) as [items |] eqn:Hitems;
        simpl in Hitem; [| now rewrite lookup_empty in Hitem].
      exact (Hall t items i item Hitems Hitem).
    - intros Hall t items i item Hitems Hitem.
      apply (Hall t i item). now rewrite Hitems. }
  destruct (0 <? Realtime.updatesOf cutoffTime (Realtime.queueOf uid db))%nat;
    (split; [exact Hlookup | split; [exact Hcount | reflexivity]]).
Qed.

Lemma built_allPending db : Realtime.built db -> Realtime.allPending db.
Proof.
  induction 1 as [| itemType now later uid entry db _ _ IH
                  | uid itemType itemId db _ IH
                  | now uid daysOld db _ IH
                  | now uid status db _ IH
                  | elsewhere uid db _ IH];
    intros u t i item Hitem.
  - unfold Realtime.itemAt, Realtime.queueOf, Realtime.itemsOf in Hitem.
    simpl in Hitem. rewrite lookup_empty in Hitem. simpl in Hitem.
    rewrite lookup_empty in Hitem. simpl in Hitem.
    now rewrite lookup_empty in Hitem.
  - unfold Realtime.queueForSync in Hitem. simpl in Hitem.
    rewrite itemAt_setItem in Hitem.
    destruct (decide _); [now injection Hitem as <- | eauto].
  - rewrite itemAt_markSyncCompleted in Hitem.
    destruct (decide _); [discriminate | eauto].
  - rewrite itemAt_cleanupOldData in Hitem.
    destruct (Realtime.itemAt u t i db) as [item' |] eqn:Hitem';
      simpl in Hitem; [| discriminate].
    destruct (_ && _); [discriminate |]. injection Hitem as <-. eauto.
  - exact (IH u t i item Hitem).
  - unfold Realtime.initializeUserData in Hitem.
    destruct (Realtime.userExists elsewhere uid db);
      exact (IH u t i item Hitem).
Qed.

(** Whatever the service has queued survives cleanup: in a tree built by
    the operations of the service every item is marked pending, no
    operation marks an item completed, and so cleanup, for any user and any
    age, removes nothing and reports 0 cleaned items. *)
Theorem cleanup_spares_queued_items db :
  Realtime.built db ->
  Realtime.allPending db
  /\ forall now uid daysOld,
      Realtime.cleanupOldData now uid daysOld db = (O, db).
Proof.
  intros Hbuilt. pose proof (built_allPending db Hbuilt) as Hpending.
  split; [exact Hpending |].
  intros now uid daysOld. unfold Realtime.cleanupOldData. cbv zeta.
  set (cutoffTime := now - daysOld * 24 * 60 * 60 * 1000).
  assert (Hzero : Realtime.updatesOf cutoffTime (Realtime.queueOf uid db) = O).
  { apply updatesOf_zero. intros t items i item Hitems Hitem.
    assert (Hat : Realtime.itemAt uid t i db = Some item).
    { unfold Realtime.itemAt, Realtime.itemsOf. now rewrite Hitems. }
    unfold Realtime.oldAndCompleted. rewrite (Hpending uid t i item Hat).
    apply andb_false_r. }
  rewrite Hzero. reflexivity.
Qed.

(** The sync status after an update always reads online, whatever the
    update said, with the clock reading as last sync, missing pending
    operations as 0 and an empty error as none; other users and the queue
    are untouched.  A user whose status was never written reads offline. *)
Theorem sync_status_always_online now uid status db :
  let db' := Realtime.updateSyncStatus now uid status db in
  let after := Realtime.getSyncStatus uid db' in
  Realtime.isOnline after = true
  /\ Realtime.lastSync after = Some now
  /\ Realtime.pendingOperations after
     = orZ (Realtime.new_pendingOperations status) 0
  /\ Realtime.lastError after <> Some ""
  /\ (forall other, other <> uid ->
                    Realtime.getSyncStatus other db'
                    = Realtime.getSyncStatus other db)
  /\ Realtime.syncQueue db' = Realtime.syncQueue db
  /\ (Realtime.syncStatusNode db !! uid = None ->
      Realtime.isOnline (Realtime.getSyncStatus uid db) = false).
Proof.
  unfold Realtime.getSyncStatus, Realtime.updateSyncStatus. simpl.
  rewrite lookup_insert_eq. simpl.
  split; [apply orb_true_r |]. split; [reflexivity |].
  split; [reflexivity |]. split.
  { destruct (Realtime.new_lastError status) as [[| c rest] |];
      discriminate. }
  split.
  { intros other Hother. now rewrite lookup_insert_ne by congruence. }
  split; [reflexivity |].
  intros ->. reflexivity.
Qed.

End RealtimeCleanup.

Lemma cleanup_spares_queued_items_witness :
  Realtime.built
    (Realtime.queueForSync "foodEntries" 5 5 "u" "oats" Realtime.empty).2
  /\ Realtime.cleanupOldData (400 * MS_PER_DAY) "u" 30
       (Realtime.queueForSync "foodEntries" 5 5 "u" "oats" Realtime.empty).2
     = (O, (Realtime.queueForSync "foodEntries" 5 5 "u" "oats"
                                  Realtime.empty).2).
Proof.
  assert (Hbuilt : Realtime.built
                     (Realtime.queueForSync "foodEntries" 5 5 "u" "oats"
                                            Realtime.empty).2).
  { apply Realtime.built_queue; [| apply Realtime.built_empty].
    apply elem_of_cons. now left. }
  split; [exact Hbuilt |].
  exact (proj2 (cleanup_spares_queued_items _ Hbuilt) (400 * MS_PER_DAY)
               "u" 30).
Defined.

Lemma sync_status_always_online_witness :
  (Realtime.syncStatusNode (@Realtime.empty string)) !! "u" = None
  /\ Realtime.isOnline (Realtime.getSyncStatus "u" (@Realtime.empty string))
     = false.
Proof.
  split; [reflexivity |].
  apply (proj2 (proj2 (proj2 (proj2 (proj2 (proj2
           (sync_status_always_online
              5 "u"
              {| Realtime.new_isOnline := Some false;
                 Realtime.new_pendingOperations := None;
                 Realtime.new_lastError := None |}
              (@Realtime.empty string)))))))).
  reflexivity.
Defined.

(** ** The food controller *)




Section FoodEntryFacts.

Variable int_column : string -> option Z.


End FoodEntryFacts.


(** * More properties of the backend *)

(** ** The balance service: failures, isolation, bounds *)

Section BalanceFacts.

Context {zone : Zone}.

Lemma is_ok_getDailyFoodCalories db userId date rows :
  users db = Ok rows ->
  is_ok (getDailyFoodCalories db userId date)
  = match List.find (by_firebase_uid userId) rows with
    | Some _ => is_ok (calorie_entries db)
    | None => true
    end.
Proof.
  intros Hrows. unfold getDailyFoodCalories, findOne, findAll.
  rewrite Hrows. simpl.
  destruct (List.find _ rows); [| reflexivity].
  destruct (calorie_entries db); reflexivity.
Qed.

Lemma is_ok_getDailyExerciseCalories db userId date rows :
  users db = Ok rows ->
  is_ok (getDailyExerciseCalories db userId date)
  = match List.find (by_firebase_uid userId) rows with
    | Some _ => is_ok (user_exercises db)
    | None => true
    end.
Proof.
  intros Hrows. unfold getDailyExerciseCalories, findOne, findAll.
  rewrite Hrows. simpl.
  destruct (List.find _ rows); [| reflexivity].
  destruct (user_exercises db); reflexivity.
Qed.

Lemma is_ok_calculateDailyBalance db userId date :
  is_ok (calculateDailyBalance db userId date) = balanceAnswers db userId.
Proof.
  unfold balanceAnswers, calculateDailyBalance.
  destruct (users db) as [rows | m] eqn:Hrows.
  - pose proof (is_ok_getDailyFoodCalories db userId date rows Hrows) as Hf.
    pose proof (is_ok_getDailyExerciseCalories db userId date rows Hrows)
      as He.
    destruct (getDailyFoodCalories db userId date);
      destruct (getDailyExerciseCalories db userId date);
      simpl in *; destruct (List.find _ rows); simpl;
      rewrite <- ?Hf, <- ?He; try reflexivity; try discriminate.
  - unfold getDailyFoodCalories, findOne. rewrite Hrows. reflexivity.
Qed.


(** The weekly balance answers exactly when the daily balance does, for
    every week start: a week fails as a whole or not at all. *)
Theorem weekly_answers_iff_daily db userId weekStartDate date :
  is_ok (getWeeklyBalance db userId weekStartDate)
  = is_ok (calculateDailyBalance db userId date).
Proof.
  rewrite is_ok_calculateDailyBalance. unfold getWeeklyBalance.
  destruct (balanceAnswers db userId) eqn:Hanswers.
  - pose proof (weekLoop_total db userId weekStartDate 7 0) as Hloop.
    destruct (weekLoop db userId weekStartDate 0 7); [reflexivity |].
    simpl in Hloop. exfalso.
    assert (false = true); [| discriminate].
    apply Hloop. intros d. now rewrite is_ok_calculateDailyBalance.
  - change (weekLoop db userId weekStartDate 0 7)
      with (dayBalance <- calculateDailyBalance db userId
                            (addDays weekStartDate 0) ;;
            rest <- weekLoop db userId weekStartDate (0 + 1) 6 ;;
            Ok (dayBalance :: rest)).
    pose proof (is_ok_calculateDailyBalance db userId
                  (addDays weekStartDate 0)) as Hday.
    rewrite Hanswers in Hday.
    destruct (calculateDailyBalance db userId (addDays weekStartDate 0));
      [discriminate | reflexivity].
Qed.

Lemma userFound_withEntries db userId user food logs :
  userFound db userId user ->
  userFound (withEntries db food logs) userId user.
Proof. intros (rows & Hrows & Hfind). exists rows. auto. Qed.

Lemma calculateDailyBalance_withEntries db userId user date food logs :
  userFound db userId user ->
  calculateDailyBalance (withEntries db food logs) userId date
  = Ok (balanceOf date
          (Math.round (Double.sum foodProduct
                                  (List.filter (countedFood user date) food)))
          (sumZ (fun e => default 0 (UserExercises.calories_burned e))
                (List.filter (countedExercise user date) logs))
          (getUserDailyGoal db userId)).
Proof.
  intros Hfound.
  pose proof (userFound_withEntries db userId user food logs Hfound) as Hw.
  apply (calculateDailyBalance_ok (withEntries db food logs)).
  - now apply getDailyFoodCalories_found.
  - now apply getDailyExerciseCalories_found.
Qed.

(** The exercise calories of a day are the calories burned, a missing value
    counting as 0, of the user's logs performed on that local day; the net
    calories are the food calories minus these. *)
Theorem daily_exercise_total db userId date user rows :
  userFound db userId user ->
  user_exercises db = Ok rows ->
  let burned :=
    sumZ (fun e => default 0 (UserExercises.calories_burned e))
         (List.filter (countedExercise user date) rows) in
  getDailyExerciseCalories db userId date = Ok burned
  /\ forall b, calculateDailyBalance db userId date = Ok b ->
               exercise_calories b = burned
               /\ net_calories b = food_calories b - burned.
Proof.
  intros Hfound Hrows burned.
  pose proof (getDailyExerciseCalories_found db userId date user rows
                Hfound Hrows) as Hburned.
  split; [exact Hburned |].
  intros b Hb. apply calculateDailyBalance_inv in Hb.
  destruct Hb as (food & exercise & _ & He & ->).
  rewrite Hburned in He. injection He as <-. split; reflexivity.
Qed.

(** Entries of another user or of another day never change the daily
    balance: appending a food entry and an exercise log that are not the
    user's of that day leaves it as it was. *)
Theorem unrelated_rows_leave_balance db userId user date food logs e l :
  userFound db userId user ->
  countedFood user date e = false ->
  countedExercise user date l = false ->
  calculateDailyBalance (withEntries db (food ++ [e]) (logs ++ [l]))
                        userId date
  = calculateDailyBalance (withEntries db food logs) userId date.
Proof.
  intros Hfound He Hl.
  rewrite !(calculateDailyBalance_withEntries db userId user) by assumption.
  rewrite !List.filter_app. simpl. rewrite He, Hl, !app_nil_r.
  reflexivity.
Qed.

Lemma filter_Permutation_bool {A} (p : A -> bool) (l l' : list A) :
  Permutation l l' -> Permutation (List.filter p l) (List.filter p l').
Proof.
  induction 1 as [| x l l' _ IH | x y l | l1 l2 l3 _ IH1 _ IH2]; simpl.
  - reflexivity.
  - destruct (p x); [now constructor | exact IH].
  - destruct (p x), (p y); try reflexivity. apply perm_swap.
  - now rewrite IH1.
Qed.

Lemma sumZ_Permutation {A} (f : A -> Z) (l l' : list A) :
  Permutation l l' -> sumZ f l = sumZ f l'.
Proof.
  induction 1 as [| x l l' _ IH | x y l | l1 l2 l3 _ IH1 _ IH2]; simpl;
    lia.
Qed.

Lemma calculateDailyBalance_log_order db userId date food logs logs' :
  Permutation logs logs' ->
  calculateDailyBalance (withEntries db food logs) userId date
  = calculateDailyBalance (withEntries db food logs') userId date.
Proof.
  intros Hlogs.
  destruct (users db) as [rows | m] eqn:Hrows.
  - destruct (List.find (by_firebase_uid userId) rows) as [user |] eqn:Hfind.
    + assert (Hfound : userFound db userId user) by (exists rows; auto).
      rewrite !(calculateDailyBalance_withEntries db userId user)
        by assumption.
      do 2 f_equal.
      apply sumZ_Permutation, filter_Permutation_bool, Hlogs.
    + unfold calculateDailyBalance, getDailyFoodCalories,
        getDailyExerciseCalories, getUserDailyGoal, findOne.
      simpl. rewrite Hrows. simpl. rewrite Hfind. reflexivity.
  - unfold calculateDailyBalance, getDailyFoodCalories, findOne.
    simpl. rewrite Hrows. reflexivity.
Qed.

(** The food total is a sum of doubles, added in the order of the store:
    three entries of one day give 36 calories in one order and 37 in
    another. *)
Lemma food_total_depends_on_row_order :
  Permutation threeSnacks (rev threeSnacks)
  /\ exists b b',
      calculateDailyBalance (withEntries lunchDb threeSnacks [])
                            "aLiCe0fIrEbAsEuId" noon = Ok b
      /\ calculateDailyBalance (withEntries lunchDb (rev threeSnacks) [])
                               "aLiCe0fIrEbAsEuId" noon = Ok b'
      /\ food_calories b = 36
      /\ food_calories b' = 37.
Proof.
  assert (Hfound : userFound lunchDb "aLiCe0fIrEbAsEuId" alice)
    by (exists [alice; newcomer]; split; reflexivity).
  assert (Hcounted : forall c s, countedFood alice noon (foodAt 1 c s noon)
                                 = true).
  { intros c s. unfold countedFood. cbn. now rewrite Z.eqb_refl. }
  split; [apply Permutation_rev |].
  rewrite !(calculateDailyBalance_withEntries lunchDb _ alice) by assumption.
  unfold threeSnacks. cbn [rev app List.filter].
  rewrite !Hcounted.
  eexists _, _. split; [reflexivity |]. split; [reflexivity |].
  split; vm_compute; reflexivity.
Qed.

(** The order in which the store returns the rows: the daily balance does
    not depend on the order of the exercise logs, whose calories are
    integers; it can depend on the order of the food entries, whose
    products are doubles, added as they come. *)
Theorem balance_row_order db userId date food logs logs' :
  (Permutation logs logs' ->
   calculateDailyBalance (withEntries db food logs) userId date
   = calculateDailyBalance (withEntries db food logs') userId date)
  /\ exists b b',
      Permutation threeSnacks (rev threeSnacks)
      /\ calculateDailyBalance (withEntries lunchDb threeSnacks [])
                               "aLiCe0fIrEbAsEuId" noon = Ok b
      /\ calculateDailyBalance (withEntries lunchDb (rev threeSnacks) [])
                               "aLiCe0fIrEbAsEuId" noon = Ok b'
      /\ food_calories b = 36
      /\ food_calories b' = 37.
Proof.
  split; [apply calculateDailyBalance_log_order |].
  destruct food_total_depends_on_row_order as (Hperm & b & b' & H).
  exists b, b'. split; [exact Hperm | exact H].
Qed.

(** The arithmetic of a daily balance: net is food minus exercise, the
    balance is goal minus net, remaining and excess are never negative and
    never both positive; with a positive goal their difference is the
    balance, and without one both are 0, as is the percentage. *)
Theorem daily_balance_arithmetic db userId date b :
  calculateDailyBalance db userId date = Ok b ->
  net_calories b = food_calories b - exercise_calories b
  /\ calorie_balance b = daily_goal b - net_calories b
  /\ 0 <= remaining_calories b
  /\ 0 <= excess_calories b
  /\ (remaining_calories b = 0 \/ excess_calories b = 0)
  /\ (0 < daily_goal b ->
      remaining_calories b - excess_calories b = calorie_balance b)
  /\ (daily_goal b <= 0 ->
      remaining_calories b = 0 /\ excess_calories b = 0
      /\ goal_percentage b = 0).
Proof.
  intros Hb. apply calculateDailyBalance_inv in Hb.
  destruct Hb as (food & exercise & _ & _ & ->).
  unfold balanceOf. simpl. unfold Math.abs.
  set (goal := getUserDailyGoal db userId). rewrite Z.gtb_ltb.
  destruct (Z.eqb_spec goal 0) as [Hzero | Hnonzero];
    destruct (Z.ltb_spec 0 goal) as [Hpos | Hneg];
    destruct (Z.leb_spec (food - exercise) goal) as [Hle | Hgt];
    rewrite ?Z.gtb_ltb; simpl;
    try (destruct (Z.ltb_spec goal (food - exercise)); simpl);
    repeat split; intros; try lia.
Qed.

End BalanceFacts.


Lemma daily_exercise_total_witness :
  userFound (dbWith [] twoRuns []) "aLiCe0fIrEbAsEuId" alice
  /\ getDailyExerciseCalories (zone := tokyo) (dbWith [] twoRuns [])
                              "aLiCe0fIrEbAsEuId" noon = Ok 860.
Proof.
  assert (Hfound : userFound (dbWith [] twoRuns []) "aLiCe0fIrEbAsEuId"
                             alice)
    by (exists [alice; newcomer]; split; reflexivity).
  split; [exact Hfound |].
  exact (proj1 (daily_exercise_total (zone := tokyo) (dbWith [] twoRuns [])
                  "aLiCe0fIrEbAsEuId" noon alice twoRuns Hfound eq_refl)).
Defined.

Lemma unrelated_rows_leave_balance_witness :
  userFound lunchDb "aLiCe0fIrEbAsEuId" alice
  /\ countedFood (zone := tokyo) alice noon strangerFood = false
  /\ countedExercise (zone := tokyo) alice noon
                     (runAt (noon + MS_PER_DAY) (Some 360)) = false
  /\ calculateDailyBalance (zone := tokyo)
       (withEntries lunchDb
          ([foodAt 1 1800 1 noon] ++ [strangerFood])
          ([] ++ [runAt (noon + MS_PER_DAY) (Some 360)]))
       "aLiCe0fIrEbAsEuId" noon
     = Ok lunchBalance.
Proof.
  assert (Hfound : userFound lunchDb "aLiCe0fIrEbAsEuId" alice)
    by (exists [alice; newcomer]; split; reflexivity).
  split; [exact Hfound |]. split; [reflexivity |]. split; [reflexivity |].
  rewrite (unrelated_rows_leave_balance (zone := tokyo) lunchDb
             "aLiCe0fIrEbAsEuId" alice
             noon [foodAt 1 1800 1 noon] [] strangerFood
             (runAt (noon + MS_PER_DAY) (Some 360))
             Hfound eq_refl eq_refl).
  reflexivity.
Defined.

Lemma balance_row_order_witness :
  Permutation twoRuns (rev twoRuns)
  /\ calculateDailyBalance (zone := tokyo) (withEntries lunchDb [] twoRuns)
                           "aLiCe0fIrEbAsEuId" noon
     = calculateDailyBalance (zone := tokyo)
         (withEntries lunchDb [] (rev twoRuns)) "aLiCe0fIrEbAsEuId" noon.
Proof.
  assert (Hswap : Permutation twoRuns (rev twoRuns))
    by apply Permutation_rev.
  split; [exact Hswap |].
  exact (proj1 (balance_row_order (zone := tokyo) lunchDb
                  "aLiCe0fIrEbAsEuId" noon [] twoRuns (rev twoRuns))
               Hswap).
Defined.

Lemma daily_balance_arithmetic_witness :
  calculateDailyBalance (zone := tokyo) lunchDb "aLiCe0fIrEbAsEuId" noon
  = Ok lunchBalance
  /\ (remaining_calories lunchBalance = 0
      \/ excess_calories lunchBalance = 0).
Proof.
  split; [reflexivity |].
  exact (proj1 (proj2 (proj2 (proj2 (proj2
           (daily_balance_arithmetic (zone := tokyo) lunchDb
              "aLiCe0fIrEbAsEuId" noon lunchBalance eq_refl)))))).
Defined.

Section BalanceBounds.

Context {zone : Zone}.

Lemma sumZ_bounds {A} (f : A -> Z) (hi : Z) (l : list A) :
  Forall (fun x => 0 <= f x <= hi) l ->
  0 <= sumZ f l <= Z.of_nat (length l) * hi.
Proof.
  induction 1 as [| x l Hx _ IH]; simpl sumZ; simpl length; [lia |].
  rewrite Nat2Z.inj_succ. lia.
Qed.

Lemma Forall_filter_bool {A} (P : A -> Prop) (p : A -> bool) (l : list A) :
  Forall P l -> Forall P (List.filter p l).
Proof.
  induction 1 as [| x l Hx _ IH]; simpl; [constructor |].
  destruct (p x); [now constructor | exact IH].
Qed.

Lemma sum_nonneg {A} (f : A -> Q) (l : list A) :
  Forall (fun x => (0 <= f x)%Q) l -> (0 <= Double.sum f l)%Q.
Proof.
  unfold Double.sum. intros Hall.
  assert (Hfold : forall start,
             (0 <= start)%Q ->
             (0 <= fold_left (fun total x => Double.add total (f x)) l
                             start)%Q).
  { induction Hall as [| x l Hx _ IH]; intros start Hstart; [exact Hstart |].
    cbn [fold_left]. apply IH. now apply add_nonneg. }
  apply Hfold. apply Qle_refl.
Qed.

Lemma foodProduct_bounds e :
  validFood e -> (0 <= foodProduct e <= inject_Z 1000000)%Q.
Proof.
  intros [[Hc0 Hc1] [Hs0 Hs1]]. unfold foodProduct.
  assert (Hc : (0 <= inject_Z (CalorieEntries.calories_per_serving e))%Q)
    by (change 0%Q with (inject_Z 0); now rewrite <- Zle_Qle).
  assert (Hs : (0 <= CalorieEntries.servings_consumed e)%Q) by lra.
  split; [now apply mul_nonneg |].
  change 1000000 with (10000 * 100).
  apply mul_le_Z; try assumption; try lia.
  now rewrite <- Zle_Qle.
Qed.

(** With rows that pass the validators of the models, the food and exercise
    calories of a day are never negative, the net calories never exceed the
    food calories, and a day holds at most 1 000 000 food calories and 5000
    exercise calories per stored row, the food table having fewer rows
    than the 2^32 a JavaScript array can hold. *)
Theorem validated_rows_bound_balance db userId date food logs b :
  calorie_entries db = Ok food ->
  user_exercises db = Ok logs ->
  Forall validFood food ->
  Forall validLog logs ->
  calculateDailyBalance db userId date = Ok b ->
  0 <= food_calories b
  /\ (Z.of_nat (length food) < 2 ^ 32 ->
      food_calories b <= 1000000 * Z.of_nat (length food))
  /\ 0 <= exercise_calories b <= 5000 * Z.of_nat (length logs)
  /\ net_calories b <= food_calories b.
Proof.
  intros Hfood Hlogs Hvf Hvl Hb.
  apply calculateDailyBalance_inv in Hb.
  destruct Hb as (f & e & Hf & He & ->). cbn.
  assert (Hfb : 0 <= f
                /\ (Z.of_nat (length food) < 2 ^ 32 ->
                    f <= 1000000 * Z.of_nat (length food))).
  { destruct (users db) as [rows | m] eqn:Hrows.
    2:{ unfold getDailyFoodCalories, findOne in Hf. rewrite Hrows in Hf.
        discriminate. }
    destruct (List.find (by_firebase_uid userId) rows) as [user |] eqn:Hfind.
    2:{ rewrite getDailyFoodCalories_absent in Hf by (exists rows; auto).
        injection Hf as <-. lia. }
    rewrite (getDailyFoodCalories_found db userId date user food) in Hf
      by (try (exists rows; auto); assumption).
    injection Hf as <-.
    set (mine := List.filter (countedFood user date) food).
    assert (Hmine : Forall validFood mine)
      by (apply Forall_filter_bool; exact Hvf).
    pose proof (List.filter_length_le (countedFood user date) food) as Hlen.
    fold mine in Hlen.
    split.
    - apply round_nonneg, sum_nonneg.
      eapply Forall_impl; [exact Hmine |].
      intros x Hx. now apply foodProduct_bounds.
    - intros Hrows32.
      apply Z.le_trans with (Z.of_nat (length mine) * 1000000); [| lia].
      rewrite <- (round_inject_Z (Z.of_nat (length mine) * 1000000)).
      apply round_mono.
      apply (sum_bounds foodProduct 1000000 mine); [lia | lia |].
      eapply Forall_impl; [exact Hmine |].
      intros x Hx. now apply foodProduct_bounds. }
  assert (Heb : 0 <= e <= 5000 * Z.of_nat (length logs)).
  { destruct (users db) as [rows | m] eqn:Hrows.
    2:{ unfold getDailyExerciseCalories, findOne in He. rewrite Hrows in He.
        discriminate. }
    destruct (List.find (by_firebase_uid userId) rows) as [user |] eqn:Hfind.
    2:{ rewrite getDailyExerciseCalories_absent in He by (exists rows; auto).
        injection He as <-. lia. }
    rewrite (getDailyExerciseCalories_found db userId date user logs) in He
      by (try (exists rows; auto); assumption).
    injection He as <-.
    set (mine := List.filter (countedExercise user date) logs).
    pose proof (List.filter_length_le (countedExercise user date) logs)
      as Hlen.
    fold mine in Hlen.
    pose proof (sumZ_bounds
                  (fun x => default 0 (UserExercises.calories_burned x))
                  5000 mine) as Hsum.
    assert (Hall : Forall (fun x => 0 <= default 0
                                          (UserExercises.calories_burned x)
                                    <= 5000) mine).
    { apply Forall_filter_bool. eapply Forall_impl; [exact Hvl |].
      intros x Hx. unfold validLog in Hx.
      destruct (UserExercises.calories_burned x) as [c |]; simpl;
        [now apply Hx | lia]. }
    specialize (Hsum Hall). lia. }
  lia.
Qed.

(** ** The weekly balance and the routes *)

Lemma round_seventh (t : Z) :
  -3 <= t - 7 * Math.round (inject_Z t / 7) <= 3.
Proof.
  unfold Math.round.
  set (x := (inject_Z t / 7 + (1 # 2))%Q).
  pose proof (Qfloor_le x) as Hlo. pose proof (Qlt_floor x) as Hhi.
  set (a := Qfloor x) in *.
  rewrite inject_Z_plus in Hhi. change (inject_Z 1) with 1%Q in Hhi.
  subst x. clearbody a.
  unfold Qdiv in Hlo, Hhi. change (/ 7)%Q with (1 # 7)%Q in Hlo, Hhi.
  assert (H1 : (inject_Z (14 * a) <= inject_Z (2 * t + 7))%Q).
  { rewrite inject_Z_plus, !inject_Z_mult.
    change (inject_Z 14) with 14%Q. change (inject_Z 2) with 2%Q.
    change (inject_Z 7) with 7%Q. lra. }
  assert (H2 : (inject_Z (2 * t + 7) < inject_Z (14 * a + 14))%Q).
  { rewrite !inject_Z_plus, !inject_Z_mult.
    change (inject_Z 14) with 14%Q. change (inject_Z 2) with 2%Q.
    change (inject_Z 7) with 7%Q. lra. }
  rewrite <- Zle_Qle in H1. rewrite <- Zlt_Qlt in H2. lia.
Qed.

(** Bounds of a weekly balance: the total net is the total food minus the
    total exercise; the days under and over goal lie between 0 and 7 and
    the success rate between 0 and 100; seven times the average net is
    within 3 calories of the total net; and all seven days carry the same
    daily goal, the one of the user. *)
Theorem weekly_balance_bounds db userId weekStartDate w :
  getWeeklyBalance db userId weekStartDate = Ok w ->
  let totals := weekly_totals w in
  total_net totals = total_food totals - total_exercise totals
  /\ 0 <= days_under_goal totals <= 7
  /\ 0 <= days_over_goal totals <= 7
  /\ 0 <= success_rate w <= 100
  /\ -3 <= total_net totals - 7 * weekly_average_net w <= 3
  /\ Forall (fun b => daily_goal b = getUserDailyGoal db userId)
            (daily_balances w).
Proof.
  intros Hw totals.
  pose proof (week_days_are_balances _ _ _ _ Hw) as [Hlen Hdays].
  apply getWeeklyBalance_inv in Hw.
  destruct Hw as (_ & Htotals & Havg & Hrate & _).
  fold totals in Htotals, Havg, Hrate.
  rewrite fold_addDay in Htotals. simpl in Htotals.
  pose proof (count_bounds is_under_goal (daily_balances w)) as Hunder.
  pose proof (count_bounds is_over_goal (daily_balances w)) as Hover.
  rewrite Hlen in Hunder, Hover.
  assert (Hnet : sumZ net_calories (daily_balances w)
                 = sumZ food_calories (daily_balances w)
                   - sumZ exercise_calories (daily_balances w)).
  { clear - Hdays. induction Hdays as [| b days Hb _ IH]; [reflexivity |].
    destruct Hb as (date & food & exercise & ->). simpl in *. lia. }
  rewrite Htotals in *. simpl in *.
  split; [lia |]. split; [lia |]. split; [lia |].
  split; [| split].
  - rewrite Hrate.
    assert (Hcases : count is_under_goal (daily_balances w) = 0
                     \/ count is_under_goal (daily_balances w) = 1
                     \/ count is_under_goal (daily_balances w) = 2
                     \/ count is_under_goal (daily_balances w) = 3
                     \/ count is_under_goal (daily_balances w) = 4
                     \/ count is_under_goal (daily_balances w) = 5
                     \/ count is_under_goal (daily_balances w) = 6
                     \/ count is_under_goal (daily_balances w) = 7) by lia.
    replace (0 + count is_under_goal (daily_balances w))
      with (count is_under_goal (daily_balances w)) by lia.
    decompose [or] Hcases; clear Hcases;
      match goal with H : count _ _ = _ |- _ => rewrite H end;
      vm_compute; split; discriminate.
  - rewrite Havg. apply round_seventh.
  - eapply Forall_impl; [exact Hdays |].
    intros b (date & food & exercise & ->). reflexivity.
Qed.

(** The quick stats of the summary: the user can eat more exactly when a
    positive goal is set and the net calories do not exceed it, so never on
    a day without a goal, although such a day is flagged under goal;
    calories remaining and calories over are never both positive; and the
    goal completion reads "No goal set" exactly for status NO_GOAL_SET. *)
Theorem summary_quick_stats now db uid today stats :
  summaryRoute now db uid = Success (today, stats) ->
  calculateDailyBalance db uid now = Ok today
  /\ (can_eat_more stats = true
      <-> 0 < daily_goal today /\ net_calories today <= daily_goal today)
  /\ (status today = NO_GOAL_SET ->
      can_eat_more stats = false /\ is_under_goal today = true)
  /\ (0 < calories_remaining stats -> can_eat_more stats = true)
  /\ (0 < calories_over stats -> can_eat_more stats = false)
  /\ (goal_completion stats = NoGoalSetText <-> status today = NO_GOAL_SET)
  /\ net_calories_today stats = food_calories today - exercise_calories today.
Proof.
  unfold summaryRoute. intros H.
  destruct (calculateDailyBalance db uid now) as [b | m] eqn:Hb;
    [| discriminate].
  injection H as <- <-. split; [reflexivity |].
  apply calculateDailyBalance_inv in Hb.
  destruct Hb as (food & exercise & _ & _ & ->).
  unfold quickStatsOf, balanceOf. simpl. unfold Math.abs.
  set (goal := getUserDailyGoal db uid). rewrite !Z.gtb_ltb.
  destruct (Z.eqb_spec goal 0) as [Hzero | Hnonzero];
    destruct (Z.ltb_spec 0 goal) as [Hpos | Hneg];
    destruct (Z.leb_spec (food - exercise) goal) as [Hle | Hgt];
    try (destruct (Z.ltb_spec goal (food - exercise)));
    simpl; repeat split; intros; try lia; try discriminate;
    try reflexivity; try tauto.
Qed.

(** Without a week start, the weekly route reports the week that starts
    on the Monday, of the local calendar, on or before today, at the time
    of day of the request: the balance of today is one of its seven
    days. *)
Theorem default_week_holds_today now db uid w :
  weeklyRoute now db uid NoDate = Success w ->
  let start := defaultWeekStart now in
  getDay start = 1
  /\ week_start w = isoDay start
  /\ exists i today,
      0 <= i <= 6
      /\ addDays start i = now
      /\ daily_balances w !! Z.to_nat i = Some today
      /\ calculateDailyBalance db uid now = Ok today.
Proof.
  unfold weeklyRoute. cbv zeta.
  destruct (getWeeklyBalance db uid (defaultWeekStart now)) as [week | m]
    eqn:Hweek; [| discriminate].
  intros [= ->].
  pose proof (getWeeklyBalance_inv _ _ _ _ Hweek)
    as (Hloop & _ & _ & _ & Hstart).
  apply weekLoop_days in Hloop.
  unfold defaultWeekStart, getDay in *. cbv zeta in *.
  set (d := localDay now) in *.
  assert (Hkind : 0 <= (d + 4) mod 7 < 7) by (apply Z.mod_pos_bound; lia).
  pose proof (Z.div_mod (d + 4) 7 ltac:(lia)) as Hdiv.
  set (k := (d + 4) mod 7) in *. set (q := (d + 4) / 7) in *.
  set (offset := if k =? 0 then 6 else k - 1) in *.
  assert (Hoffset : 0 <= offset <= 6
                    /\ d - offset + 4 = 7 * (if k =? 0 then q - 1 else q) + 1).
  { subst offset. destruct (Z.eqb_spec k 0); lia. }
  destruct Hoffset as [Hrange Hmonday].
  split; [| split; [exact Hstart |]].
  - rewrite localDay_addDays. fold d.
    replace (d + - offset + 4) with (d - offset + 4) by lia.
    rewrite Hmonday, Z.add_comm, Z.mul_comm, Z.mod_add by lia.
    reflexivity.
  - assert (Hback : addDays (addDays now (- offset)) offset = now)
      by (unfold addDays; lia).
    assert (Hnth : seqZ 0 (Z.of_nat 7) !! Z.to_nat offset = Some offset).
    { rewrite lookup_seqZ. split; lia. }
    destruct (Forall2_lookup_l _ _ _ _ _ Hloop Hnth)
      as (today & Htoday & Hbalance & _).
    exists offset, today. rewrite Hback in Hbalance. auto.
Qed.

Lemma fold_addExercise logs :
  forall totals,
    fold_left addExercise logs totals
    = {| total_calories_burned :=
           total_calories_burned totals
           + sumZ (fun e => default 0 (UserExercises.calories_burned e)) logs;
         total_duration_minutes :=
           total_duration_minutes totals
           + sumZ (fun e => default 0 (UserExercises.duration_minutes e))
                  logs;
         total_exercises := total_exercises totals + Z.of_nat (length logs) |}.
Proof.
  induction logs as [| log logs IH]; intros totals.
  - destruct totals; simpl. f_equal; lia.
  - simpl fold_left. rewrite IH. unfold addExercise. simpl sumZ.
    simpl length. rewrite !orZ_default, Nat2Z.inj_succ. simpl.
    f_equal; lia.
Qed.

Lemma oldestFirst_sorted rows :
  StronglySorted oldestToNewest (oldestFirst rows).
Proof.
  unfold oldestFirst.
  pose proof (sortDesc_sorted
                (fun log => inject_Z (- UserExercises.performed_at log))
                rows) as Hsorted.
  induction Hsorted as [| a l _ IH Hall]; constructor; [exact IH |].
  eapply Forall_impl; [exact Hall |].
  intros b Hb. unfold descending, oldestToNewest in *.
  rewrite <- Zle_Qle in Hb. lia.
Qed.

(** The daily exercise listing answers 404 for a user that is absent, where
    the balance counts 0; for a user that is found it lists the user's logs
    of the day, oldest first, and its total of calories burned is the
    exercise calories of the balance of that day. *)
Theorem daily_exercise_listing now db uid date :
  (userAbsent db uid ->
   getDailyExercises now db uid date = Missing "User not found"
   /\ getDailyExerciseCalories db uid (default now date) = Ok 0)
  /\ (forall user rows,
         userFound db uid user ->
         user_exercises db = Ok rows ->
         exists listed totals,
           getDailyExercises now db uid date
           = Success (isoDay (default now date), listed, totals)
           /\ Permutation listed
                (List.filter (countedExercise user (default now date)) rows)
           /\ StronglySorted oldestToNewest listed
           /\ total_exercises totals = Z.of_nat (length listed)
           /\ getDailyExerciseCalories db uid (default now date)
              = Ok (total_calories_burned totals)).
Proof.
  split.
  - intros Habsent. split; [| now apply getDailyExerciseCalories_absent].
    destruct Habsent as (us & Hus & Hfind).
    unfold getDailyExercises, findOne. rewrite Hus. simpl.
    now rewrite Hfind.
  - intros user rows Hfound Hrows.
    rewrite (getDailyExerciseCalories_found db uid _ user rows Hfound Hrows).
    destruct Hfound as (us & Hus & Hfind).
    unfold getDailyExercises, findOne, findAll. rewrite Hus, Hrows. simpl.
    rewrite Hfind.
    erewrite filter_ext_eq.
    2:{ intros e. rewrite between_day. reflexivity. }
    fold (countedExercise user (default now date)).
    set (mine := List.filter (countedExercise user (default now date)) rows).
    assert (Hperm : Permutation (oldestFirst mine) mine)
      by apply sortDesc_perm.
    eexists _, _. split; [reflexivity |].
    split; [exact Hperm |]. split; [apply oldestFirst_sorted |].
    rewrite fold_addExercise. simpl.
    split; [reflexivity |].
    f_equal. symmetry. now apply sumZ_Permutation.
Qed.

End BalanceBounds.

Lemma validated_rows_bound_balance_witness :
  Forall validFood [foodAt 1 1800 1 noon]
  /\ Forall validLog []
  /\ calculateDailyBalance (zone := tokyo) lunchDb "aLiCe0fIrEbAsEuId" noon
     = Ok lunchBalance
  /\ food_calories lunchBalance <= 1000000 * 1.
Proof.
  assert (Hvf : Forall validFood [foodAt 1 1800 1 noon]).
  { constructor; [| constructor]. unfold validFood. simpl.
    split; [lia |]. split; discriminate. }
  assert (Hvl : Forall validLog []) by constructor.
  split; [exact Hvf |]. split; [exact Hvl |]. split; [reflexivity |].
  apply (proj1 (proj2 (validated_rows_bound_balance (zone := tokyo) lunchDb
                         "aLiCe0fIrEbAsEuId" noon [foodAt 1 1800 1 noon] []
                         lunchBalance eq_refl eq_refl Hvf Hvl eq_refl))).
  simpl. lia.
Defined.

Lemma weekly_balance_bounds_witness :
  exists w,
    getWeeklyBalance (zone := tokyo) lunchDb "aLiCe0fIrEbAsEuId" noon = Ok w
    /\ 0 <= success_rate w <= 100.
Proof.
  eexists. split; [vm_compute; reflexivity |].
  exact (proj1 (proj2 (proj2 (proj2
           (weekly_balance_bounds (zone := tokyo) lunchDb
              "aLiCe0fIrEbAsEuId" noon _ eq_refl))))).
Defined.

Lemma summary_quick_stats_witness :
  summaryRoute (zone := tokyo) noon lunchDb "aLiCe0fIrEbAsEuId"
  = Success (lunchBalance, quickStatsOf lunchBalance)
  /\ (0 < calories_remaining (quickStatsOf lunchBalance) ->
      can_eat_more (quickStatsOf lunchBalance) = true).
Proof.
  split; [reflexivity |].
  exact (proj1 (proj2 (proj2 (proj2
           (summary_quick_stats (zone := tokyo) noon lunchDb
              "aLiCe0fIrEbAsEuId" lunchBalance (quickStatsOf lunchBalance)
              eq_refl))))).
Defined.

Lemma default_week_holds_today_witness :
  exists w today,
    weeklyRoute (zone := tokyo) evening lunchDb "aLiCe0fIrEbAsEuId" NoDate
    = Success w
    /\ daily_balances w !! 4%nat = Some today
    /\ calculateDailyBalance (zone := tokyo) lunchDb "aLiCe0fIrEbAsEuId"
                             evening = Ok today.
Proof.
  destruct (weeklyRoute (zone := tokyo) evening lunchDb "aLiCe0fIrEbAsEuId"
                        NoDate) as [w | m | m | m] eqn:Hroute;
    try (vm_compute in Hroute; discriminate).
  destruct (default_week_holds_today (zone := tokyo) evening lunchDb
              "aLiCe0fIrEbAsEuId" w Hroute)
    as (_ & _ & i & today & Hi & Hback & Hnth & Htoday).
  exists w, today. split; [reflexivity |]. split; [| exact Htoday].
  assert (Hmonday : defaultWeekStart (zone := tokyo) evening
                    = addDays evening (-4)) by (vm_compute; reflexivity).
  assert (Hfour : i = 4).
  { rewrite Hmonday in Hback. unfold addDays, MS_PER_DAY in Hback. lia. }
  subst i. exact Hnth.
Defined.

Lemma daily_exercise_listing_witness :
  exists listed totals,
    getDailyExercises (zone := tokyo) evening (dbWith [] threeRuns [running])
                      "aLiCe0fIrEbAsEuId" (Some noon)
    = Success (0, listed, totals)
    /\ total_exercises totals = 2
    /\ total_calories_burned totals = 860
    /\ getDailyExerciseCalories (zone := tokyo)
         (dbWith [] threeRuns [running]) "aLiCe0fIrEbAsEuId" noon
       = Ok 860.
Proof.
  assert (Hfound : userFound (dbWith [] threeRuns [running])
                             "aLiCe0fIrEbAsEuId" alice)
    by (exists [alice; newcomer]; split; reflexivity).
  destruct (proj2 (daily_exercise_listing (zone := tokyo) evening
                     (dbWith [] threeRuns [running]) "aLiCe0fIrEbAsEuId"
                     (Some noon))
              alice threeRuns Hfound eq_refl)
    as (listed & totals & Hlist & Hperm & _ & Hcount & Hcalories).
  change (default evening (Some noon)) with noon in Hlist, Hcalories.
  exists listed, totals. split; [exact Hlist |].
  apply Permutation_length in Hperm.
  change (length (List.filter _ threeRuns)) with 2%nat in Hperm.
  split; [rewrite Hcount, Hperm; reflexivity |].
  assert (Hburned : getDailyExerciseCalories (zone := tokyo)
                      (dbWith [] threeRuns [running]) "aLiCe0fIrEbAsEuId"
                      noon = Ok 860) by (vm_compute; reflexivity).
  split; [| exact Hburned].
  rewrite Hburned in Hcalories. now injection Hcalories.
Defined.

(** ** Worked examples *)

(** Running for a moderately active user who wants to lose weight: 40 for
    the first priority category and 25 for burning more than 8 calories per
    minute; fused with the goal-based weight, round(65 x 0.35) = 23. *)
Example running_goal_score :
  goalScore alice (goalConfigOf alice) running = 65.
Proof. reflexivity. Qed.

Example running_fused :
  map (fun f => (source f, final_ai_score f, fused_confidence f))
      (fuseRecommendations
         {| goalBased := [scoreExercise alice (goalConfigOf alice) running];
            progressive_ := []; behavioral_ := []; balance_ := [];
            adaptive_ :=
              [{| rec_exercise := running; ai_score := 60;
                  recommendation_reason := AdaptedToState 0 |}] |})
  = [(goal_based, 23, 80)].
Proof. vm_compute. reflexivity. Qed.

(** Where the doubles part from the decimals.  A raw score of 90 with the
    goal-based weight: 90 x 0.35 is 31.499999999999996 and rounds to 31,
    not to the 32 of 31.5. *)
Example weighted_score_in_doubles :
  Math.round (Double.mul 90 (weightOf goal_based)) = 31
  /\ Math.round (90 * weightOf goal_based) = 32.
Proof. split; vm_compute; reflexivity. Qed.

(** 25 calories per serving and 0.58 servings: 14.499999999999998, so 14
    and not the 15 of 14.5. *)
Example food_total_in_doubles :
  getDailyFoodCalories (zone := tokyo)
    (dbWith [foodAt 1 25 (58 # 100) noon] [] []) "aLiCe0fIrEbAsEuId" noon
  = Ok 14
  /\ Math.round (25 * (58 # 100)) = 15.
Proof. split; vm_compute; reflexivity. Qed.

(** 209 calories against a preset of 2.2 x 100: the difference is 5% of
    220 in decimals, 5.000000000000004% in doubles, and the log counts as
    a manual input. *)
Example manual_flag_in_doubles :
  (countLog (0, 0%Q, 0) longStretch).1.1 = 1
  /\ Qle_bool ((Qabs (209 - (22 # 10) * 100) / ((22 # 10) * 100)) * 100) 5
     = true.
Proof. split; vm_compute; reflexivity. Qed.

(** One log of 30 minutes of running entered as 500 calories, where the
    preset gives 360: the only log is a manual one, and the user counts as
    a tracker user. *)
Example one_manual_log :
  statsOf [runAt noon (Some 500)]
  = {| total_workouts := 1; manual_input_rate := 100;
       is_likely_tracker_user := true; avg_manual_vs_preset_diff := 140 |}.
Proof. vm_compute. reflexivity. Qed.
